(** * Role-based task and attendance backend: a shallow embedding

    The development follows the Django application under [myproject/myapp]:
    - [models.py]      the three tables ([UserProfile], [Task], [Attendance]);
    - [serializers.py] the three [ModelSerializer]s;
    - [views.py]       the class-based views, one Rocq function per HTTP method;
    - [tasks.py]       the two periodic mail jobs.

    Tables are finite maps from primary key to row, a view is a function from
    the store and the request to an outcome and the store afterwards, and an
    uncaught Python exception is an explicit outcome. *)

From Stdlib Require Import ZArith String Ascii List Lia.
From stdpp Require Import base option gmap strings list pretty sorting.

Open Scope string_scope.
Open Scope Z_scope.

(** ** Python data *)

(** What a parsed request body can hold (JSON): [request.data] maps field
    names to such values. *)
#[warnings="-register-all"]
Inductive value : Type :=
| VNone
| VBool (b : bool)
| VInt (n : Z)
| VStr (s : string)
| VList (l : list value).

Record Date : Type := mkDate { year : Z; month : Z; day : Z }.

Record DateTime : Type := mkDateTime { date : Date; seconds : Z }.

#[global] Instance Date_eq_dec : EqDecision Date.
Proof. solve_decision. Defined.

#[global] Instance DateTime_eq_dec : EqDecision DateTime.
Proof. solve_decision. Defined.

(** Attribute values of model instances and entries of [validated_data]. *)
Inductive pyobj : Type :=
| ONone
| OBool (b : bool)
| OInt (n : Z)
| OStr (s : string)
| ODateTime (t : DateTime)
| ODate (d : Date)
| OInstance (pk : Z)          (* a related [UserProfile], known by its key *)
| OPks (l : list Z).          (* the keys of a many-to-many relation *)

#[global] Instance pyobj_eq_dec : EqDecision pyobj.
Proof. solve_decision. Defined.

Inductive Exn : Type :=
| KeyError (key : string)
| FieldError (keyword : string)
| IntegrityError (column : string)
| SMTPException.

(** ** models.py *)

Module Types.
Definition SUPERVISOR : string := "Supervisor".
Definition INTERN : string := "Intern".
Definition choices : list string := [SUPERVISOR; INTERN].
End Types.

(** [class UserProfile(AbstractUser)]: the columns of Django's [AbstractUser]
    with [email] and [username] redeclared, and [role] added.  The model
    declares no birth date. *)
Record UserProfile : Type := mkUserProfile {
  password : string;
  last_login : option DateTime;
  is_superuser : bool;
  username : string;
  first_name : string;
  last_name : string;
  email : string;
  is_staff : bool;
  is_active : bool;
  date_joined : DateTime;
  role : string;
  groups : list Z;
  user_permissions : list Z
}.

Record Task : Type := mkTask {
  title : string;
  description : string;
  created_at : DateTime;
  due_date : option DateTime;
  is_completed : bool;
  assigned_to : option Z;       (* ForeignKey(UserProfile, on_delete=CASCADE) *)
  assigned_by : option Z;       (* ForeignKey(UserProfile, on_delete=SET_NULL) *)
  birth_date : option Date
}.

Record Attendance : Type := mkAttendance {
  user : Z;                     (* ForeignKey(UserProfile, on_delete=CASCADE) *)
  status : string;
  check_in_time : DateTime;
  check_out_time : option DateTime
}.

Definition Attendance_status_choices : list string := ["P"; "A"; "L"].

#[global] Instance UserProfile_eq_dec : EqDecision UserProfile.
Proof. solve_decision. Defined.

#[global] Instance Task_eq_dec : EqDecision Task.
Proof. solve_decision. Defined.

#[global] Instance Attendance_eq_dec : EqDecision Attendance.
Proof. solve_decision. Defined.

(** The database: one finite map per table, keyed by primary key, and the
    keys of the [auth] groups and permissions a profile may refer to. *)
Record Store : Type := mkStore {
  user_profiles : gmap Z UserProfile;
  tasks : gmap Z Task;
  attendances : gmap Z Attendance;
  auth_groups : gset Z;
  auth_permissions : gset Z
}.

(** Single-column updates. *)
Definition set_password (u : UserProfile) (password' : string) : UserProfile :=
  {| password := password'; last_login := last_login u;
     is_superuser := is_superuser u; username := username u;
     first_name := first_name u; last_name := last_name u; email := email u;
     is_staff := is_staff u; is_active := is_active u;
     date_joined := date_joined u; role := role u; groups := groups u;
     user_permissions := user_permissions u |}.

Definition set_is_completed (t : Task) (b : bool) : Task :=
  {| title := title t; description := description t; created_at := created_at t;
     due_date := due_date t; is_completed := b; assigned_to := assigned_to t;
     assigned_by := assigned_by t; birth_date := birth_date t |}.

Definition set_assigned_by (t : Task) (fk : option Z) : Task :=
  {| title := title t; description := description t; created_at := created_at t;
     due_date := due_date t; is_completed := is_completed t;
     assigned_to := assigned_to t; assigned_by := fk; birth_date := birth_date t |}.

(** [AutoField]: a new row gets a positive key above every key in use.  (The
    database never hands a key out twice; here the key of a deleted row is
    handed out again when no key above it is in use.) *)
Definition next_pk {A : Type} (table : gmap Z A) : Z :=
  map_fold (λ k _ acc, Z.max k acc) 0 table + 1.

(** [Model.objects.all()]: the rows of a table with their keys.  None of the
    models declares an ordering, and the rows come as the table is scanned,
    in the order of their primary keys. *)
Definition objects_all {A : Type} (table : gmap Z A) : list (Z * A) :=
  omap (λ pk, (λ row, (pk, row)) <$> table !! pk)
    (merge_sort Z.le (elements (dom table))).

(** ** The framework around the application

    Django, the REST framework and the mail transport are not part of the
    application; what the code asks of them is collected here. *)
Record EmailMessage : Type := mkEmailMessage {
  subject : string;
  message : string;
  from_email : string;
  recipient_list : list string
}.

Class Environment : Type := {
  timezone_now : DateTime;
  parse_datetime : string → option DateTime;
  parse_date : string → option Date;
  datetime_isoformat : DateTime → string;
  date_isoformat : Date → string;
  int_of_str : string → option Z;
  validate_email : string → bool;
  make_password : string → string;
  normalize_email : string → string;
  normalize_username : string → string;
  EMAIL_HOST_USER : string;
  smtp_delivers : EmailMessage → bool
}.

(** ** HTTP *)

Definition HTTP_200_OK : Z := 200.
Definition HTTP_201_CREATED : Z := 201.
Definition HTTP_400_BAD_REQUEST : Z := 400.
Definition HTTP_401_UNAUTHORIZED : Z := 401.
Definition HTTP_404_NOT_FOUND : Z := 404.

(** [request.user] is the profile the token authentication loaded, with its
    key; [request.data] is the parsed body. *)
Record Request : Type := mkRequest {
  request_user_id : Z;
  request_user : UserProfile;
  request_data : gmap string value
}.

Inductive Body : Type :=
| Error (msg : string)                      (* {'error': msg} *)
| Message (msg : string)                    (* {'message': msg} *)
| Data (d : gmap string value)              (* serializer.data *)
| DataList (l : list (gmap string value))   (* serializer.data, many=True *)
| Errors (e : gmap string string).          (* serializer.errors *)

Record Response : Type := mkResponse {
  response_data : Body;
  status_code : Z
}.

Inductive Outcome : Type :=
| Returns (r : Response)
| Raises (e : Exn).

(** The request is made by a stored user. *)
Definition authenticated (s : Store) (request : Request) : Prop :=
  user_profiles s !! request_user_id request = Some (request_user request).

(** ** rest_framework.fields, as far as the three serializers use them

    Request bodies are JSON.  Left out: white space outside ASCII in
    [strip], the spellings of a truth value that later releases of the
    framework add to the two lists, and the empty text under a related
    field, which the framework reads as null. *)

Inductive FieldKind : Type :=
| IntegerField
| CharField (max_length : nat) (allow_blank : bool)
| EmailField (max_length : nat)
| BooleanField
| DateTimeField
| DateField
| ChoiceField (choices : list string)
| PrimaryKeyRelatedField                        (* queryset: every profile *)
| ManyRelatedField (queryset : Store → gset Z).

Record Field : Type := mkField {
  field_name : string;
  kind : FieldKind;
  required : bool;
  allow_null : bool;
  read_only : bool;
  write_only : bool;
  validators : list (pyobj → option string)
}.

Inductive FieldResult : Type :=
| Validated (o : pyobj)
| SkipField
| ValidationError (detail : string).

Definition is_space (c : ascii) : bool :=
  let n := Z.of_nat (nat_of_ascii c) in
  ((n =? 32) || ((9 <=? n) && (n <=? 13)) || ((28 <=? n) && (n <=? 31)))%Z.

Fixpoint lstrip (s : string) : string :=
  match s with
  | String c s' => if is_space c then lstrip s' else s
  | EmptyString => EmptyString
  end.

(** [str.strip()] *)
Definition strip (s : string) : string :=
  String.rev (lstrip (String.rev (lstrip s))).

Fixpoint has_null_character (s : string) : bool :=
  match s with
  | String c s' => (nat_of_ascii c =? 0)%nat || has_null_character s'
  | EmptyString => false
  end.

Definition TRUE_VALUES : list string :=
  ["t"; "T"; "y"; "Y"; "yes"; "Yes"; "YES"; "true"; "True"; "TRUE";
   "on"; "On"; "ON"; "1"].

Definition FALSE_VALUES : list string :=
  ["f"; "F"; "n"; "N"; "no"; "No"; "NO"; "false"; "False"; "FALSE";
   "off"; "Off"; "OFF"; "0"].

Section Serializers.
Context {env : Environment}.

(** A key given as a number or as its decimal text; [True]/[False] are
    refused although Python counts them as integers. *)
Definition pk_of_value (data : value) : option Z :=
  match data with
  | VInt n => Some n
  | VStr x => int_of_str x
  | _ => None
  end.

Definition related_pk (queryset : gset Z) (data : value) : option Z :=
  match pk_of_value data with
  | Some pk => if bool_decide (pk ∈ queryset) then Some pk else None
  | None => None
  end.

Fixpoint related_pks (queryset : gset Z) (items : list value) : option (list Z) :=
  match items with
  | [] => Some []
  | item :: rest =>
      match related_pk queryset item, related_pks queryset rest with
      | Some pk, Some pks => Some (pk :: pks)
      | _, _ => None
      end
  end.

Definition to_internal_value (s : Store) (k : FieldKind) (data : value)
  : pyobj + string :=
  match k with
  | IntegerField =>
      match pk_of_value data with
      | Some n => inl (OInt n)
      | None => inr "A valid integer is required."
      end
  | CharField _ _ | EmailField _ =>
      match data with
      | VStr x => inl (OStr (strip x))
      | VInt n => inl (OStr (strip (pretty n)))
      | _ => inr "Not a valid string."
      end
  | BooleanField =>
      match data with
      | VBool b => inl (OBool b)
      | VInt 1 => inl (OBool true)
      | VInt 0 => inl (OBool false)
      | VStr x =>
          if bool_decide (x ∈ TRUE_VALUES) then inl (OBool true)
          else if bool_decide (x ∈ FALSE_VALUES) then inl (OBool false)
          else inr "Must be a valid boolean."
      | _ => inr "Must be a valid boolean."
      end
  | DateTimeField =>
      match data with
      | VStr x =>
          match parse_datetime x with
          | Some t => inl (ODateTime t)
          | None => inr "Datetime has wrong format."
          end
      | _ => inr "Datetime has wrong format."
      end
  | DateField =>
      match data with
      | VStr x =>
          match parse_date x with
          | Some d => inl (ODate d)
          | None => inr "Date has wrong format."
          end
      | _ => inr "Date has wrong format."
      end
  | ChoiceField choices =>
      let accept (x : string) :=
        if bool_decide (x ∈ choices) then inl (OStr x)
        else inr "Not a valid choice." in
      match data with
      | VStr x => accept x
      | VInt n => accept (pretty n)
      | VBool true => accept "True"
      | VBool false => accept "False"
      | _ => inr "Not a valid choice."
      end
  | PrimaryKeyRelatedField =>
      match pk_of_value data with
      | Some pk =>
          if bool_decide (pk ∈ dom (user_profiles s)) then inl (OInstance pk)
          else inr "Invalid pk - object does not exist."
      | None => inr "Incorrect type. Expected pk value."
      end
  | ManyRelatedField queryset =>
      match data with
      | VList items =>
          match related_pks (queryset s) items with
          | Some pks => inl (OPks pks)
          | None => inr "Invalid pk - object does not exist."
          end
      | _ => inr "Expected a list of items."
      end
  end.

(** The validators a field class brings along. *)
Definition kind_validators (k : FieldKind) : list (pyobj → option string) :=
  let max_length_validator (n : nat) (o : pyobj) :=
    match o with
    | OStr x =>
        if (String.length x <=? n)%nat then None
        else Some "Ensure this field has no more than max_length characters."
    | _ => None
    end in
  let prohibit_null_characters (o : pyobj) :=
    match o with
    | OStr x =>
        if has_null_character x then Some "Null characters are not allowed."
        else None
    | _ => None
    end in
  let email_validator (o : pyobj) :=
    match o with
    | OStr x =>
        if validate_email x then None else Some "Enter a valid email address."
    | _ => None
    end in
  match k with
  | CharField n _ => [max_length_validator n; prohibit_null_characters]
  | EmailField n => [max_length_validator n; prohibit_null_characters; email_validator]
  | _ => []
  end.

Fixpoint run_validators (vs : list (pyobj → option string)) (o : pyobj)
  : option string :=
  match vs with
  | [] => None
  | v :: rest =>
      match v o with
      | Some detail => Some detail
      | None => run_validators rest o
      end
  end.

Definition allows_blank (k : FieldKind) : bool :=
  match k with
  | CharField _ b => b
  | _ => false
  end.

Definition is_blank (k : FieldKind) (data : option value) : bool :=
  match k, data with
  | (CharField _ _ | EmailField _), Some (VStr x) => bool_decide (strip x = "")
  | _, _ => false
  end.

(** [Field.run_validation], with [CharField]'s test for blank input in
    front.  [data = None] is the framework's [empty]: the key is absent
    from the payload. *)
Definition run_validation (s : Store) (partial : bool) (f : Field)
  (data : option value) : FieldResult :=
  if is_blank (kind f) data then
    if allows_blank (kind f) then Validated (OStr "")
    else ValidationError "This field may not be blank."
  else
    match data with
    | None =>
        if partial then SkipField
        else if required f then ValidationError "This field is required."
        else SkipField
    | Some VNone =>
        if allow_null f then Validated ONone
        else ValidationError "This field may not be null."
    | Some v =>
        match to_internal_value s (kind f) v with
        | inr detail => ValidationError detail
        | inl o =>
            match run_validators (kind_validators (kind f) ++ validators f) o with
            | Some detail => ValidationError detail
            | None => Validated o
            end
        end
    end.

(** [Serializer.to_internal_value]: the loop over the writable fields,
    filling [validated_data] and [errors]. *)
Fixpoint run_fields (s : Store) (partial : bool) (fields : list Field)
  (data : gmap string value) (ret : gmap string pyobj)
  (errors : gmap string string) : gmap string pyobj * gmap string string :=
  match fields with
  | [] => (ret, errors)
  | f :: rest =>
      match run_validation s partial f (data !! field_name f) with
      | Validated o => run_fields s partial rest data (<[field_name f := o]> ret) errors
      | SkipField => run_fields s partial rest data ret errors
      | ValidationError detail =>
          run_fields s partial rest data ret (<[field_name f := detail]> errors)
      end
  end.

Definition writable_fields (fields : list Field) : list Field :=
  List.filter (λ f, negb (read_only f)) fields.

Definition validated_data (s : Store) (partial : bool) (fields : list Field)
  (data : gmap string value) : gmap string pyobj :=
  (run_fields s partial (writable_fields fields) data ∅ ∅).1.

Definition serializer_errors (s : Store) (partial : bool) (fields : list Field)
  (data : gmap string value) : gmap string string :=
  (run_fields s partial (writable_fields fields) data ∅ ∅).2.

Definition is_valid (s : Store) (partial : bool) (fields : list Field)
  (data : gmap string value) : bool :=
  bool_decide (serializer_errors s partial fields data = ∅).

(** [Field.to_representation] for the attribute values above. *)
Definition primitive (o : pyobj) : value :=
  match o with
  | ONone => VNone
  | OBool b => VBool b
  | OInt n => VInt n
  | OStr x => VStr x
  | ODateTime t => VStr (datetime_isoformat t)
  | ODate d => VStr (date_isoformat d)
  | OInstance pk => VInt pk
  | OPks l => VList (VInt <$> l)
  end.

(** Attribute access by name on an instance's [__dict__]. *)
Fixpoint getattr (attrs : list (string * pyobj)) (name : string) : option pyobj :=
  match attrs with
  | [] => None
  | (n, o) :: rest => if String.eqb n name then Some o else getattr rest name
  end.

(** [Serializer.to_representation]: every field that is not write-only. *)
Definition to_representation (fields : list Field) (attrs : list (string * pyobj))
  : gmap string value :=
  list_to_map
    (omap (λ f, if write_only f then None
                else (λ o, (field_name f, primitive o)) <$> getattr attrs (field_name f))
          fields).

End Serializers.

(** ** serializers.py *)

Definition from_fk (fk : option Z) : pyobj := from_option OInstance ONone fk.
Definition from_datetime (t : option DateTime) : pyobj := from_option ODateTime ONone t.
Definition from_date (d : option Date) : pyobj := from_option ODate ONone d.

(** Reading an entry of [validated_data] back into a column. *)
Definition attr_str (vd : gmap string pyobj) (name : string) (old : string) : string :=
  match vd !! name with Some (OStr x) => x | _ => old end.
Definition attr_bool (vd : gmap string pyobj) (name : string) (old : bool) : bool :=
  match vd !! name with Some (OBool b) => b | _ => old end.
Definition attr_datetime (vd : gmap string pyobj) (name : string) (old : DateTime) : DateTime :=
  match vd !! name with Some (ODateTime t) => t | _ => old end.
Definition attr_datetime_null (vd : gmap string pyobj) (name : string)
  (old : option DateTime) : option DateTime :=
  match vd !! name with Some (ODateTime t) => Some t | Some ONone => None | _ => old end.
Definition attr_date_null (vd : gmap string pyobj) (name : string)
  (old : option Date) : option Date :=
  match vd !! name with Some (ODate d) => Some d | Some ONone => None | _ => old end.
Definition attr_fk_null (vd : gmap string pyobj) (name : string)
  (old : option Z) : option Z :=
  match vd !! name with Some (OInstance pk) => Some pk | Some ONone => None | _ => old end.
Definition attr_fk (vd : gmap string pyobj) (name : string) (old : Z) : Z :=
  match vd !! name with Some (OInstance pk) => pk | _ => old end.
Definition attr_pks (vd : gmap string pyobj) (name : string) (old : list Z) : list Z :=
  match vd !! name with Some (OPks l) => l | _ => old end.

Definition plain (name : string) (k : FieldKind) (req null : bool) : Field :=
  {| field_name := name; kind := k; required := req; allow_null := null;
     read_only := false; write_only := false; validators := [] |}.

Definition readonly (name : string) (k : FieldKind) : Field :=
  {| field_name := name; kind := k; required := false; allow_null := false;
     read_only := true; write_only := false; validators := [] |}.

(** *** TaskSerializer ([fields = '__all__']) *)

Definition TaskSerializer_fields : list Field :=
  [ readonly "id" IntegerField;
    plain "title" (CharField 250 false) true false;
    plain "description" (CharField 250 true) false false;
    readonly "created_at" DateTimeField;
    plain "due_date" DateTimeField false true;
    plain "is_completed" BooleanField false false;
    plain "assigned_to" PrimaryKeyRelatedField false true;
    plain "assigned_by" PrimaryKeyRelatedField false true;
    plain "birth_date" DateField false true ].

Definition Task_dict (pk : Z) (t : Task) : list (string * pyobj) :=
  [ ("id", OInt pk);
    ("title", OStr (title t));
    ("description", OStr (description t));
    ("created_at", ODateTime (created_at t));
    ("due_date", from_datetime (due_date t));
    ("is_completed", OBool (is_completed t));
    ("assigned_to", from_fk (assigned_to t));
    ("assigned_by", from_fk (assigned_by t));
    ("birth_date", from_date (birth_date t)) ].

(** [ModelSerializer.update]: [setattr] for every validated entry. *)
Definition Task_setattrs (t : Task) (vd : gmap string pyobj) : Task :=
  {| title := attr_str vd "title" (title t);
     description := attr_str vd "description" (description t);
     created_at := created_at t;
     due_date := attr_datetime_null vd "due_date" (due_date t);
     is_completed := attr_bool vd "is_completed" (is_completed t);
     assigned_to := attr_fk_null vd "assigned_to" (assigned_to t);
     assigned_by := attr_fk_null vd "assigned_by" (assigned_by t);
     birth_date := attr_date_null vd "birth_date" (birth_date t) |}.

(** *** AttendanceSerializer ([fields = '__all__']) *)

Definition AttendanceSerializer_fields : list Field :=
  [ readonly "id" IntegerField;
    plain "user" PrimaryKeyRelatedField true false;
    plain "status" (ChoiceField Attendance_status_choices) false false;
    readonly "check_in_time" DateTimeField;
    plain "check_out_time" DateTimeField false true ].

Definition Attendance_dict (pk : Z) (a : Attendance) : list (string * pyobj) :=
  [ ("id", OInt pk);
    ("user", OInstance (user a));
    ("status", OStr (status a));
    ("check_in_time", ODateTime (check_in_time a));
    ("check_out_time", from_datetime (check_out_time a)) ].

Definition Attendance_setattrs (a : Attendance) (vd : gmap string pyobj) : Attendance :=
  {| user := attr_fk vd "user" (user a);
     status := attr_str vd "status" (status a);
     check_in_time := check_in_time a;
     check_out_time := attr_datetime_null vd "check_out_time" (check_out_time a) |}.

(** *** UserProfileSerializer ([fields = '__all__'], password write-only) *)

(** [UniqueValidator]: another row, not the instance under update, already
    holds the value. *)
Definition username_taken (s : Store) (instance : option Z) (x : string) : bool :=
  bool_decide (map_Exists (λ pk u, username u = x ∧ Some pk ≠ instance) (user_profiles s)).

Definition email_taken (s : Store) (instance : option Z) (x : string) : bool :=
  bool_decide (map_Exists (λ pk u, email u = x ∧ Some pk ≠ instance) (user_profiles s)).

Definition unique_validator (taken : string → bool) (o : pyobj) : option string :=
  match o with
  | OStr x => if taken x then Some "This field must be unique." else None
  | _ => None
  end.

Definition UserProfileSerializer_fields (s : Store) (instance : option Z) : list Field :=
  [ readonly "id" IntegerField;
    {| field_name := "password"; kind := CharField 128 false; required := true;
       allow_null := false; read_only := false; write_only := true;
       validators := [] |};
    plain "last_login" DateTimeField false true;
    plain "is_superuser" BooleanField false false;
    plain "first_name" (CharField 150 true) false false;
    plain "last_name" (CharField 150 true) false false;
    plain "is_staff" BooleanField false false;
    plain "is_active" BooleanField false false;
    plain "date_joined" DateTimeField false false;
    plain "role" (ChoiceField Types.choices) false false;
    {| field_name := "email"; kind := EmailField 50; required := true;
       allow_null := false; read_only := false; write_only := false;
       validators := [unique_validator (email_taken s instance)] |};
    {| field_name := "username"; kind := CharField 20 false; required := true;
       allow_null := false; read_only := false; write_only := false;
       validators := [unique_validator (username_taken s instance)] |};
    plain "groups" (ManyRelatedField auth_groups) false false;
    plain "user_permissions" (ManyRelatedField auth_permissions) false false ].

Definition UserProfile_dict (pk : Z) (u : UserProfile) : list (string * pyobj) :=
  [ ("id", OInt pk);
    ("password", OStr (password u));
    ("last_login", from_datetime (last_login u));
    ("is_superuser", OBool (is_superuser u));
    ("first_name", OStr (first_name u));
    ("last_name", OStr (last_name u));
    ("is_staff", OBool (is_staff u));
    ("is_active", OBool (is_active u));
    ("date_joined", ODateTime (date_joined u));
    ("role", OStr (role u));
    ("email", OStr (email u));
    ("username", OStr (username u));
    ("groups", OPks (groups u));
    ("user_permissions", OPks (user_permissions u)) ].

Definition UserProfile_setattrs (u : UserProfile) (vd : gmap string pyobj) : UserProfile :=
  {| password := attr_str vd "password" (password u);
     last_login := attr_datetime_null vd "last_login" (last_login u);
     is_superuser := attr_bool vd "is_superuser" (is_superuser u);
     username := attr_str vd "username" (username u);
     first_name := attr_str vd "first_name" (first_name u);
     last_name := attr_str vd "last_name" (last_name u);
     email := attr_str vd "email" (email u);
     is_staff := attr_bool vd "is_staff" (is_staff u);
     is_active := attr_bool vd "is_active" (is_active u);
     date_joined := attr_datetime vd "date_joined" (date_joined u);
     role := attr_str vd "role" (role u);
     groups := attr_pks vd "groups" (groups u);
     user_permissions := attr_pks vd "user_permissions" (user_permissions u) |}.

(** Writing one table of the store. *)
Definition with_user_profiles (s : Store) (m : gmap Z UserProfile) : Store :=
  {| user_profiles := m; tasks := tasks s; attendances := attendances s;
     auth_groups := auth_groups s; auth_permissions := auth_permissions s |}.

Definition with_tasks (s : Store) (m : gmap Z Task) : Store :=
  {| user_profiles := user_profiles s; tasks := m; attendances := attendances s;
     auth_groups := auth_groups s; auth_permissions := auth_permissions s |}.

Definition with_attendances (s : Store) (m : gmap Z Attendance) : Store :=
  {| user_profiles := user_profiles s; tasks := tasks s; attendances := m;
     auth_groups := auth_groups s; auth_permissions := auth_permissions s |}.

Section Models.
Context {env : Environment}.

(** [Task.objects.create] from the validated data, with the model's defaults; [created_at] is
    [auto_now_add]. *)
Definition Task_create (vd : gmap string pyobj) : Task :=
  Task_setattrs
    {| title := ""; description := ""; created_at := timezone_now;
       due_date := None; is_completed := false; assigned_to := None;
       assigned_by := None; birth_date := None |} vd.

(** [Attendance.objects.create]: [status] defaults to ['A'], and a row
    without [user] violates the column's NOT NULL constraint. *)
Definition Attendance_create (vd : gmap string pyobj) : option Attendance :=
  match vd !! "user" with
  | Some (OInstance pk) =>
      Some (Attendance_setattrs
              {| user := pk; status := "A"; check_in_time := timezone_now;
                 check_out_time := None |} vd)
  | _ => None
  end.

(** [UserProfile.objects.create_user(username, email, password, role=role)] *)
Definition create_user (s : Store) (username' email' password' role' : string)
  : (Z * UserProfile) + Exn :=
  let u := {| password := make_password password'; last_login := None;
              is_superuser := false; username := normalize_username username';
              first_name := ""; last_name := ""; email := normalize_email email';
              is_staff := false; is_active := true; date_joined := timezone_now;
              role := role'; groups := []; user_permissions := [] |} in
  if username_taken s None (username u) then inr (IntegrityError "username")
  else if email_taken s None (email u) then inr (IntegrityError "email")
  else inl (next_pk (user_profiles s), u).

(** [UserProfileSerializer.create] *)
Definition UserProfileSerializer_create (s : Store) (vd : gmap string pyobj)
  : (Z * UserProfile) + Exn :=
  match vd !! "username" with
  | Some (OStr username') =>
      match vd !! "email" with
      | Some (OStr email') =>
          match vd !! "password" with
          | Some (OStr password') =>
              match vd !! "role" with
              | Some (OStr role') => create_user s username' email' password' role'
              | _ => inr (KeyError "role")
              end
          | _ => inr (KeyError "password")
          end
      | _ => inr (KeyError "email")
      end
  | _ => inr (KeyError "username")
  end.

(** [profile.delete()]: the rows that point to the profile through a
    CASCADE key go with it, and a SET_NULL key that points to it is
    cleared on the rows that stay. *)
Definition clear_assigned_by (pk : Z) (t : Task) : Task :=
  if bool_decide (assigned_by t = Some pk) then set_assigned_by t None else t.

Definition UserProfile_delete (s : Store) (pk : Z) : Store :=
  {| user_profiles := delete pk (user_profiles s);
     tasks := clear_assigned_by pk <$>
                filter (λ kt, assigned_to kt.2 ≠ Some pk) (tasks s);
     attendances := filter (λ ka, user ka.2 ≠ pk) (attendances s);
     auth_groups := auth_groups s;
     auth_permissions := auth_permissions s |}.

End Models.

(** ** views.py

    A view method takes the store and the request (and the key from the URL)
    and gives the outcome together with the store afterwards. *)

Section Views.
Context {env : Environment}.

(** *** UserProfileView *)

Definition UserProfileView_get_object (s : Store) (pk : Z) : option UserProfile :=
  user_profiles s !! pk.

Definition UserProfileView_get (s : Store) (request : Request) (pk : option Z)
  : Outcome * Store :=
  let fields := UserProfileSerializer_fields s None in
  match pk with
  | Some pk' =>
      if bool_decide (pk' ≠ 0) then
        match UserProfileView_get_object s pk' with
        | None =>
            (Returns (mkResponse (Error "UserProfile not found.") HTTP_404_NOT_FOUND), s)
        | Some profile =>
            (Returns (mkResponse
                        (Data (to_representation fields (UserProfile_dict pk' profile)))
                        HTTP_200_OK), s)
        end
      else
        (Returns (mkResponse
                    (DataList ((λ kp, to_representation fields (UserProfile_dict kp.1 kp.2))
                                 <$> objects_all (user_profiles s)))
                    HTTP_200_OK), s)
  | None =>
      (Returns (mkResponse
                  (DataList ((λ kp, to_representation fields (UserProfile_dict kp.1 kp.2))
                               <$> objects_all (user_profiles s)))
                  HTTP_200_OK), s)
  end.

Definition UserProfileView_post (s : Store) (request : Request) : Outcome * Store :=
  if bool_decide (role (request_user request) ≠ Types.SUPERVISOR) then
    (Returns (mkResponse (Error "Only supervisors can create profiles.")
                HTTP_401_UNAUTHORIZED), s)
  else
    let fields := UserProfileSerializer_fields s None in
    if is_valid s false fields (request_data request) then
      match UserProfileSerializer_create s
              (validated_data s false fields (request_data request)) with
      | inl (pk, profile) =>
          (Returns (mkResponse
                      (Data (to_representation fields (UserProfile_dict pk profile)))
                      HTTP_201_CREATED),
           with_user_profiles s (<[pk := profile]> (user_profiles s)))
      | inr e => (Raises e, s)
      end
    else
      (Returns (mkResponse (Errors (serializer_errors s false fields (request_data request)))
                  HTTP_400_BAD_REQUEST), s).

Definition UserProfileView_put (s : Store) (request : Request) (pk : Z)
  : Outcome * Store :=
  match UserProfileView_get_object s pk with
  | None => (Returns (mkResponse (Error "UserProfile not found.") HTTP_404_NOT_FOUND), s)
  | Some profile =>
      if bool_decide (role (request_user request) ≠ Types.SUPERVISOR) then
        (Returns (mkResponse (Error "Only supervisors can update profiles.")
                    HTTP_401_UNAUTHORIZED), s)
      else
        let fields := UserProfileSerializer_fields s (Some pk) in
        if is_valid s false fields (request_data request) then
          let profile' :=
            UserProfile_setattrs profile
              (validated_data s false fields (request_data request)) in
          (Returns (mkResponse
                      (Data (to_representation fields (UserProfile_dict pk profile')))
                      HTTP_200_OK),
           with_user_profiles s (<[pk := profile']> (user_profiles s)))
        else
          (Returns (mkResponse
                      (Errors (serializer_errors s false fields (request_data request)))
                      HTTP_400_BAD_REQUEST), s)
  end.

Definition UserProfileView_delete (s : Store) (request : Request) (pk : Z)
  : Outcome * Store :=
  match UserProfileView_get_object s pk with
  | None => (Returns (mkResponse (Error "UserProfile not found.") HTTP_404_NOT_FOUND), s)
  | Some profile =>
      if bool_decide (role (request_user request) ≠ Types.SUPERVISOR) then
        (Returns (mkResponse (Error "Only supervisors can delete profiles.")
                    HTTP_401_UNAUTHORIZED), s)
      else
        (Returns (mkResponse (Message "UserProfile deleted.") HTTP_200_OK),
         UserProfile_delete s pk)
  end.

(** *** TaskView *)

Definition TaskView_get_object (s : Store) (pk : Z) : option Task := tasks s !! pk.

Definition TaskView_get (s : Store) (request : Request) (pk : option Z)
  : Outcome * Store :=
  match pk with
  | Some pk' =>
      if bool_decide (pk' ≠ 0) then
        match TaskView_get_object s pk' with
        | None => (Returns (mkResponse (Error "Task not found.") HTTP_404_NOT_FOUND), s)
        | Some task =>
            (Returns (mkResponse
                        (Data (to_representation TaskSerializer_fields (Task_dict pk' task)))
                        HTTP_200_OK), s)
        end
      else
        (Returns (mkResponse
                    (DataList ((λ kt, to_representation TaskSerializer_fields
                                        (Task_dict kt.1 kt.2))
                                 <$> objects_all (tasks s)))
                    HTTP_200_OK), s)
  | None =>
      (Returns (mkResponse
                  (DataList ((λ kt, to_representation TaskSerializer_fields
                                      (Task_dict kt.1 kt.2))
                               <$> objects_all (tasks s)))
                  HTTP_200_OK), s)
  end.

(** [serializer.save()] of a [TaskSerializer] without an instance, and the
    201 response built from the new row. *)
Definition TaskSerializer_save_new (s : Store) (data : gmap string value)
  : Outcome * Store :=
  let pk := next_pk (tasks s) in
  let task := Task_create (validated_data s false TaskSerializer_fields data) in
  (Returns (mkResponse
              (Data (to_representation TaskSerializer_fields (Task_dict pk task)))
              HTTP_201_CREATED),
   with_tasks s (<[pk := task]> (tasks s))).

Definition TaskView_post (s : Store) (request : Request) : Outcome * Store :=
  if bool_decide (role (request_user request) ≠ Types.SUPERVISOR) then
    (Returns (mkResponse (Error "Only supervisors can create tasks.")
                HTTP_401_UNAUTHORIZED), s)
  else
    if is_valid s false TaskSerializer_fields (request_data request) then
      TaskSerializer_save_new s (request_data request)
    else
      (Returns (mkResponse
                  (Errors (serializer_errors s false TaskSerializer_fields
                             (request_data request)))
                  HTTP_400_BAD_REQUEST), s).

Definition TaskView_put (s : Store) (request : Request) (pk : Z) : Outcome * Store :=
  match TaskView_get_object s pk with
  | None => (Returns (mkResponse (Error "Task not found.") HTTP_404_NOT_FOUND), s)
  | Some task =>
      if bool_decide (role (request_user request) ≠ Types.SUPERVISOR)
         && bool_decide (assigned_to task ≠ Some (request_user_id request)) then
        (Returns (mkResponse
                    (Error "Only supervisors or the assigned intern can update tasks.")
                    HTTP_401_UNAUTHORIZED), s)
      else
        if is_valid s false TaskSerializer_fields (request_data request) then
          let task' :=
            Task_setattrs task
              (validated_data s false TaskSerializer_fields (request_data request)) in
          (Returns (mkResponse
                      (Data (to_representation TaskSerializer_fields (Task_dict pk task')))
                      HTTP_200_OK),
           with_tasks s (<[pk := task']> (tasks s)))
        else
          (Returns (mkResponse
                      (Errors (serializer_errors s false TaskSerializer_fields
                                 (request_data request)))
                      HTTP_400_BAD_REQUEST), s)
  end.

Definition TaskView_delete (s : Store) (request : Request) (pk : Z) : Outcome * Store :=
  match TaskView_get_object s pk with
  | None => (Returns (mkResponse (Error "Task not found.") HTTP_404_NOT_FOUND), s)
  | Some task =>
      if bool_decide (role (request_user request) ≠ Types.SUPERVISOR) then
        (Returns (mkResponse (Error "Only supervisors can delete tasks.")
                    HTTP_401_UNAUTHORIZED), s)
      else
        (Returns (mkResponse (Message "Task deleted.") HTTP_200_OK),
         with_tasks s (delete pk (tasks s)))
  end.

(** *** AttendanceView *)

Definition AttendanceView_get_object (s : Store) (pk : Z) : option Attendance :=
  attendances s !! pk.

Definition AttendanceView_get (s : Store) (request : Request) (pk : option Z)
  : Outcome * Store :=
  match pk with
  | Some pk' =>
      if bool_decide (pk' ≠ 0) then
        match AttendanceView_get_object s pk' with
        | None =>
            (Returns (mkResponse (Error "Attendance record not found.")
                        HTTP_404_NOT_FOUND), s)
        | Some attendance =>
            (Returns (mkResponse
                        (Data (to_representation AttendanceSerializer_fields
                                 (Attendance_dict pk' attendance)))
                        HTTP_200_OK), s)
        end
      else
        (Returns (mkResponse
                    (DataList ((λ ka, to_representation AttendanceSerializer_fields
                                        (Attendance_dict ka.1 ka.2))
                                 <$> objects_all (attendances s)))
                    HTTP_200_OK), s)
  | None =>
      (Returns (mkResponse
                  (DataList ((λ ka, to_representation AttendanceSerializer_fields
                                      (Attendance_dict ka.1 ka.2))
                               <$> objects_all (attendances s)))
                  HTTP_200_OK), s)
  end.

(** [serializer.save()] of an [AttendanceSerializer] without an instance,
    and the 201 response built from the new row. *)
Definition AttendanceSerializer_save_new (s : Store) (data : gmap string value)
  : Outcome * Store :=
  match Attendance_create (validated_data s false AttendanceSerializer_fields data) with
  | Some attendance =>
      let pk := next_pk (attendances s) in
      (Returns (mkResponse
                  (Data (to_representation AttendanceSerializer_fields
                           (Attendance_dict pk attendance)))
                  HTTP_201_CREATED),
       with_attendances s (<[pk := attendance]> (attendances s)))
  | None => (Raises (IntegrityError "user_id"), s)
  end.

Definition AttendanceView_post (s : Store) (request : Request) : Outcome * Store :=
  if bool_decide (role (request_user request) ≠ Types.SUPERVISOR) then
    (Returns (mkResponse (Error "Only supervisors can create attendance records.")
                HTTP_401_UNAUTHORIZED), s)
  else
    if is_valid s false AttendanceSerializer_fields (request_data request) then
      AttendanceSerializer_save_new s (request_data request)
    else
      (Returns (mkResponse
                  (Errors (serializer_errors s false AttendanceSerializer_fields
                             (request_data request)))
                  HTTP_400_BAD_REQUEST), s).

Definition AttendanceView_put (s : Store) (request : Request) (pk : Z)
  : Outcome * Store :=
  match AttendanceView_get_object s pk with
  | None =>
      (Returns (mkResponse (Error "Attendance record not found.") HTTP_404_NOT_FOUND), s)
  | Some attendance =>
      if bool_decide (role (request_user request) ≠ Types.SUPERVISOR)
         && bool_decide (user attendance ≠ request_user_id request) then
        (Returns (mkResponse (Error "Only supervisors or the user can update attendance.")
                    HTTP_401_UNAUTHORIZED), s)
      else
        if is_valid s false AttendanceSerializer_fields (request_data request) then
          let attendance' :=
            Attendance_setattrs attendance
              (validated_data s false AttendanceSerializer_fields (request_data request)) in
          (Returns (mkResponse
                      (Data (to_representation AttendanceSerializer_fields
                               (Attendance_dict pk attendance')))
                      HTTP_200_OK),
           with_attendances s (<[pk := attendance']> (attendances s)))
        else
          (Returns (mkResponse
                      (Errors (serializer_errors s false AttendanceSerializer_fields
                                 (request_data request)))
                      HTTP_400_BAD_REQUEST), s)
  end.

Definition AttendanceView_delete (s : Store) (request : Request) (pk : Z)
  : Outcome * Store :=
  match AttendanceView_get_object s pk with
  | None =>
      (Returns (mkResponse (Error "Attendance record not found.") HTTP_404_NOT_FOUND), s)
  | Some attendance =>
      if bool_decide (role (request_user request) ≠ Types.SUPERVISOR) then
        (Returns (mkResponse (Error "Only supervisors can delete attendance records.")
                    HTTP_401_UNAUTHORIZED), s)
      else
        (Returns (mkResponse (Message "Attendance record deleted.") HTTP_200_OK),
         with_attendances s (delete pk (attendances s)))
  end.

(** *** MarkAttendanceView *)

Definition MarkAttendanceView_post (s : Store) (request : Request) : Outcome * Store :=
  if bool_decide (role (request_user request) ≠ Types.INTERN) then
    (Returns (mkResponse (Error "Only interns can mark attendance.")
                HTTP_401_UNAUTHORIZED), s)
  else
    let data : gmap string value :=
      <["status" := default (VStr "P") (request_data request !! "status")]>
        (<["user" := VInt (request_user_id request)]> ∅) in
    if is_valid s false AttendanceSerializer_fields data then
      AttendanceSerializer_save_new s data
    else
      (Returns (mkResponse
                  (Errors (serializer_errors s false AttendanceSerializer_fields data))
                  HTTP_400_BAD_REQUEST), s).

(** *** MarkTaskCompleteView *)

(** [Task.objects.get(pk=pk, assigned_to=request.user)]; [None] stands for
    [Task.DoesNotExist]. *)
Definition Task_objects_get (s : Store) (pk : Z) (assignee : Z) : option Task :=
  match tasks s !! pk with
  | Some task =>
      if bool_decide (assigned_to task = Some assignee) then Some task else None
  | None => None
  end.

Definition MarkTaskCompleteView_patch (s : Store) (request : Request) (pk : Z)
  : Outcome * Store :=
  if bool_decide (role (request_user request) ≠ Types.INTERN) then
    (Returns (mkResponse (Error "Only interns can mark tasks as complete.")
                HTTP_401_UNAUTHORIZED), s)
  else
    match Task_objects_get s pk (request_user_id request) with
    | None =>
        (Returns (mkResponse (Error "Task not found or not assigned to you.")
                    HTTP_404_NOT_FOUND), s)
    | Some task =>
        let data : gmap string value := {[ "is_completed" := VBool true ]} in
        if is_valid s true TaskSerializer_fields data then
          let task' :=
            Task_setattrs task (validated_data s true TaskSerializer_fields data) in
          (Returns (mkResponse (Message "Task marked as complete.") HTTP_200_OK),
           with_tasks s (<[pk := task']> (tasks s)))
        else
          (Returns (mkResponse
                      (Errors (serializer_errors s true TaskSerializer_fields data))
                      HTTP_400_BAD_REQUEST), s)
    end.

(** *** AssignTaskView *)

Definition AssignTaskView_post (s : Store) (request : Request) : Outcome * Store :=
  if bool_decide (role (request_user request) ≠ Types.SUPERVISOR) then
    (Returns (mkResponse (Error "Only supervisors can assign tasks.")
                HTTP_401_UNAUTHORIZED), s)
  else
    let data : gmap string value :=
      <["assigned_by" := VInt (request_user_id request)]> (request_data request) in
    if is_valid s false TaskSerializer_fields data then
      TaskSerializer_save_new s data
    else
      (Returns (mkResponse
                  (Errors (serializer_errors s false TaskSerializer_fields data))
                  HTTP_400_BAD_REQUEST), s).

End Views.

(** ** django.db.models: [QuerySet.filter] with keyword lookups

    Of Django's lookups, the ones modelled are those the application's
    queries are written with: an exact match on a column, and the [day],
    [month] and [year] of a date column. *)

(** [keyword.split('__')] *)
Fixpoint split_lookup (keyword : string) (current : string) : list string :=
  match keyword with
  | String "_" (String "_" rest) => String.rev current :: split_lookup rest ""
  | String c rest => split_lookup rest (String c current)
  | EmptyString => [String.rev current]
  end.

Fixpoint meta_get_field (meta : list (string * FieldKind)) (name : string)
  : option FieldKind :=
  match meta with
  | [] => None
  | (n, k) :: rest => if String.eqb n name then Some k else meta_get_field rest name
  end.

Definition is_date_kind (k : FieldKind) : bool :=
  match k with
  | DateField | DateTimeField => true
  | _ => false
  end.

Definition date_of (o : pyobj) : option Date :=
  match o with
  | ODate d => Some d
  | ODateTime t => Some (date t)
  | _ => None
  end.

(** Resolving one keyword against the model: the column and what to compare
    on it, or [FieldError] when the first name is no field of the model. *)
Inductive Resolved : Type :=
| ExactOn (column : string)
| DatePartOn (column : string) (part : Date → Z).

Definition resolve_lookup (meta : list (string * FieldKind)) (keyword : string)
  : Resolved + Exn :=
  match split_lookup keyword "" with
  | [] => inr (FieldError keyword)
  | name :: transforms =>
      match meta_get_field meta name with
      | None => inr (FieldError name)
      | Some k =>
          match transforms with
          | [] | ["exact"] => inl (ExactOn name)
          | ["day"] => if is_date_kind k then inl (DatePartOn name day) else inr (FieldError "day")
          | ["month"] =>
              if is_date_kind k then inl (DatePartOn name month) else inr (FieldError "month")
          | ["year"] =>
              if is_date_kind k then inl (DatePartOn name year) else inr (FieldError "year")
          | t :: _ => inr (FieldError t)
          end
      end
  end.

Fixpoint resolve_lookups (meta : list (string * FieldKind)) (kwargs : list (string * pyobj))
  : list (Resolved * pyobj) + Exn :=
  match kwargs with
  | [] => inl []
  | (keyword, v) :: rest =>
      match resolve_lookup meta keyword with
      | inr e => inr e
      | inl r =>
          match resolve_lookups meta rest with
          | inr e => inr e
          | inl rs => inl ((r, v) :: rs)
          end
      end
  end.

Definition row_matches (attrs : list (string * pyobj)) (cond : Resolved * pyobj) : bool :=
  match cond with
  | (ExactOn column, v) => bool_decide (getattr attrs column = Some v)
  | (DatePartOn column part, v) =>
      match getattr attrs column ≫= date_of with
      | Some d => bool_decide (OInt (part d) = v)
      | None => false
      end
  end.

(** [Model.objects.filter(kwargs)], checked against the model when the call
    is made and evaluated over the rows afterwards. *)
Definition objects_filter {A : Type} (meta : list (string * FieldKind))
  (dict : Z → A → list (string * pyobj)) (table : gmap Z A)
  (kwargs : list (string * pyobj)) : list (Z * A) + Exn :=
  match resolve_lookups meta kwargs with
  | inr e => inr e
  | inl conds =>
      inl (List.filter (λ row, forallb (row_matches (dict row.1 row.2)) conds)
             (objects_all table))
  end.

(** The fields [UserProfile._meta] knows: the columns, and the reverse side
    of the three foreign keys that point to the model. *)
Definition UserProfile_meta : list (string * FieldKind) :=
  [ ("id", IntegerField);
    ("password", CharField 128 false);
    ("last_login", DateTimeField);
    ("is_superuser", BooleanField);
    ("first_name", CharField 150 true);
    ("last_name", CharField 150 true);
    ("is_staff", BooleanField);
    ("is_active", BooleanField);
    ("date_joined", DateTimeField);
    ("role", ChoiceField Types.choices);
    ("email", EmailField 50);
    ("username", CharField 20 false);
    ("groups", ManyRelatedField auth_groups);
    ("user_permissions", ManyRelatedField auth_permissions);
    ("assigned_tasks", ManyRelatedField (λ s, dom (tasks s)));
    ("assigned_by_tasks", ManyRelatedField (λ s, dom (tasks s)));
    ("attendances", ManyRelatedField (λ s, dom (attendances s))) ].

Definition Task_meta : list (string * FieldKind) :=
  [ ("id", IntegerField);
    ("title", CharField 250 false);
    ("description", CharField 250 true);
    ("created_at", DateTimeField);
    ("due_date", DateTimeField);
    ("is_completed", BooleanField);
    ("assigned_to", PrimaryKeyRelatedField);
    ("assigned_by", PrimaryKeyRelatedField);
    ("birth_date", DateField) ].

(** ** tasks.py *)

Definition newline : string := String (ascii_of_nat 10) EmptyString.

Section Jobs.
Context {env : Environment}.

(** [send_mail(..., fail_silently=False)] for each message in turn: a
    failed delivery raises and ends the loop. *)
Fixpoint send_all (messages : list EmailMessage) (outbox : list EmailMessage)
  : option Exn * list EmailMessage :=
  match messages with
  | [] => (None, outbox)
  | m :: rest =>
      if smtp_delivers m then send_all rest (outbox ++ [m])
      else (Some SMTPException, outbox)
  end.

Definition birthday_message (u : UserProfile) : EmailMessage :=
  {| subject := "Happy Birthday!";
     message := "Dear " +:+ username u +:+ "," +:+ newline +:+ newline
                +:+ "Wishing you a very Happy Birthday from the team! Have a fantastic day!"
                +:+ newline +:+ newline +:+ "Best regards," +:+ newline
                +:+ "Your App Team";
     from_email := EMAIL_HOST_USER;
     recipient_list := [email u] |}.

Definition good_morning_message (u : UserProfile) : EmailMessage :=
  {| subject := "Good Morning!";
     message := "Good Morning, " +:+ username u +:+ "!" +:+ newline +:+ newline
                +:+ "We hope you have a great day ahead!"
                +:+ newline +:+ newline +:+ "Best regards," +:+ newline
                +:+ "Your App Team";
     from_email := EMAIL_HOST_USER;
     recipient_list := [email u] |}.

(** The result is the exception that ended the job, if any, and the
    messages handed to the mail transport. *)
Definition send_happy_birthday_emails (s : Store) : option Exn * list EmailMessage :=
  let today := date timezone_now in
  match objects_filter UserProfile_meta UserProfile_dict (user_profiles s)
          [ ("birth_date__day", OInt (day today));
            ("birth_date__month", OInt (month today));
            ("is_active", OBool true) ] with
  | inr e => (Some e, [])
  | inl users_with_birthday =>
      send_all ((λ row, birthday_message row.2) <$> users_with_birthday) []
  end.

Definition send_good_morning_emails (s : Store) : option Exn * list EmailMessage :=
  match objects_filter UserProfile_meta UserProfile_dict (user_profiles s)
          [ ("is_active", OBool true) ] with
  | inr e => (Some e, [])
  | inl users => send_all ((λ row, good_morning_message row.2) <$> users) []
  end.

End Jobs.

(** ** A concrete environment and a small database, for the examples *)

Definition epoch : DateTime := {| date := mkDate 2024 5 17; seconds := 0 |}.

Definition example_environment : Environment :=
  {| timezone_now := epoch;
     parse_datetime := λ _, None;
     parse_date := λ _, None;
     datetime_isoformat := λ _, "2024-05-17T00:00:00Z";
     date_isoformat := λ _, "2024-05-17";
     int_of_str := λ _, None;
     validate_email := λ _, true;
     make_password := λ x, "pbkdf2$" +:+ x;
     normalize_email := λ x, x;
     normalize_username := λ x, x;
     EMAIL_HOST_USER := "noreply@example.com";
     smtp_delivers := λ _, true |}.

(** The same environment with a transport that refuses the mail to
    [ian@example.com]. *)
Definition refusing_environment : Environment :=
  {| timezone_now := epoch;
     parse_datetime := λ _, None;
     parse_date := λ _, None;
     datetime_isoformat := λ _, "2024-05-17T00:00:00Z";
     date_isoformat := λ _, "2024-05-17";
     int_of_str := λ _, None;
     validate_email := λ _, true;
     make_password := λ x, "pbkdf2$" +:+ x;
     normalize_email := λ x, x;
     normalize_username := λ x, x;
     EMAIL_HOST_USER := "noreply@example.com";
     smtp_delivers := λ m, negb (bool_decide ("ian@example.com" ∈ recipient_list m)) |}.

Definition profile (name : string) (role' : string) : UserProfile :=
  {| password := "pbkdf2$secret"; last_login := None; is_superuser := false;
     username := name; first_name := ""; last_name := "";
     email := name +:+ "@example.com"; is_staff := false; is_active := true;
     date_joined := epoch; role := role'; groups := []; user_permissions := [] |}.

Definition sam : UserProfile := profile "sam" Types.SUPERVISOR.
Definition ian : UserProfile := profile "ian" Types.INTERN.
Definition jo : UserProfile := profile "jo" Types.INTERN.

Definition report : Task :=
  {| title := "Report"; description := ""; created_at := epoch; due_date := None;
     is_completed := false; assigned_to := Some 2; assigned_by := Some 1;
     birth_date := None |}.

Definition review : Task :=
  {| title := "Review"; description := "quarterly"; created_at := epoch;
     due_date := None; is_completed := false; assigned_to := Some 1;
     assigned_by := Some 1; birth_date := None |}.

Definition slides : Task :=
  {| title := "Slides"; description := ""; created_at := epoch; due_date := None;
     is_completed := false; assigned_to := Some 3; assigned_by := Some 1;
     birth_date := Some (mkDate 1990 5 17) |}.

Definition monday : Attendance :=
  {| user := 2; status := "P"; check_in_time := epoch; check_out_time := None |}.

Definition example_store : Store :=
  {| user_profiles := <[1 := sam]> (<[2 := ian]> (<[3 := jo]> ∅));
     tasks := <[1 := report]> (<[2 := review]> (<[3 := slides]> ∅));
     attendances := <[1 := monday]> ∅;
     auth_groups := ∅;
     auth_permissions := ∅ |}.

Definition as_user (pk : Z) (u : UserProfile) (data : gmap string value) : Request :=
  {| request_user_id := pk; request_user := u; request_data := data |}.

Definition assign_payload : gmap string value :=
  <["title" := VStr "Minutes"]>
    (<["assigned_to" := VInt 2]> (<["assigned_by" := VInt 3]> ∅)).

Definition retitle : gmap string value := {[ "title" := VStr "Report, second draft" ]}.

Definition checkout : gmap string value := <["user" := VInt 2]> {[ "status" := VStr "L" ]}.

(** ** Reading results *)

Definition status_of (result : Outcome * Store) : option Z :=
  match result.1 with
  | Returns r => Some (status_code r)
  | Raises _ => None
  end.

(** The views answer 401 where a caller is refused for who they are. *)
Definition Forbidden (result : Outcome * Store) : Prop :=
  status_of result = Some HTTP_401_UNAUTHORIZED.

Definition NotFound (result : Outcome * Store) : Prop :=
  status_of result = Some HTTP_404_NOT_FOUND.

(** The steps of a generic update, in the order they are taken: look the row
    up, ask the policy, validate the payload, write. *)
Definition update_in_order {A : Type} (found : option A) (allowed : A → bool)
  (valid : bool) (s : Store) (result : Outcome * Store) : Prop :=
  match found with
  | None => NotFound result ∧ result.2 = s
  | Some row =>
      if allowed row then
        if valid then status_of result = Some HTTP_200_OK
        else status_of result = Some HTTP_400_BAD_REQUEST ∧ result.2 = s
      else Forbidden result ∧ result.2 = s
  end.

(** What a response body shows under a key. *)
Definition shows (b : Body) (key : string) : Prop :=
  match b with
  | Data d => is_Some (d !! key)
  | DataList l => Exists (λ d, is_Some (d !! key)) l
  | _ => False
  end.

Definition shows_key (result : Outcome * Store) (key : string) : Prop :=
  match result.1 with
  | Returns r => shows (response_data r) key
  | Raises _ => False
  end.


(** The status the self-mark action stores for what the payload holds under
    ["status"], and [None] where the serializer refuses the entry. *)
Definition marked_status (entry : option value) : option string :=
  match entry with
  | None => Some "P"
  | Some (VStr x) => if bool_decide (x ∈ Attendance_status_choices) then Some x else None
  | Some _ => None
  end.

Fixpoint all_digits (x : string) : bool :=
  match x with
  | String c rest =>
      bool_decide (c ∈ ["0"; "1"; "2"; "3"; "4"; "5"; "6"; "7"; "8"; "9"]%char)
      && all_digits rest
  | EmptyString => true
  end.

(** ** What the rest of the application is stated with *)

(** The request of the same caller with another body. *)
Definition with_data (request : Request) (data : gmap string value) : Request :=
  {| request_user_id := request_user_id request;
     request_user := request_user request;
     request_data := data |}.

(** The length of a list answer. *)
Definition listed (result : Outcome * Store) : option nat :=
  match result.1 with
  | Returns r =>
      match response_data r with
      | DataList l => Some (length l)
      | _ => None
      end
  | Raises _ => None
  end.

(** The calls the application answers on its three tables, one for each
    method of a view that [urls.py] routes to. *)
Inductive Call : Type :=
| ListProfiles | RetrieveProfile (pk : Z) | CreateProfile
| UpdateProfile (pk : Z) | DeleteProfile (pk : Z)
| ListTasks | RetrieveTask (pk : Z) | CreateTask
| UpdateTask (pk : Z) | DeleteTask (pk : Z)
| ListAttendances | RetrieveAttendance (pk : Z) | CreateAttendance
| UpdateAttendance (pk : Z) | DeleteAttendance (pk : Z)
| MarkAttendance | CompleteTask (pk : Z) | AssignTask.

Section Calls.
Context {env : Environment}.

Definition perform (s : Store) (request : Request) (call : Call) : Outcome * Store :=
  match call with
  | ListProfiles => UserProfileView_get s request None
  | RetrieveProfile pk => UserProfileView_get s request (Some pk)
  | CreateProfile => UserProfileView_post s request
  | UpdateProfile pk => UserProfileView_put s request pk
  | DeleteProfile pk => UserProfileView_delete s request pk
  | ListTasks => TaskView_get s request None
  | RetrieveTask pk => TaskView_get s request (Some pk)
  | CreateTask => TaskView_post s request
  | UpdateTask pk => TaskView_put s request pk
  | DeleteTask pk => TaskView_delete s request pk
  | ListAttendances => AttendanceView_get s request None
  | RetrieveAttendance pk => AttendanceView_get s request (Some pk)
  | CreateAttendance => AttendanceView_post s request
  | UpdateAttendance pk => AttendanceView_put s request pk
  | DeleteAttendance pk => AttendanceView_delete s request pk
  | MarkAttendance => MarkAttendanceView_post s request
  | CompleteTask pk => MarkTaskCompleteView_patch s request pk
  | AssignTask => AssignTaskView_post s request
  end.

(** The store after a sequence of calls, each with its own request. *)
Fixpoint perform_all (s : Store) (calls : list (Request * Call)) : Store :=
  match calls with
  | [] => s
  | (request, call) :: rest => perform_all (perform s request call).2 rest
  end.

End Calls.

(** Every foreign key of a task or an attendance record points to a stored
    profile. *)
Definition referential_integrity (s : Store) : Prop :=
  (∀ k task u, tasks s !! k = Some task →
     assigned_to task = Some u ∨ assigned_by task = Some u →
     is_Some (user_profiles s !! u))
  ∧ (∀ k attendance, attendances s !! k = Some attendance →
       is_Some (user_profiles s !! user attendance)).

(** No two profiles share a username, and no two share an email. *)
Definition unique_profiles (s : Store) : Prop :=
  ∀ k1 k2 u1 u2,
    user_profiles s !! k1 = Some u1 → user_profiles s !! k2 = Some u2 →
    username u1 = username u2 ∨ email u1 = email u2 → k1 = k2.

(** Every row is stored under a positive key. *)
Definition positive_keys (s : Store) : Prop :=
  (∀ k, is_Some (user_profiles s !! k) → 0 < k)
  ∧ (∀ k, is_Some (tasks s !! k) → 0 < k)
  ∧ (∀ k, is_Some (attendances s !! k) → 0 < k).

Definition empty_store : Store :=
  {| user_profiles := ∅; tasks := ∅; attendances := ∅;
     auth_groups := ∅; auth_permissions := ∅ |}.

(** The three required text fields of the profile serializer. *)
Definition username_field (s : Store) (instance : option Z) : Field :=
  {| field_name := "username"; kind := CharField 20 false; required := true;
     allow_null := false; read_only := false; write_only := false;
     validators := [unique_validator (username_taken s instance)] |}.

Definition email_field (s : Store) (instance : option Z) : Field :=
  {| field_name := "email"; kind := EmailField 50; required := true;
     allow_null := false; read_only := false; write_only := false;
     validators := [unique_validator (email_taken s instance)] |}.

Definition password_field : Field :=
  {| field_name := "password"; kind := CharField 128 false; required := true;
     allow_null := false; read_only := false; write_only := true; validators := [] |}.

Definition is_text (k : FieldKind) : bool :=
  match k with
  | CharField _ _ | EmailField _ => true
  | _ => false
  end.

Section Mail.
Context {env : Environment}.

(** The messages up to the first one the transport refuses. *)
Fixpoint delivered (messages : list EmailMessage) : list EmailMessage :=
  match messages with
  | [] => []
  | m :: rest => if smtp_delivers m then m :: delivered rest else []
  end.

(** The active profiles, and the greeting for each of them, in the order of
    their keys. *)
Definition active_profiles (s : Store) : list (Z * UserProfile) :=
  List.filter (λ row : Z * UserProfile, is_active row.2) (objects_all (user_profiles s)).

Definition good_morning_messages (s : Store) : list EmailMessage :=
  (λ row : Z * UserProfile, good_morning_message row.2) <$> active_profiles s.

End Mail.

(** ** AuthView

    The view leans on [django.contrib.auth] and [rest_framework.authtoken]:
    the token table holds one key for a user, the session remembers who is
    logged in, and checking credentials and drawing a fresh key belong to
    the framework. *)
Record AuthState : Type := mkAuthState {
  tokens : gmap Z string;
  session_user : option Z
}.

Class AuthBackend : Type := {
  authenticate : Store → option value → option value → option Z;
  generate_key : gmap Z string → string
}.

Inductive JsonBody : Type :=
| SignedIn (message' token : string)     (* {'message': ..., 'token': ...} *)
| Notice (message' : string).            (* {'message': ...} *)

Inductive AuthResponse : Type :=
| JsonResponse (body : JsonBody) (status' : Z)
| PlainResponse (r : Response).

Definition auth_status (r : AuthResponse) : Z :=
  match r with
  | JsonResponse _ status' => status'
  | PlainResponse r => status_code r
  end.

Definition auth_token (r : AuthResponse) : option string :=
  match r with
  | JsonResponse (SignedIn _ token) _ => Some token
  | _ => None
  end.

Definition set_last_login (t : DateTime) (u : UserProfile) : UserProfile :=
  {| password := password u; last_login := Some t;
     is_superuser := is_superuser u; username := username u;
     first_name := first_name u; last_name := last_name u; email := email u;
     is_staff := is_staff u; is_active := is_active u;
     date_joined := date_joined u; role := role u; groups := groups u;
     user_permissions := user_permissions u |}.

Section Auth.
Context {env : Environment} {backend : AuthBackend}.

(** [login(request, user)]: the session takes the user, and the profile's
    [last_login] is set to now. *)
Definition login (s : Store) (a : AuthState) (pk : Z) : Store * AuthState :=
  (with_user_profiles s (alter (set_last_login timezone_now) pk (user_profiles s)),
   {| tokens := tokens a; session_user := Some pk |}).

(** [logout(request)] *)
Definition logout (a : AuthState) : AuthState :=
  {| tokens := tokens a; session_user := None |}.

(** [Token.objects.get_or_create(user=user)] *)
Definition Token_get_or_create (a : AuthState) (pk : Z) : string * AuthState :=
  match tokens a !! pk with
  | Some key => (key, a)
  | None =>
      let key := generate_key (tokens a) in
      (key, {| tokens := <[pk := key]> (tokens a); session_user := session_user a |})
  end.

(** [AuthView.post(request, action)]; [caller] is [request.user], [None]
    for an anonymous request. *)
Definition AuthView_post (s : Store) (a : AuthState) (caller : option Z)
  (data : gmap string value) (action : string) : AuthResponse * (Store * AuthState) :=
  if String.eqb action "sign-in" then
    let username' := data !! "username" in
    let password' := data !! "password" in
    match authenticate s username' password' with
    | Some pk =>
        let '(s1, a1) := login s a pk in
        let '(key, a2) := Token_get_or_create a1 pk in
        (JsonResponse (SignedIn "Sign-in successful." key) HTTP_200_OK, (s1, a2))
    | None =>
        (JsonResponse (Notice "Invalid credentials.") HTTP_401_UNAUTHORIZED, (s, a))
    end
  else if String.eqb action "sign-out" then
    match caller with
    | None => (JsonResponse (Notice "No user signed in.") HTTP_401_UNAUTHORIZED, (s, a))
    | Some _ => (JsonResponse (Notice "Sign-out successful.") HTTP_200_OK, (s, logout a))
    end
  else
    (PlainResponse (mkResponse (Error "Invalid action.") HTTP_400_BAD_REQUEST), (s, a)).

End Auth.

(** Requests and a backend for the examples. *)
Definition new_profile : gmap string value :=
  <["username" := VStr " amy "]>
    (<["email" := VStr "amy@example.com"]>
       (<["password" := VStr " pw "]> (<["role" := VStr "Intern"]> ∅))).

Definition new_profile_without_role : gmap string value := delete "role" new_profile.

Definition amy : UserProfile :=
  {| password := "pbkdf2$pw"; last_login := None; is_superuser := false;
     username := "amy"; first_name := ""; last_name := "";
     email := "amy@example.com"; is_staff := false; is_active := true;
     date_joined := epoch; role := "Intern"; groups := []; user_permissions := [] |}.

Definition promote_jo : gmap string value :=
  <["username" := VStr "jo"]>
    (<["email" := VStr "jo@example.com"]>
       (<["password" := VStr " plain "]> (<["is_superuser" := VBool true]> ∅))).

Definition task_for_jo : gmap string value :=
  <["title" := VStr "Inventory"]> (<["assigned_to" := VInt 3]> ∅).

Definition attendance_for_jo : gmap string value := {[ "user" := VInt 3 ]}.

Definition late : gmap string value := {[ "status" := VStr "L" ]}.

Definition example_calls : list (Request * Call) :=
  [ (as_user 1 sam new_profile, CreateProfile);
    (as_user 1 sam assign_payload, AssignTask);
    (as_user 2 ian ∅, MarkAttendance);
    (as_user 2 ian ∅, CompleteTask 1);
    (as_user 1 sam ∅, DeleteProfile 2) ].

(** Credentials are checked against the stored hash of an active profile;
    keys are numbered. *)
Definition example_backend : AuthBackend :=
  {| authenticate := λ s username' password',
       match username', password' with
       | Some (VStr name), Some (VStr raw) =>
           fst <$> head (List.filter
                           (λ row : Z * UserProfile,
                              String.eqb (username row.2) name
                              && String.eqb (password row.2) ("pbkdf2$" +:+ raw)
                              && is_active row.2)
                           (objects_all (user_profiles s)))
       | _, _ => None
       end;
     generate_key := λ tokens', "key-" +:+ pretty (size tokens') |}.

Definition ian_credentials : gmap string value :=
  <["username" := VStr "ian"]> {[ "password" := VStr "secret" ]}.

Definition no_tokens : AuthState := {| tokens := ∅; session_user := None |}.

Definition one_token : AuthState := {| tokens := {[ 2 := "key-0" ]}; session_user := Some 2 |}.

(** * Properties *)

(** ** Keys and the validation loop *)

Lemma next_pk_above {A : Type} (table : gmap Z A) (k : Z) :
  is_Some (table !! k) → k < next_pk table.
Proof.
  unfold next_pk.
  cut (is_Some (table !! k) → k ≤ map_fold (λ k' _ acc, Z.max k' acc) 0 table);
    [intros Hc Hs; specialize (Hc Hs); lia|].
  apply (map_fold_weak_ind (λ r m, is_Some (m !! k) → k ≤ r)).
  - rewrite lookup_empty. by intros [? ?].
  - intros i x m r Hi IH. rewrite lookup_insert. case_decide; [lia|].
    intros Hk. specialize (IH Hk). lia.
Qed.

Lemma next_pk_fresh {A : Type} (table : gmap Z A) : table !! next_pk table = None.
Proof.
  destruct (table !! next_pk table) eqn:E; [|done].
  assert (next_pk table < next_pk table) by (apply next_pk_above; eauto). lia.
Qed.

(** ** Reading a table *)

Lemma elem_of_objects_all {A : Type} (table : gmap Z A) (pk : Z) (row : A) :
  (pk, row) ∈ objects_all table ↔ table !! pk = Some row.
Proof.
  unfold objects_all. rewrite list_elem_of_omap. split.
  - intros (k & _ & Hk). destruct (table !! k) as [r|] eqn:E; [|done].
    injection Hk as -> ->. done.
  - intros Hpk. exists pk. split; [|by rewrite Hpk].
    rewrite merge_sort_Permutation, elem_of_elements. by apply elem_of_dom.
Qed.

Lemma length_objects_all {A : Type} (table : gmap Z A) :
  length (objects_all table) = size table.
Proof.
  unfold objects_all.
  assert (∀ keys : list Z, Forall (λ k, is_Some (table !! k)) keys →
            length (omap (λ pk, (λ row, (pk, row)) <$> table !! pk) keys) = length keys)
    as Hlen.
  { induction keys as [|k keys IH]; intros Hall; [done|].
    apply Forall_cons in Hall as [[r Hr] Hall]. cbn [omap list_omap]. rewrite Hr.
    cbn. by rewrite IH. }
  rewrite Hlen.
  - by rewrite merge_sort_Permutation, <-size_dom.
  - apply Forall_forall. intros k.
    rewrite merge_sort_Permutation, elem_of_elements. by apply elem_of_dom.
Qed.

Lemma objects_all_fmap {A B : Type} (f : A → B) (table : gmap Z A) :
  objects_all (f <$> table) = prod_map id f <$> objects_all table.
Proof.
  unfold objects_all. rewrite dom_fmap_L.
  induction (merge_sort Z.le (elements (dom table))) as [|k keys IH]; [done|].
  cbn [omap list_omap]. rewrite lookup_fmap, IH.
  by destruct (table !! k).
Qed.

(** The rows come in the order of their keys. *)
Lemma objects_all_sorted {A : Type} (table : gmap Z A) :
  StronglySorted (λ r1 r2 : Z * A, r1.1 < r2.1) (objects_all table).
Proof.
  unfold objects_all.
  assert (StronglySorted Z.lt (merge_sort Z.le (elements (dom table)))) as Hsorted.
  { assert (NoDup (merge_sort Z.le (elements (dom table)))) as Hnd
      by (rewrite merge_sort_Permutation; apply NoDup_elements).
    pose proof (StronglySorted_merge_sort Z.le (elements (dom table))) as Hle.
    induction Hle as [|k keys Hle IH Hall]; [constructor|].
    apply NoDup_cons in Hnd as [Hk Hnd]. constructor; [by apply IH|].
    rewrite Forall_forall in Hall |- *. intros k' Hk'.
    specialize (Hall k' Hk'). assert (k ≠ k') by (by intros ->). lia. }
  induction Hsorted as [|k keys Hsorted IH Hall]; [constructor|].
  cbn [omap list_omap]. destruct (table !! k) as [r|]; [|exact IH].
  constructor; [exact IH|]. apply Forall_forall. intros [k' r'].
  rewrite list_elem_of_omap. intros (k'' & Hin & Hk'').
  destruct (table !! k''); [|done]. injection Hk'' as -> ->.
  rewrite Forall_forall in Hall. by apply Hall.
Qed.

Lemma filter_sorted {A : Type} (R : relation A) (P : A → bool) (l : list A) :
  StronglySorted R l → StronglySorted R (List.filter P l).
Proof.
  induction 1 as [|x l Hsorted IH Hall]; [constructor|].
  cbn [List.filter]. destruct (P x); [|exact IH].
  constructor; [exact IH|]. rewrite Forall_forall in Hall |- *.
  intros y Hy. apply Hall. apply list_elem_of_In in Hy. apply List.filter_In in Hy as [Hy _].
  by apply list_elem_of_In.
Qed.

Section Validation.
Context {env : Environment}.

Lemma run_fields_lookup_other s partial fields data ret errors name :
  name ∉ field_name <$> fields →
  (run_fields s partial fields data ret errors).1 !! name = ret !! name.
Proof.
  revert ret errors.
  induction fields as [|f fields IH]; intros ret errors Hn; [done|].
  rewrite fmap_cons, not_elem_of_cons in Hn. destruct Hn as [Hne Hn].
  simpl. destruct (run_validation s partial f (data !! field_name f));
    rewrite IH by done; [by rewrite lookup_insert_ne|done|done].
Qed.

Lemma run_fields_lookup s partial fields data ret errors f :
  NoDup (field_name <$> fields) → f ∈ fields →
  (run_fields s partial fields data ret errors).1 !! field_name f =
    match run_validation s partial f (data !! field_name f) with
    | Validated o => Some o
    | _ => ret !! field_name f
    end.
Proof.
  revert ret errors.
  induction fields as [|g fields IH]; intros ret errors Hnd Hin.
  { by apply elem_of_nil in Hin. }
  rewrite fmap_cons, NoDup_cons in Hnd. destruct Hnd as [Hg Hnd].
  apply elem_of_cons in Hin as [->|Hin]; simpl.
  - destruct (run_validation s partial g (data !! field_name g));
      rewrite run_fields_lookup_other by done;
      [by rewrite lookup_insert_eq|done|done].
  - assert (field_name g ≠ field_name f).
    { intros Heq. apply Hg. rewrite Heq. by apply list_elem_of_fmap_2. }
    destruct (run_validation s partial g (data !! field_name g));
      rewrite IH by done; [by rewrite lookup_insert_ne|done|done].
Qed.

Lemma run_fields_errors s partial fields data ret errors :
  (run_fields s partial fields data ret errors).2 = ∅ ↔
  errors = ∅ ∧
  Forall (λ f, ∀ d, run_validation s partial f (data !! field_name f)
                    ≠ ValidationError d) fields.
Proof.
  revert ret errors. induction fields as [|f fields IH]; intros ret errors; simpl.
  { split; [intros ->; split; [done|constructor]|by intros [-> _]]. }
  destruct (run_validation s partial f (data !! field_name f)) eqn:E;
    rewrite IH, Forall_cons.
  - split; [intros [-> ?]; split; [done|split; [congruence|done]]|by intros [-> [_ ?]]].
  - split; [intros [-> ?]; split; [done|split; [congruence|done]]|by intros [-> [_ ?]]].
  - split.
    + intros [He _]. by apply insert_non_empty in He.
    + intros [_ [Hd _]]. by destruct (Hd detail).
Qed.

(** A payload is valid exactly when no writable field refuses its entry. *)
Lemma is_valid_iff s partial fields data :
  is_valid s partial fields data = true ↔
  Forall (λ f, ∀ d, run_validation s partial f (data !! field_name f)
                    ≠ ValidationError d) (writable_fields fields).
Proof.
  unfold is_valid, serializer_errors.
  rewrite bool_decide_eq_true, run_fields_errors.
  split; [by intros [_ ?]|by intros ?].
Qed.

End Validation.

(** ** The generic controllers *)

Section Controllers.
Context {env : Environment}.

Ltac by_cases := repeat case_bool_decide; done.

Lemma UserProfileView_put_in_order s request pk :
  update_in_order (user_profiles s !! pk)
    (λ _, bool_decide (role (request_user request) = Types.SUPERVISOR))
    (is_valid s false (UserProfileSerializer_fields s (Some pk)) (request_data request))
    s (UserProfileView_put s request pk).
Proof.
  unfold update_in_order, UserProfileView_put, UserProfileView_get_object,
    NotFound, Forbidden, status_of.
  destruct (user_profiles s !! pk); [|done].
  destruct (is_valid _ _ _ _); by_cases.
Qed.

Lemma TaskView_put_in_order s request pk :
  update_in_order (tasks s !! pk)
    (λ task, bool_decide (role (request_user request) = Types.SUPERVISOR)
             || bool_decide (assigned_to task = Some (request_user_id request)))
    (is_valid s false TaskSerializer_fields (request_data request))
    s (TaskView_put s request pk).
Proof.
  unfold update_in_order, TaskView_put, TaskView_get_object,
    NotFound, Forbidden, status_of.
  destruct (tasks s !! pk); [|done].
  destruct (is_valid _ _ _ _); by_cases.
Qed.

Lemma AttendanceView_put_in_order s request pk :
  update_in_order (attendances s !! pk)
    (λ attendance, bool_decide (role (request_user request) = Types.SUPERVISOR)
                   || bool_decide (user attendance = request_user_id request))
    (is_valid s false AttendanceSerializer_fields (request_data request))
    s (AttendanceView_put s request pk).
Proof.
  unfold update_in_order, AttendanceView_put, AttendanceView_get_object,
    NotFound, Forbidden, status_of.
  destruct (attendances s !! pk); [|done].
  destruct (is_valid _ _ _ _); by_cases.
Qed.

(** A found row is never reported as missing, whatever the later steps
    answer. *)
Lemma update_in_order_NotFound {A : Type} (found : option A) allowed valid s result :
  update_in_order found allowed valid s result → (NotFound result ↔ found = None).
Proof.
  unfold update_in_order, NotFound, Forbidden.
  destruct found as [row|]; [|by intros [? _]].
  destruct (allowed row), valid; intros Hr; split; try done;
    intros Hn; destruct_and?; by rewrite Hn in *.
Qed.

End Controllers.

Section Policies.
Context {env : Environment}.

(** C8: for each of the three entities, an update of a key that is not in
    the table is answered 404 whoever asks and whatever the payload, and a
    key that is in the table is never answered 404, so the answer tells
    every caller whether the row exists.  For a row that exists the policy
    is asked first (a refused caller gets 401 whether or not the payload is
    valid), an allowed caller with an invalid payload gets 400 and nothing
    is written, and only a valid payload is persisted (200). *)
Theorem update_existence_policy_validation_order s request pk :
  (update_in_order (user_profiles s !! pk)
     (λ _, bool_decide (role (request_user request) = Types.SUPERVISOR))
     (is_valid s false (UserProfileSerializer_fields s (Some pk)) (request_data request))
     s (UserProfileView_put s request pk)
   ∧ (NotFound (UserProfileView_put s request pk) ↔ user_profiles s !! pk = None))
  ∧ (update_in_order (tasks s !! pk)
       (λ task, bool_decide (role (request_user request) = Types.SUPERVISOR)
                || bool_decide (assigned_to task = Some (request_user_id request)))
       (is_valid s false TaskSerializer_fields (request_data request))
       s (TaskView_put s request pk)
     ∧ (NotFound (TaskView_put s request pk) ↔ tasks s !! pk = None))
  ∧ (update_in_order (attendances s !! pk)
       (λ attendance, bool_decide (role (request_user request) = Types.SUPERVISOR)
                      || bool_decide (user attendance = request_user_id request))
       (is_valid s false AttendanceSerializer_fields (request_data request))
       s (AttendanceView_put s request pk)
     ∧ (NotFound (AttendanceView_put s request pk) ↔ attendances s !! pk = None)).
Proof.
  pose proof (UserProfileView_put_in_order s request pk) as Hu.
  pose proof (TaskView_put_in_order s request pk) as Ht.
  pose proof (AttendanceView_put_in_order s request pk) as Ha.
  repeat split; try assumption;
    by eapply update_in_order_NotFound || by eapply update_in_order_NotFound.
Qed.

(** C7: a caller whose role is not Supervisor gets 401 from the create of
    each of the three entities, and from the delete of each row that
    exists, and the store is left as it was. *)
Theorem non_supervisor_create_delete_forbidden s request :
  role (request_user request) ≠ Types.SUPERVISOR →
  (Forbidden (UserProfileView_post s request) ∧ (UserProfileView_post s request).2 = s)
  ∧ (Forbidden (TaskView_post s request) ∧ (TaskView_post s request).2 = s)
  ∧ (Forbidden (AttendanceView_post s request) ∧ (AttendanceView_post s request).2 = s)
  ∧ (∀ pk, is_Some (user_profiles s !! pk) →
       Forbidden (UserProfileView_delete s request pk)
       ∧ (UserProfileView_delete s request pk).2 = s)
  ∧ (∀ pk, is_Some (tasks s !! pk) →
       Forbidden (TaskView_delete s request pk) ∧ (TaskView_delete s request pk).2 = s)
  ∧ (∀ pk, is_Some (attendances s !! pk) →
       Forbidden (AttendanceView_delete s request pk)
       ∧ (AttendanceView_delete s request pk).2 = s).
Proof.
  intros Hrole.
  unfold UserProfileView_post, TaskView_post, AttendanceView_post,
    UserProfileView_delete, TaskView_delete, AttendanceView_delete,
    UserProfileView_get_object, TaskView_get_object, AttendanceView_get_object.
  rewrite !(bool_decide_eq_true_2 _ Hrole).
  repeat apply conj; try done; intros pk [row ->]; done.
Qed.


End Policies.

(** ** Completing a task *)

Section Completion.
Context {env : Environment}.

Lemma complete_payload_valid s :
  is_valid s true TaskSerializer_fields {[ "is_completed" := VBool true ]} = true.
Proof. reflexivity. Qed.

Lemma complete_payload_setattrs s task :
  Task_setattrs task
    (validated_data s true TaskSerializer_fields {[ "is_completed" := VBool true ]})
  = set_is_completed task true.
Proof. reflexivity. Qed.

Lemma MarkTaskCompleteView_patch_own s request pk task :
  role (request_user request) = Types.INTERN →
  tasks s !! pk = Some task →
  assigned_to task = Some (request_user_id request) →
  MarkTaskCompleteView_patch s request pk =
    (Returns (mkResponse (Message "Task marked as complete.") HTTP_200_OK),
     with_tasks s (<[pk := set_is_completed task true]> (tasks s))).
Proof.
  intros Hrole Hpk Hto. unfold MarkTaskCompleteView_patch, Task_objects_get.
  rewrite bool_decide_eq_false_2 by (intros Hne; by apply Hne).
  rewrite Hpk, bool_decide_eq_true_2 by done.
  by rewrite complete_payload_valid, complete_payload_setattrs.
Qed.

(** C10: for a task assigned to the calling Intern, completing it answers
    200 and writes the same row with [is_completed] set and every other
    column as it was; rows under other keys and the other tables are not
    touched; and completing it again gives the same answer and the same
    store. *)
Theorem complete_own_task_sets_only_the_flag s request pk task :
  role (request_user request) = Types.INTERN →
  tasks s !! pk = Some task →
  assigned_to task = Some (request_user_id request) →
  ∃ task' s',
    MarkTaskCompleteView_patch s request pk =
      (Returns (mkResponse (Message "Task marked as complete.") HTTP_200_OK), s')
    ∧ s' = with_tasks s (<[pk := task']> (tasks s))
    ∧ is_completed task' = true
    ∧ title task' = title task
    ∧ description task' = description task
    ∧ created_at task' = created_at task
    ∧ due_date task' = due_date task
    ∧ assigned_to task' = assigned_to task
    ∧ assigned_by task' = assigned_by task
    ∧ birth_date task' = birth_date task
    ∧ MarkTaskCompleteView_patch s' request pk =
        (Returns (mkResponse (Message "Task marked as complete.") HTTP_200_OK), s').
Proof.
  intros Hrole Hpk Hto.
  exists (set_is_completed task true),
    (with_tasks s (<[pk := set_is_completed task true]> (tasks s))).
  split; [by apply MarkTaskCompleteView_patch_own|].
  repeat (split; [reflexivity|]).
  rewrite (MarkTaskCompleteView_patch_own _ _ pk (set_is_completed task true));
    [|done|by apply lookup_insert_eq|done].
  unfold with_tasks; simpl. by rewrite insert_insert_eq.
Qed.

End Completion.

(** ** Reading profiles *)

Section Profiles.
Context {env : Environment}.

Lemma UserProfile_representation_no_password s instance pk u :
  to_representation (UserProfileSerializer_fields s instance) (UserProfile_dict pk u)
    !! "password" = None.
Proof. reflexivity. Qed.

Lemma UserProfile_representation_set_password s s' instance instance' pk u p :
  to_representation (UserProfileSerializer_fields s' instance')
    (UserProfile_dict pk (set_password u p))
  = to_representation (UserProfileSerializer_fields s instance) (UserProfile_dict pk u).
Proof. reflexivity. Qed.

(** C9: the representation of a profile has no entry under [password], and
    it is the same for two profiles that differ in the password only.  So
    no answer of the read view, for one profile or for the list, shows a
    password, and the answers do not change when the stored passwords
    are replaced by others. *)
Theorem password_is_never_read_back s request pk :
  (∀ instance k u,
     to_representation (UserProfileSerializer_fields s instance) (UserProfile_dict k u)
       !! "password" = None)
  ∧ (∀ instance k u p,
       to_representation (UserProfileSerializer_fields s instance)
         (UserProfile_dict k (set_password u p))
       = to_representation (UserProfileSerializer_fields s instance)
           (UserProfile_dict k u))
  ∧ ¬ shows_key (UserProfileView_get s request pk) "password"
  ∧ (∀ other : UserProfile → string,
       (UserProfileView_get
          (with_user_profiles s ((λ u, set_password u (other u)) <$> user_profiles s))
          request pk).1
       = (UserProfileView_get s request pk).1).
Proof.
  split; [intros; apply UserProfile_representation_no_password|].
  split; [intros; apply UserProfile_representation_set_password|].
  split.
  - unfold shows_key, UserProfileView_get, UserProfileView_get_object.
    assert (¬ Exists (λ d : gmap string value, is_Some (d !! "password"))
              ((λ kp, to_representation (UserProfileSerializer_fields s None)
                        (UserProfile_dict kp.1 kp.2))
                 <$> objects_all (user_profiles s))) as Hlist.
    { rewrite Exists_fmap, Exists_exists. intros ([k u] & _ & Hk).
      unfold compose in Hk. cbn [fst snd] in Hk.
      rewrite UserProfile_representation_no_password in Hk. by destruct Hk. }
    destruct pk as [k|]; [|exact Hlist].
    case_bool_decide; [|exact Hlist].
    destruct (user_profiles s !! k); cbn [fst response_data shows]; [|tauto].
    rewrite UserProfile_representation_no_password. by intros [? ?].
  - intros other. unfold UserProfileView_get, UserProfileView_get_object.
    assert (((λ kp, to_representation
                      (UserProfileSerializer_fields
                         (with_user_profiles s
                            ((λ u, set_password u (other u)) <$> user_profiles s)) None)
                      (UserProfile_dict kp.1 kp.2))
               <$> objects_all
                     (user_profiles
                        (with_user_profiles s
                           ((λ u, set_password u (other u)) <$> user_profiles s))))
            = ((λ kp, to_representation (UserProfileSerializer_fields s None)
                        (UserProfile_dict kp.1 kp.2))
                 <$> objects_all (user_profiles s))) as Hlist.
    { cbn [user_profiles with_user_profiles].
      rewrite objects_all_fmap, <-list_fmap_compose.
      apply list_fmap_ext. intros i [k u] _. unfold compose. cbn [fst snd prod_map id].
      apply UserProfile_representation_set_password. }
    destruct pk as [k|]; [|by rewrite Hlist].
    case_bool_decide; [|by rewrite Hlist].
    cbn [user_profiles with_user_profiles]. rewrite lookup_fmap.
    destruct (user_profiles s !! k); cbn [fmap option_fmap option_map fst]; [|done].
    by rewrite (UserProfile_representation_set_password s _ None None).
Qed.

End Profiles.

(** ** Deleting a profile *)

Section Deletion.
Context {env : Environment}.

Lemma UserProfile_delete_task s pk k :
  tasks (UserProfile_delete s pk) !! k =
    match tasks s !! k with
    | Some task =>
        if bool_decide (assigned_to task = Some pk) then None
        else Some (clear_assigned_by pk task)
    | None => None
    end.
Proof.
  unfold UserProfile_delete; cbn [tasks]. rewrite lookup_fmap.
  destruct (tasks s !! k) as [task|] eqn:E.
  - case_bool_decide as Hto.
    + rewrite (proj2 (map_lookup_filter_None _ _ _)); [done|].
      right. intros task' E' Hne. simpl in Hne. congruence.
    + by rewrite (map_lookup_filter_Some_2 _ _ _ task).
  - rewrite (proj2 (map_lookup_filter_None _ _ _)); [done|by left].
Qed.

Lemma UserProfile_delete_attendance s pk k :
  attendances (UserProfile_delete s pk) !! k =
    match attendances s !! k with
    | Some attendance =>
        if bool_decide (user attendance = pk) then None else Some attendance
    | None => None
    end.
Proof.
  unfold UserProfile_delete; cbn [attendances].
  destruct (attendances s !! k) as [attendance|] eqn:E.
  - case_bool_decide as Hu.
    + apply map_lookup_filter_None. right. intros a' E' Hne. simpl in Hne. congruence.
    + by apply map_lookup_filter_Some_2.
  - apply map_lookup_filter_None. by left.
Qed.

(** C5, as the code has it: when a Supervisor deletes the profile [pk], the
    profile is gone, every task assigned to [pk] and every attendance
    record of [pk] is gone, and a task assigned by [pk] to somebody else
    (or to nobody) stays with [assigned_by] cleared and nothing else
    changed.  Every other task and attendance record stays as it was. *)
Theorem delete_profile_cascades s request pk :
  role (request_user request) = Types.SUPERVISOR →
  is_Some (user_profiles s !! pk) →
  ∃ s',
    UserProfileView_delete s request pk =
      (Returns (mkResponse (Message "UserProfile deleted.") HTTP_200_OK), s')
    ∧ user_profiles s' !! pk = None
    ∧ (∀ k task, tasks s !! k = Some task → assigned_to task = Some pk →
         tasks s' !! k = None)
    ∧ (∀ k attendance, attendances s !! k = Some attendance → user attendance = pk →
         attendances s' !! k = None)
    ∧ (∀ k task, tasks s !! k = Some task → assigned_to task ≠ Some pk →
         assigned_by task = Some pk →
         tasks s' !! k = Some (set_assigned_by task None))
    ∧ (∀ k task, tasks s !! k = Some task → assigned_to task ≠ Some pk →
         assigned_by task ≠ Some pk →
         tasks s' !! k = Some task)
    ∧ (∀ k attendance, attendances s !! k = Some attendance → user attendance ≠ pk →
         attendances s' !! k = Some attendance)
    ∧ (∀ k, k ≠ pk → user_profiles s' !! k = user_profiles s !! k).
Proof.
  intros Hrole [profile Hpk]. exists (UserProfile_delete s pk).
  unfold UserProfileView_delete, UserProfileView_get_object.
  rewrite Hpk, bool_decide_eq_false_2 by (intros Hne; by apply Hne).
  split; [done|]. split; [apply lookup_delete_eq|].
  repeat apply conj.
  - intros k task Hk Hto.
    by rewrite UserProfile_delete_task, Hk, bool_decide_eq_true_2.
  - intros k attendance Hk Hu.
    by rewrite UserProfile_delete_attendance, Hk, bool_decide_eq_true_2.
  - intros k task Hk Hto Hby.
    rewrite UserProfile_delete_task, Hk, bool_decide_eq_false_2 by done.
    unfold clear_assigned_by. by rewrite bool_decide_eq_true_2.
  - intros k task Hk Hto Hby.
    rewrite UserProfile_delete_task, Hk, bool_decide_eq_false_2 by done.
    unfold clear_assigned_by. by rewrite bool_decide_eq_false_2.
  - intros k attendance Hk Hu.
    by rewrite UserProfile_delete_attendance, Hk, bool_decide_eq_false_2.
  - intros k Hk. by apply lookup_delete_ne.
Qed.

End Deletion.

(** ** The birthday job *)

Section Birthdays.
Context {env : Environment}.

(** C1, on the code: [UserProfile] has no [birth_date] (the column is
    declared on [Task]), so the filter of the birthday job cannot be
    resolved against the model: whatever the database holds and whatever
    the day, the job ends with [FieldError] before any message is sent. *)
Theorem send_happy_birthday_emails_raises s :
  meta_get_field UserProfile_meta "birth_date" = None
  ∧ meta_get_field Task_meta "birth_date" = Some DateField
  ∧ send_happy_birthday_emails s = (Some (FieldError "birth_date"), []).
Proof. repeat split. Qed.

End Birthdays.

(** ** The two actions that create a row *)

Lemma pretty_N_go_digits (n : N) (acc : string) :
  all_digits acc = true → all_digits (pretty_N_go n acc) = true.
Proof.
  revert acc. induction (N.lt_wf_0 n) as [n _ IH]; intros acc Hacc.
  destruct (decide (n = 0)%N) as [->|Hn]; [by rewrite pretty_N_go_0|].
  rewrite pretty_N_go_step by lia. apply IH; [apply N.div_lt; lia|].
  simpl. rewrite Hacc, andb_true_r. unfold pretty_N_char.
  by repeat case_match.
Qed.

(** The decimal text of a number is none of ['P'], ['A'], ['L']. *)
Lemma pretty_not_a_status (n : Z) : pretty n ∉ Attendance_status_choices.
Proof.
  assert (∀ x, all_digits x = true → x ∉ Attendance_status_choices) as Hdigits.
  { intros x Hx Hin. unfold Attendance_status_choices in Hin.
    repeat (apply elem_of_cons in Hin as [->|Hin]; [done|]).
    by apply elem_of_nil in Hin. }
  destruct n as [|p|p].
  - by apply Hdigits.
  - apply Hdigits. change (pretty (Z.pos p)) with (pretty (N.pos p)).
    unfold pretty, pretty_N. case_decide; [done|]. by apply pretty_N_go_digits.
  - intros Hin. unfold Attendance_status_choices in Hin.
    change (pretty (Z.neg p)) with ("-" +:+ pretty p) in Hin.
    repeat (apply elem_of_cons in Hin as [Hin|Hin]; [done|]).
    by apply elem_of_nil in Hin.
Qed.

Section Actions.
Context {env : Environment}.

Lemma status_validation s (v : value) :
  run_validation s false
    (plain "status" (ChoiceField Attendance_status_choices) false false) (Some v)
  = match marked_status (Some v) with
    | Some x => Validated (OStr x)
    | None =>
        match v with
        | VNone => ValidationError "This field may not be null."
        | _ => ValidationError "Not a valid choice."
        end
    end.
Proof.
  destruct v as [|[]|n|x|l]; try reflexivity.
  - unfold run_validation; simpl.
    rewrite bool_decide_eq_false_2; [done|apply pretty_not_a_status].
  - unfold run_validation; simpl. by case_bool_decide.
Qed.

(** The key of a stored profile passes a foreign-key field. *)
Lemma caller_validation s partial name req null uid :
  is_Some (user_profiles s !! uid) →
  run_validation s partial (plain name PrimaryKeyRelatedField req null)
    (Some (VInt uid))
  = Validated (OInstance uid).
Proof.
  intros Hin. unfold run_validation, to_internal_value; simpl.
  rewrite bool_decide_eq_true_2; [done|by apply elem_of_dom].
Qed.

Lemma mark_payload_run s uid v :
  is_Some (user_profiles s !! uid) →
  run_fields s false (writable_fields AttendanceSerializer_fields)
    (<["status" := v]> (<["user" := VInt uid]> ∅)) ∅ ∅
  = match marked_status (Some v) with
    | Some x => (<["status" := OStr x]> (<["user" := OInstance uid]> ∅), ∅)
    | None =>
        (<["user" := OInstance uid]> ∅,
         <["status" := match v with
                       | VNone => "This field may not be null."
                       | _ => "Not a valid choice."
                       end]> ∅)
    end.
Proof.
  intros Hin.
  change (writable_fields AttendanceSerializer_fields) with
    [plain "user" PrimaryKeyRelatedField true false;
     plain "status" (ChoiceField Attendance_status_choices) false false;
     plain "check_out_time" DateTimeField false true].
  cbn [run_fields].
  change ((<["status" := v]> (<["user" := VInt uid]> ∅) : gmap string value)
            !! field_name (plain "user" PrimaryKeyRelatedField true false))
    with (Some (VInt uid)).
  rewrite caller_validation by done.
  change ((<["status" := v]> (<["user" := VInt uid]> ∅) : gmap string value)
            !! field_name (plain "status" (ChoiceField Attendance_status_choices)
                             false false))
    with (Some v).
  rewrite status_validation.
  destruct (marked_status (Some v)); [reflexivity|]. by destruct v.
Qed.

Lemma marked_status_default (entry : option value) :
  marked_status (Some (default (VStr "P") entry)) = marked_status entry.
Proof. by destruct entry. Qed.

(** C3, as the code has it.  A caller whose role is not Intern gets 401 and
    nothing is written.  For an Intern who is a stored user: when the
    payload has no [status], or has one of the strings ['P'], ['A'], ['L'],
    the answer is 201 and one row is added under a new key, with [user]
    the caller, [status] the payload's (['P'] when it has none) and the
    check-in time now; with anything else under [status] the answer is 400
    and nothing is written.  Nothing of the payload but its [status] entry
    plays a part. *)
Theorem mark_attendance_records_the_caller s request :
  (role (request_user request) ≠ Types.INTERN →
   MarkAttendanceView_post s request =
     (Returns (mkResponse (Error "Only interns can mark attendance.")
                 HTTP_401_UNAUTHORIZED), s))
  ∧ (role (request_user request) = Types.INTERN →
     authenticated s request →
     match marked_status (request_data request !! "status") with
     | Some chosen =>
         let pk := next_pk (attendances s) in
         let attendance :=
           {| user := request_user_id request; status := chosen;
              check_in_time := timezone_now; check_out_time := None |} in
         attendances s !! pk = None
         ∧ MarkAttendanceView_post s request =
             (Returns (mkResponse
                         (Data (to_representation AttendanceSerializer_fields
                                  (Attendance_dict pk attendance)))
                         HTTP_201_CREATED),
              with_attendances s (<[pk := attendance]> (attendances s)))
     | None =>
         status_of (MarkAttendanceView_post s request) = Some HTTP_400_BAD_REQUEST
         ∧ (MarkAttendanceView_post s request).2 = s
     end)
  ∧ (∀ request',
       request_user_id request' = request_user_id request →
       role (request_user request') = role (request_user request) →
       request_data request' !! "status" = request_data request !! "status" →
       MarkAttendanceView_post s request' = MarkAttendanceView_post s request).
Proof.
  repeat apply conj.
  - intros Hrole. unfold MarkAttendanceView_post. by rewrite bool_decide_eq_true_2.
  - intros Hrole Hauth. unfold MarkAttendanceView_post.
    rewrite bool_decide_eq_false_2 by (intros Hne; by apply Hne).
    unfold is_valid, serializer_errors, AttendanceSerializer_save_new, validated_data.
    rewrite mark_payload_run by (unfold authenticated in Hauth; by rewrite Hauth).
    rewrite marked_status_default.
    destruct (marked_status (request_data request !! "status")) as [chosen|].
    + split; [apply next_pk_fresh|reflexivity].
    + cbn [snd]. rewrite bool_decide_eq_false_2 by apply insert_non_empty. done.
  - intros request' Hid Hrole Hstatus. unfold MarkAttendanceView_post.
    by rewrite Hid, Hrole, Hstatus.
Qed.

Lemma assign_payload_valid s (data : gmap string value) uid :
  is_Some (user_profiles s !! uid) →
  is_valid s false TaskSerializer_fields (<["assigned_by" := VInt uid]> data)
  = is_valid s false TaskSerializer_fields (delete "assigned_by" data).
Proof.
  intros Hin. apply eq_true_iff_eq. rewrite !is_valid_iff.
  change (writable_fields TaskSerializer_fields) with
    [plain "title" (CharField 250 false) true false;
     plain "description" (CharField 250 true) false false;
     plain "due_date" DateTimeField false true;
     plain "is_completed" BooleanField false false;
     plain "assigned_to" PrimaryKeyRelatedField false true;
     plain "assigned_by" PrimaryKeyRelatedField false true;
     plain "birth_date" DateField false true].
  rewrite !Forall_cons, !Forall_nil. cbn [field_name plain].
  rewrite lookup_insert_eq, lookup_delete_eq.
  rewrite !lookup_insert_ne, !lookup_delete_ne by done.
  rewrite (caller_validation s false "assigned_by" false true uid Hin).
  split; intros (?&?&?&?&?&_&?&_); repeat apply conj; done.
Qed.

Lemma assign_payload_assigned_by s (data : gmap string value) uid :
  is_Some (user_profiles s !! uid) →
  validated_data s false TaskSerializer_fields (<["assigned_by" := VInt uid]> data)
    !! "assigned_by" = Some (OInstance uid).
Proof.
  intros Hin.
  pose proof (run_fields_lookup s false (writable_fields TaskSerializer_fields)
                (<["assigned_by" := VInt uid]> data) ∅ ∅
                (plain "assigned_by" PrimaryKeyRelatedField false true)) as Hl.
  cbn [field_name plain] in Hl.
  rewrite lookup_insert_eq, caller_validation in Hl by done.
  apply Hl.
  - apply (bool_decide_unpack _). vm_compute. exact I.
  - unfold writable_fields, TaskSerializer_fields; cbn [List.filter read_only readonly plain negb].
    repeat constructor.
Qed.

(** C4, as the code has it.  A caller whose role is not Supervisor gets 401
    and nothing is written.  For a Supervisor who is a stored user: when
    the payload, its [assigned_by] entry left aside, passes the serializer,
    the answer is 201 and one task is added under a new key, with
    [assigned_by] the caller; when it does not, the answer is 400 and
    nothing is written.  What the client sent under [assigned_by] plays no
    part. *)
Theorem assign_task_records_the_caller s request :
  (role (request_user request) ≠ Types.SUPERVISOR →
   AssignTaskView_post s request =
     (Returns (mkResponse (Error "Only supervisors can assign tasks.")
                 HTTP_401_UNAUTHORIZED), s))
  ∧ (role (request_user request) = Types.SUPERVISOR →
     authenticated s request →
     if is_valid s false TaskSerializer_fields
          (delete "assigned_by" (request_data request))
     then
       ∃ task,
         tasks s !! next_pk (tasks s) = None
         ∧ assigned_by task = Some (request_user_id request)
         ∧ AssignTaskView_post s request =
             (Returns (mkResponse
                         (Data (to_representation TaskSerializer_fields
                                  (Task_dict (next_pk (tasks s)) task)))
                         HTTP_201_CREATED),
              with_tasks s (<[next_pk (tasks s) := task]> (tasks s)))
     else
       status_of (AssignTaskView_post s request) = Some HTTP_400_BAD_REQUEST
       ∧ (AssignTaskView_post s request).2 = s)
  ∧ (∀ v,
       AssignTaskView_post s
         (mkRequest (request_user_id request) (request_user request)
            (<["assigned_by" := v]> (request_data request)))
       = AssignTaskView_post s request).
Proof.
  repeat apply conj.
  - intros Hrole. unfold AssignTaskView_post. by rewrite bool_decide_eq_true_2.
  - intros Hrole Hauth.
    assert (is_Some (user_profiles s !! request_user_id request)) as Hin.
    { unfold authenticated in Hauth. by rewrite Hauth. }
    unfold AssignTaskView_post.
    rewrite bool_decide_eq_false_2 by (intros Hne; by apply Hne).
    rewrite assign_payload_valid by done.
    destruct (is_valid s false TaskSerializer_fields
                (delete "assigned_by" (request_data request))); [|done].
    eexists. split; [apply next_pk_fresh|]. split; [|reflexivity].
    unfold Task_create, Task_setattrs; cbn [assigned_by]. unfold attr_fk_null.
    by rewrite assign_payload_assigned_by.
  - intros v. unfold AssignTaskView_post; cbn [request_user request_user_id request_data].
    by rewrite insert_insert_eq.
Qed.

End Actions.

(** * The rest of the application *)

Lemma next_pk_positive {A : Type} (table : gmap Z A) : 0 < next_pk table.
Proof.
  unfold next_pk.
  cut (0 ≤ map_fold (λ k (_ : A) acc, Z.max k acc) 0 table); [lia|].
  apply (map_fold_weak_ind (λ r (m : gmap Z A), 0 ≤ r)); [done|].
  intros i x m r _ IH. lia.
Qed.

Section Reads.
Context {env : Environment}.

Ltac read_cases pk k :=
  destruct pk as [k|];
  [case_bool_decide as Hk;
   [match goal with
    | |- context [match ?m !! k with _ => _ end] => destruct (m !! k) eqn:E
    end|]|];
  cbn [fst snd].

Lemma UserProfileView_get_reads s request pk :
  (UserProfileView_get s request pk).2 = s
  ∧ (NotFound (UserProfileView_get s request pk)
     ↔ ∃ k, pk = Some k ∧ k ≠ 0 ∧ user_profiles s !! k = None)
  ∧ listed (UserProfileView_get s request None) = Some (size (user_profiles s))
  ∧ UserProfileView_get s request (Some 0) = UserProfileView_get s request None.
Proof.
  unfold UserProfileView_get, UserProfileView_get_object, NotFound, status_of, listed.
  split; [|split; [|split]].
  - read_cases pk k; reflexivity.
  - read_cases pk k; split;
      try (intros Hn; discriminate Hn).
    + intros (k' & [= <-] & _ & E'). congruence.
    + intros _. by exists k.
    + done.
    + intros (k' & [= <-] & Hk' & _). by destruct Hk'.
    + intros (k' & Hk' & _). discriminate Hk'.
  - cbn [fst response_data]. by rewrite length_fmap, length_objects_all.
  - reflexivity.
Qed.

Lemma TaskView_get_reads s request pk :
  (TaskView_get s request pk).2 = s
  ∧ (NotFound (TaskView_get s request pk)
     ↔ ∃ k, pk = Some k ∧ k ≠ 0 ∧ tasks s !! k = None)
  ∧ listed (TaskView_get s request None) = Some (size (tasks s))
  ∧ TaskView_get s request (Some 0) = TaskView_get s request None.
Proof.
  unfold TaskView_get, TaskView_get_object, NotFound, status_of, listed.
  split; [|split; [|split]].
  - read_cases pk k; reflexivity.
  - read_cases pk k; split;
      try (intros Hn; discriminate Hn).
    + intros (k' & [= <-] & _ & E'). congruence.
    + intros _. by exists k.
    + done.
    + intros (k' & [= <-] & Hk' & _). by destruct Hk'.
    + intros (k' & Hk' & _). discriminate Hk'.
  - cbn [fst response_data]. by rewrite length_fmap, length_objects_all.
  - reflexivity.
Qed.

Lemma AttendanceView_get_reads s request pk :
  (AttendanceView_get s request pk).2 = s
  ∧ (NotFound (AttendanceView_get s request pk)
     ↔ ∃ k, pk = Some k ∧ k ≠ 0 ∧ attendances s !! k = None)
  ∧ listed (AttendanceView_get s request None) = Some (size (attendances s))
  ∧ AttendanceView_get s request (Some 0) = AttendanceView_get s request None.
Proof.
  unfold AttendanceView_get, AttendanceView_get_object, NotFound, status_of, listed.
  split; [|split; [|split]].
  - read_cases pk k; reflexivity.
  - read_cases pk k; split;
      try (intros Hn; discriminate Hn).
    + intros (k' & [= <-] & _ & E'). congruence.
    + intros _. by exists k.
    + done.
    + intros (k' & [= <-] & Hk' & _). by destruct Hk'.
    + intros (k' & Hk' & _). discriminate Hk'.
  - cbn [fst response_data]. by rewrite length_fmap, length_objects_all.
  - reflexivity.
Qed.

(** X1: a read never changes the store.  It answers 404 exactly for a key
    other than 0 that is not in the table; the list has one entry for each
    row; and the key 0 is read as no key at all: the answer is the list. *)
Theorem reads_leave_the_store s request pk :
  ((UserProfileView_get s request pk).2 = s
   ∧ (NotFound (UserProfileView_get s request pk)
      ↔ ∃ k, pk = Some k ∧ k ≠ 0 ∧ user_profiles s !! k = None)
   ∧ listed (UserProfileView_get s request None) = Some (size (user_profiles s))
   ∧ UserProfileView_get s request (Some 0) = UserProfileView_get s request None)
  ∧ ((TaskView_get s request pk).2 = s
     ∧ (NotFound (TaskView_get s request pk)
        ↔ ∃ k, pk = Some k ∧ k ≠ 0 ∧ tasks s !! k = None)
     ∧ listed (TaskView_get s request None) = Some (size (tasks s))
     ∧ TaskView_get s request (Some 0) = TaskView_get s request None)
  ∧ ((AttendanceView_get s request pk).2 = s
     ∧ (NotFound (AttendanceView_get s request pk)
        ↔ ∃ k, pk = Some k ∧ k ≠ 0 ∧ attendances s !! k = None)
     ∧ listed (AttendanceView_get s request None) = Some (size (attendances s))
     ∧ AttendanceView_get s request (Some 0) = AttendanceView_get s request None).
Proof.
  split; [apply UserProfileView_get_reads|].
  split; [apply TaskView_get_reads|apply AttendanceView_get_reads].
Qed.
End Reads.

Section Rows.
Context {env : Environment}.

(** Membership in the writable fields of the two row serializers. *)
Lemma TaskSerializer_writable :
  writable_fields TaskSerializer_fields =
    [plain "title" (CharField 250 false) true false;
     plain "description" (CharField 250 true) false false;
     plain "due_date" DateTimeField false true;
     plain "is_completed" BooleanField false false;
     plain "assigned_to" PrimaryKeyRelatedField false true;
     plain "assigned_by" PrimaryKeyRelatedField false true;
     plain "birth_date" DateField false true].
Proof. reflexivity. Qed.

Lemma AttendanceSerializer_writable :
  writable_fields AttendanceSerializer_fields =
    [plain "user" PrimaryKeyRelatedField true false;
     plain "status" (ChoiceField Attendance_status_choices) false false;
     plain "check_out_time" DateTimeField false true].
Proof. reflexivity. Qed.

Lemma TaskSerializer_NoDup : NoDup (field_name <$> writable_fields TaskSerializer_fields).
Proof. apply (bool_decide_unpack _). vm_compute. exact I. Qed.

Lemma AttendanceSerializer_NoDup :
  NoDup (field_name <$> writable_fields AttendanceSerializer_fields).
Proof. apply (bool_decide_unpack _). vm_compute. exact I. Qed.

(** What a foreign-key field lets through. *)
Lemma fk_validated s partial name req null data o :
  run_validation s partial (plain name PrimaryKeyRelatedField req null) data = Validated o →
  o = ONone ∨ ∃ pk, o = OInstance pk ∧ is_Some (user_profiles s !! pk).
Proof.
  unfold run_validation, to_internal_value.
  cbn [kind plain is_blank allow_null required validators kind_validators app run_validators].
  destruct data as [v|]; [|by repeat case_match].
  destruct v as [|b|n|x|l]; cbn [pk_of_value].
  - case_match; [|done]. intros [= <-]. by left.
  - done.
  - case_bool_decide as Hin; [|done]. intros [= <-]. right. exists n.
    split; [done|]. by apply elem_of_dom.
  - destruct (int_of_str x) as [pk|]; [|done].
    case_bool_decide as Hin; [|done]. intros [= <-]. right. exists pk.
    split; [done|]. by apply elem_of_dom.
  - done.
Qed.

(** The entry of a number under a foreign-key field, in a valid payload. *)
Lemma fk_entry_validated s partial name req null pk :
  (∀ d, run_validation s partial (plain name PrimaryKeyRelatedField req null)
          (Some (VInt pk)) ≠ ValidationError d) →
  is_Some (user_profiles s !! pk)
  ∧ run_validation s partial (plain name PrimaryKeyRelatedField req null) (Some (VInt pk))
    = Validated (OInstance pk).
Proof.
  intros Hok. destruct (user_profiles s !! pk) as [u|] eqn:E.
  - split; [by eexists|]. apply caller_validation. by rewrite E.
  - exfalso. apply (Hok "Invalid pk - object does not exist.").
    unfold run_validation; cbn. rewrite bool_decide_eq_false_2; [done|].
    by rewrite not_elem_of_dom.
Qed.

Lemma valid_field s partial fields data f :
  is_valid s partial fields data = true → f ∈ writable_fields fields →
  ∀ d, run_validation s partial f (data !! field_name f) ≠ ValidationError d.
Proof.
  rewrite is_valid_iff, Forall_forall. intros Hall Hin. by apply Hall.
Qed.

Lemma Task_assigned_to_in : plain "assigned_to" PrimaryKeyRelatedField false true
                            ∈ writable_fields TaskSerializer_fields.
Proof. rewrite TaskSerializer_writable. repeat constructor. Qed.

Lemma Attendance_user_in : plain "user" PrimaryKeyRelatedField true false
                           ∈ writable_fields AttendanceSerializer_fields.
Proof. rewrite AttendanceSerializer_writable. repeat constructor. Qed.

(** A required key lets nothing through but the key of a stored profile. *)
Lemma required_fk_validated s name data :
  (∀ d, run_validation s false (plain name PrimaryKeyRelatedField true false) data
        ≠ ValidationError d) →
  ∃ pk, run_validation s false (plain name PrimaryKeyRelatedField true false) data
        = Validated (OInstance pk)
        ∧ is_Some (user_profiles s !! pk).
Proof.
  unfold run_validation, to_internal_value.
  cbn [kind plain is_blank allow_null required validators kind_validators app
       run_validators].
  intros Hok. destruct data as [v|]; [|by destruct (Hok "This field is required.")].
  destruct v as [|b|n|x|l]; cbn [pk_of_value] in *.
  - by destruct (Hok "This field may not be null.").
  - by destruct (Hok "Incorrect type. Expected pk value.").
  - case_bool_decide as Hin.
    + exists n. split; [done|]. by apply elem_of_dom.
    + by destruct (Hok "Invalid pk - object does not exist.").
  - destruct (int_of_str x) as [pk|].
    + case_bool_decide as Hin.
      * exists pk. split; [done|]. by apply elem_of_dom.
      * by destruct (Hok "Invalid pk - object does not exist.").
    + by destruct (Hok "Incorrect type. Expected pk value.").
  - by destruct (Hok "Incorrect type. Expected pk value.").
Qed.

(** A valid attendance payload names a stored user. *)
Lemma valid_attendance_user s data :
  is_valid s false AttendanceSerializer_fields data = true →
  ∃ pk, validated_data s false AttendanceSerializer_fields data !! "user"
        = Some (OInstance pk)
        ∧ is_Some (user_profiles s !! pk).
Proof.
  intros Hvalid.
  pose proof (valid_field _ _ _ _ _ Hvalid Attendance_user_in) as Hok.
  pose proof (run_fields_lookup s false _ data ∅ ∅ _ AttendanceSerializer_NoDup
                Attendance_user_in) as Hl.
  cbn [field_name plain] in Hok, Hl. unfold validated_data. rewrite Hl. clear Hl.
  destruct (required_fk_validated s "user" _ Hok) as (pk & -> & Hpk). by exists pk.
Qed.

Lemma representation_id_task pk task :
  to_representation TaskSerializer_fields (Task_dict pk task) !! "id" = Some (VInt pk).
Proof. reflexivity. Qed.

Lemma representation_id_attendance pk attendance :
  to_representation AttendanceSerializer_fields (Attendance_dict pk attendance) !! "id"
  = Some (VInt pk).
Proof. reflexivity. Qed.

(** X2: when a Supervisor creates a task with a payload the serializer
    accepts, the answer is 201 with the new row, whose [id] is a positive
    key that was not in use; every row that was there stays as it was, the
    other tables are untouched, and reading that key afterwards, by anyone,
    answers 200 with the same representation. *)
Theorem task_create_then_retrieve s request :
  role (request_user request) = Types.SUPERVISOR →
  is_valid s false TaskSerializer_fields (request_data request) = true →
  ∃ pk d s',
    TaskView_post s request = (Returns (mkResponse (Data d) HTTP_201_CREATED), s')
    ∧ d !! "id" = Some (VInt pk)
    ∧ 0 < pk
    ∧ tasks s !! pk = None
    ∧ (∀ k task, tasks s !! k = Some task → tasks s' !! k = Some task)
    ∧ user_profiles s' = user_profiles s
    ∧ attendances s' = attendances s
    ∧ (∀ reader,
         TaskView_get s' reader (Some pk) =
           (Returns (mkResponse (Data d) HTTP_200_OK), s')).
Proof.
  intros Hrole Hvalid. unfold TaskView_post.
  rewrite bool_decide_eq_false_2 by (intros Hne; by apply Hne).
  rewrite Hvalid. unfold TaskSerializer_save_new.
  eexists _, _, _. split; [reflexivity|].
  split; [apply representation_id_task|].
  split; [apply next_pk_positive|]. split; [apply next_pk_fresh|].
  split; [|split; [done|split; [done|]]].
  - intros k task Hk. cbn [tasks with_tasks]. rewrite lookup_insert_ne; [done|].
    intros <-. by rewrite next_pk_fresh in Hk.
  - intros reader. unfold TaskView_get, TaskView_get_object.
    rewrite bool_decide_eq_true_2 by (pose proof (next_pk_positive (tasks s)); lia).
    cbn [tasks with_tasks]. by rewrite lookup_insert_eq.
Qed.

(** X3: when a Supervisor creates an attendance record with a payload the
    serializer accepts, the save does not fail on the user column: the
    answer is 201 with the new row, whose [id] is a positive key that was
    not in use; every row that was there stays as it was, the other tables
    are untouched, and reading that key afterwards answers 200 with the same
    representation. *)
Theorem attendance_create_then_retrieve s request :
  role (request_user request) = Types.SUPERVISOR →
  is_valid s false AttendanceSerializer_fields (request_data request) = true →
  ∃ pk d s',
    AttendanceView_post s request = (Returns (mkResponse (Data d) HTTP_201_CREATED), s')
    ∧ d !! "id" = Some (VInt pk)
    ∧ 0 < pk
    ∧ attendances s !! pk = None
    ∧ (∀ k attendance, attendances s !! k = Some attendance →
         attendances s' !! k = Some attendance)
    ∧ user_profiles s' = user_profiles s
    ∧ tasks s' = tasks s
    ∧ (∀ reader,
         AttendanceView_get s' reader (Some pk) =
           (Returns (mkResponse (Data d) HTTP_200_OK), s')).
Proof.
  intros Hrole Hvalid. unfold AttendanceView_post.
  rewrite bool_decide_eq_false_2 by (intros Hne; by apply Hne).
  rewrite Hvalid. unfold AttendanceSerializer_save_new, Attendance_create.
  destruct (valid_attendance_user s _ Hvalid) as (u & -> & _).
  eexists _, _, _. split; [reflexivity|].
  split; [apply representation_id_attendance|].
  split; [apply next_pk_positive|]. split; [apply next_pk_fresh|].
  split; [|split; [done|split; [done|]]].
  - intros k attendance Hk. cbn [attendances with_attendances].
    rewrite lookup_insert_ne; [done|].
    intros <-. by rewrite next_pk_fresh in Hk.
  - intros reader. unfold AttendanceView_get, AttendanceView_get_object.
    rewrite bool_decide_eq_true_2 by (pose proof (next_pk_positive (attendances s)); lia).
    cbn [attendances with_attendances]. by rewrite lookup_insert_eq.
Qed.

(** X4: when a Supervisor deletes a task (an attendance record) that
    exists, that key and no other leaves the table and the other tables are
    untouched; deleting or updating the key again is answered 404 whoever
    asks, and completing the task is answered 404 or 401. *)
Theorem supervisor_delete_removes_the_row s request pk :
  role (request_user request) = Types.SUPERVISOR →
  (is_Some (tasks s !! pk) →
   ∃ s',
     TaskView_delete s request pk =
       (Returns (mkResponse (Message "Task deleted.") HTTP_200_OK), s')
     ∧ tasks s' = delete pk (tasks s)
     ∧ user_profiles s' = user_profiles s
     ∧ attendances s' = attendances s
     ∧ (∀ anyone, NotFound (TaskView_delete s' anyone pk))
     ∧ (∀ anyone, NotFound (TaskView_put s' anyone pk))
     ∧ (∀ anyone, NotFound (MarkTaskCompleteView_patch s' anyone pk)
                  ∨ Forbidden (MarkTaskCompleteView_patch s' anyone pk)))
  ∧ (is_Some (attendances s !! pk) →
     ∃ s',
       AttendanceView_delete s request pk =
         (Returns (mkResponse (Message "Attendance record deleted.") HTTP_200_OK), s')
       ∧ attendances s' = delete pk (attendances s)
       ∧ user_profiles s' = user_profiles s
       ∧ tasks s' = tasks s
       ∧ (∀ anyone, NotFound (AttendanceView_delete s' anyone pk))
       ∧ (∀ anyone, NotFound (AttendanceView_put s' anyone pk))).
Proof.
  intros Hrole. split.
  - intros [task Hpk]. eexists. unfold TaskView_delete at 1. unfold TaskView_get_object.
    rewrite Hpk, bool_decide_eq_false_2 by (intros Hne; by apply Hne).
    split; [reflexivity|]. repeat apply conj; try reflexivity.
    + intros anyone. unfold NotFound, status_of, TaskView_delete, TaskView_get_object.
      cbn [tasks with_tasks]. by rewrite lookup_delete_eq.
    + intros anyone. unfold NotFound, status_of, TaskView_put, TaskView_get_object.
      cbn [tasks with_tasks]. by rewrite lookup_delete_eq.
    + intros anyone.
      unfold NotFound, Forbidden, status_of, MarkTaskCompleteView_patch, Task_objects_get.
      cbn [tasks with_tasks]. rewrite lookup_delete_eq.
      case_bool_decide; [by right|by left].
  - intros [attendance Hpk]. eexists.
    unfold AttendanceView_delete at 1. unfold AttendanceView_get_object.
    rewrite Hpk, bool_decide_eq_false_2 by (intros Hne; by apply Hne).
    split; [reflexivity|]. repeat apply conj; try reflexivity.
    + intros anyone.
      unfold NotFound, status_of, AttendanceView_delete, AttendanceView_get_object.
      cbn [attendances with_attendances]. by rewrite lookup_delete_eq.
    + intros anyone.
      unfold NotFound, status_of, AttendanceView_put, AttendanceView_get_object.
      cbn [attendances with_attendances]. by rewrite lookup_delete_eq.
Qed.

(** X5: the assign action behaves as the generic create of a task whose
    payload carries the caller under [assigned_by]: the two answer with the
    same status and leave the same store, and for a Supervisor the two
    answers are equal. *)
Theorem assign_is_create_with_forced_assigner s request :
  let forced :=
    with_data request
      (<["assigned_by" := VInt (request_user_id request)]> (request_data request)) in
  status_of (AssignTaskView_post s request) = status_of (TaskView_post s forced)
  ∧ (AssignTaskView_post s request).2 = (TaskView_post s forced).2
  ∧ (role (request_user request) = Types.SUPERVISOR →
     AssignTaskView_post s request = TaskView_post s forced).
Proof.
  intros forced. subst forced.
  unfold AssignTaskView_post, TaskView_post, with_data, status_of.
  cbn [request_user request_user_id request_data].
  case_bool_decide as Hrole; repeat apply conj; done.
Qed.

Lemma MarkTaskCompleteView_patch_frame s request pk :
  status_of (MarkTaskCompleteView_patch s request pk) ≠ Some HTTP_400_BAD_REQUEST
  ∧ (status_of (MarkTaskCompleteView_patch s request pk) = Some HTTP_200_OK
     ↔ role (request_user request) = Types.INTERN
       ∧ ∃ task, tasks s !! pk = Some task
                 ∧ assigned_to task = Some (request_user_id request))
  ∧ user_profiles (MarkTaskCompleteView_patch s request pk).2 = user_profiles s
  ∧ attendances (MarkTaskCompleteView_patch s request pk).2 = attendances s
  ∧ dom (tasks (MarkTaskCompleteView_patch s request pk).2) = dom (tasks s)
  ∧ (∀ k, k ≠ pk → tasks (MarkTaskCompleteView_patch s request pk).2 !! k = tasks s !! k).
Proof.
  unfold MarkTaskCompleteView_patch, Task_objects_get, status_of.
  rewrite complete_payload_valid.
  case_bool_decide as Hrole; cbn [fst snd].
  { repeat apply conj; try done. intros [Hi _]. by destruct Hrole. }
  destruct (tasks s !! pk) as [task|] eqn:Hpk; cbn [fst snd].
  - case_bool_decide as Hto; cbn [fst snd].
    + repeat apply conj; try done.
      * intros _. split; [by destruct (decide (role (request_user request) = Types.INTERN))|].
        by exists task.
      * cbn [tasks with_tasks].
        apply dom_insert_lookup_L. by eexists.
      * intros k Hk. cbn [tasks with_tasks]. by rewrite lookup_insert_ne.
    + repeat apply conj; try done. intros (_ & task' & [= <-] & Hto'). done.
  - repeat apply conj; try done. intros (_ & task' & Hn & _). discriminate Hn.
Qed.

(** X6: the complete action never answers 400.  It answers 200 exactly when
    the caller is an Intern and the task exists and is assigned to them; it
    never touches the profiles or the attendance records, never adds or
    removes a task, and never changes a task under another key. *)
Theorem complete_task_answers s request pk :
  status_of (MarkTaskCompleteView_patch s request pk) ≠ Some HTTP_400_BAD_REQUEST
  ∧ (status_of (MarkTaskCompleteView_patch s request pk) = Some HTTP_200_OK
     ↔ role (request_user request) = Types.INTERN
       ∧ ∃ task, tasks s !! pk = Some task
                 ∧ assigned_to task = Some (request_user_id request))
  ∧ user_profiles (MarkTaskCompleteView_patch s request pk).2 = user_profiles s
  ∧ attendances (MarkTaskCompleteView_patch s request pk).2 = attendances s
  ∧ dom (tasks (MarkTaskCompleteView_patch s request pk).2) = dom (tasks s)
  ∧ (∀ k, k ≠ pk → tasks (MarkTaskCompleteView_patch s request pk).2 !! k = tasks s !! k).
Proof. apply MarkTaskCompleteView_patch_frame. Qed.

End Rows.

Section Invariants.
Context {env : Environment}.

Lemma validated_fk_exists s partial fields data name req null pk :
  NoDup (field_name <$> writable_fields fields) →
  plain name PrimaryKeyRelatedField req null ∈ writable_fields fields →
  validated_data s partial fields data !! name = Some (OInstance pk) →
  is_Some (user_profiles s !! pk).
Proof.
  intros Hnd Hin. unfold validated_data.
  pose proof (run_fields_lookup s partial _ data ∅ ∅ _ Hnd Hin) as Hl.
  cbn [field_name plain] in Hl. rewrite Hl. clear Hl.
  destruct (run_validation _ _ _ _) as [o| |d] eqn:E; try done.
  intros [= ->]. destruct (fk_validated _ _ _ _ _ _ _ E) as [?|(pk' & [= <-] & ?)]; done.
Qed.

Lemma Task_assigned_by_in : plain "assigned_by" PrimaryKeyRelatedField false true
                            ∈ writable_fields TaskSerializer_fields.
Proof. rewrite TaskSerializer_writable. repeat constructor. Qed.

(** The foreign keys of a task written from a validated payload. *)
Lemma Task_setattrs_refs s partial data task u :
  (∀ u', assigned_to task = Some u' ∨ assigned_by task = Some u' →
         is_Some (user_profiles s !! u')) →
  assigned_to (Task_setattrs task (validated_data s partial TaskSerializer_fields data))
    = Some u
  ∨ assigned_by (Task_setattrs task (validated_data s partial TaskSerializer_fields data))
    = Some u →
  is_Some (user_profiles s !! u).
Proof.
  intros Hold. unfold Task_setattrs; cbn [assigned_to assigned_by]. unfold attr_fk_null.
  intros [Hu|Hu].
  - destruct (validated_data _ _ _ _ !! "assigned_to") as [[]|] eqn:E;
      try (apply Hold; by left); try discriminate Hu.
    injection Hu as <-.
    eapply validated_fk_exists;
      [apply TaskSerializer_NoDup|apply Task_assigned_to_in|exact E].
  - destruct (validated_data _ _ _ _ !! "assigned_by") as [[]|] eqn:E;
      try (apply Hold; by right); try discriminate Hu.
    injection Hu as <-.
    eapply validated_fk_exists;
      [apply TaskSerializer_NoDup|apply Task_assigned_by_in|exact E].
Qed.

Lemma Attendance_setattrs_refs s partial data attendance :
  is_Some (user_profiles s !! user attendance) →
  is_Some (user_profiles s
             !! user (Attendance_setattrs attendance
                        (validated_data s partial AttendanceSerializer_fields data))).
Proof.
  intros Hold. unfold Attendance_setattrs; cbn [user]. unfold attr_fk.
  destruct (validated_data _ _ _ _ !! "user") as [[]|] eqn:E; try done.
  eapply validated_fk_exists;
    [apply AttendanceSerializer_NoDup|apply Attendance_user_in|exact E].
Qed.

Lemma integrity_insert_task s k task :
  referential_integrity s →
  (∀ u, assigned_to task = Some u ∨ assigned_by task = Some u →
        is_Some (user_profiles s !! u)) →
  referential_integrity (with_tasks s (<[k := task]> (tasks s))).
Proof.
  intros [Ht Ha] Hnew. split; [|exact Ha].
  intros k' task' u. cbn [tasks with_tasks user_profiles]. rewrite lookup_insert.
  case_decide; [intros [= <-]; apply Hnew|apply Ht].
Qed.

Lemma integrity_insert_attendance s k attendance :
  referential_integrity s →
  is_Some (user_profiles s !! user attendance) →
  referential_integrity (with_attendances s (<[k := attendance]> (attendances s))).
Proof.
  intros [Ht Ha] Hnew. split; [exact Ht|].
  intros k' attendance'. cbn [attendances with_attendances user_profiles].
  rewrite lookup_insert. case_decide; [by intros [= <-]|apply Ha].
Qed.

Lemma integrity_insert_profile s k profile :
  referential_integrity s →
  referential_integrity (with_user_profiles s (<[k := profile]> (user_profiles s))).
Proof.
  intros [Ht Ha].
  assert (∀ u, is_Some (user_profiles s !! u) →
               is_Some (<[k := profile]> (user_profiles s) !! u)) as Hmono.
  { intros u Hu. rewrite lookup_insert. by case_decide. }
  split.
  - intros k' task u Hk Hu. apply Hmono. by eapply Ht.
  - intros k' attendance Hk. apply Hmono. by eapply Ha.
Qed.

Lemma integrity_delete_profile s pk :
  referential_integrity s → referential_integrity (UserProfile_delete s pk).
Proof.
  intros [Ht Ha]. split.
  - intros k task u. rewrite UserProfile_delete_task.
    destruct (tasks s !! k) as [old|] eqn:Hk; [|done].
    case_bool_decide as Hto; [done|]. intros [= <-]. unfold clear_assigned_by.
    unfold UserProfile_delete; cbn [user_profiles].
    case_bool_decide as Hby; cbn [assigned_to assigned_by set_assigned_by].
    + intros [Hu|Hu]; [|done]. rewrite lookup_delete_ne by congruence.
      eapply Ht; [exact Hk|by left].
    + intros [Hu|Hu]; rewrite lookup_delete_ne by congruence;
        (eapply Ht; [exact Hk|]); [by left|by right].
  - intros k attendance. rewrite UserProfile_delete_attendance.
    destruct (attendances s !! k) as [old|] eqn:Hk; [|done].
    case_bool_decide as Hu; [done|]. intros [= <-].
    unfold UserProfile_delete; cbn [user_profiles].
    rewrite lookup_delete_ne by congruence. by eapply Ha.
Qed.

Lemma integrity_delete_task s pk :
  referential_integrity s → referential_integrity (with_tasks s (delete pk (tasks s))).
Proof.
  intros [Ht Ha]. split; [|exact Ha].
  intros k task u. cbn [tasks with_tasks user_profiles]. rewrite lookup_delete.
  case_decide; [done|apply Ht].
Qed.

Lemma integrity_delete_attendance s pk :
  referential_integrity s →
  referential_integrity (with_attendances s (delete pk (attendances s))).
Proof.
  intros [Ht Ha]. split; [exact Ht|].
  intros k attendance. cbn [attendances with_attendances user_profiles].
  rewrite lookup_delete. case_decide; [done|apply Ha].
Qed.

Lemma TaskSerializer_save_new_integrity s data :
  referential_integrity s → referential_integrity (TaskSerializer_save_new s data).2.
Proof.
  intros Hs. unfold TaskSerializer_save_new; cbn [snd].
  apply integrity_insert_task; [done|]. intros u. unfold Task_create.
  apply Task_setattrs_refs. intros u' [Hu|Hu]; discriminate Hu.
Qed.

Lemma AttendanceSerializer_save_new_integrity s data :
  referential_integrity s → referential_integrity (AttendanceSerializer_save_new s data).2.
Proof.
  intros Hs. unfold AttendanceSerializer_save_new, Attendance_create.
  destruct (validated_data _ _ _ _ !! "user") as [[]|] eqn:E; try done.
  cbn [snd]. apply integrity_insert_attendance; [done|].
  apply Attendance_setattrs_refs; cbn [user].
  eapply validated_fk_exists;
    [apply AttendanceSerializer_NoDup|apply Attendance_user_in|exact E].
Qed.

Lemma perform_integrity s request call :
  referential_integrity s → referential_integrity (perform s request call).2.
Proof.
  intros Hs. destruct call; cbn [perform].
  - by rewrite (proj1 (UserProfileView_get_reads _ _ _)).
  - by rewrite (proj1 (UserProfileView_get_reads _ _ _)).
  - unfold UserProfileView_post. repeat case_match; try done.
    cbn [snd]. by apply integrity_insert_profile.
  - unfold UserProfileView_put, UserProfileView_get_object. repeat case_match; try done.
    cbn [snd]. by apply integrity_insert_profile.
  - unfold UserProfileView_delete, UserProfileView_get_object.
    repeat case_match; try done. cbn [snd]. by apply integrity_delete_profile.
  - by rewrite (proj1 (TaskView_get_reads _ _ _)).
  - by rewrite (proj1 (TaskView_get_reads _ _ _)).
  - unfold TaskView_post. repeat case_match; try done.
    by apply TaskSerializer_save_new_integrity.
  - unfold TaskView_put, TaskView_get_object.
    destruct (tasks s !! pk) as [task|] eqn:Hpk; [|done].
    repeat case_match; try done. cbn [snd].
    apply integrity_insert_task; [done|]. intros u. apply Task_setattrs_refs.
    intros u'. by apply (proj1 Hs pk task).
  - unfold TaskView_delete, TaskView_get_object. repeat case_match; try done.
    cbn [snd]. by apply integrity_delete_task.
  - by rewrite (proj1 (AttendanceView_get_reads _ _ _)).
  - by rewrite (proj1 (AttendanceView_get_reads _ _ _)).
  - unfold AttendanceView_post. repeat case_match; try done.
    by apply AttendanceSerializer_save_new_integrity.
  - unfold AttendanceView_put, AttendanceView_get_object.
    destruct (attendances s !! pk) as [attendance|] eqn:Hpk; [|done].
    repeat case_match; try done. cbn [snd].
    apply integrity_insert_attendance; [done|]. apply Attendance_setattrs_refs.
    by apply (proj2 Hs pk).
  - unfold AttendanceView_delete, AttendanceView_get_object. repeat case_match; try done.
    cbn [snd]. by apply integrity_delete_attendance.
  - unfold MarkAttendanceView_post. repeat case_match; try done.
    by apply AttendanceSerializer_save_new_integrity.
  - unfold MarkTaskCompleteView_patch. case_bool_decide; [done|].
    destruct (Task_objects_get s pk (request_user_id request)) as [task|] eqn:Hget;
      [|done].
    assert (tasks s !! pk = Some task) as Hpk.
    { unfold Task_objects_get in Hget. destruct (tasks s !! pk); [|done].
      case_bool_decide; by simplify_eq. }
    case_match; [|done]. cbn [snd].
    apply integrity_insert_task; [done|]. intros u. apply Task_setattrs_refs.
    intros u'. by apply (proj1 Hs pk task).
  - unfold AssignTaskView_post. repeat case_match; try done.
    by apply TaskSerializer_save_new_integrity.
Qed.

(** X7: when every foreign key of the tasks and the attendance records
    points to a stored profile, it still does after any sequence of calls,
    by any callers with any payloads. *)
Theorem calls_keep_referential_integrity s calls :
  referential_integrity s → referential_integrity (perform_all s calls).
Proof.
  revert s. induction calls as [|[request call] calls IH]; intros s Hs; [done|].
  cbn [perform_all]. by apply IH, perform_integrity.
Qed.

End Invariants.

Section Keys.
Context {env : Environment}.

Lemma positive_insert {A : Type} (table : gmap Z A) k x :
  (∀ k', is_Some (table !! k') → 0 < k') → 0 < k →
  ∀ k', is_Some (<[k := x]> table !! k') → 0 < k'.
Proof.
  intros Hold Hk k'. rewrite lookup_insert. case_decide; [by subst|apply Hold].
Qed.

Lemma positive_delete {A : Type} (table : gmap Z A) k :
  (∀ k', is_Some (table !! k') → 0 < k') →
  ∀ k', is_Some (delete k table !! k') → 0 < k'.
Proof.
  intros Hold k'. rewrite lookup_delete. case_decide; [by intros [? ?]|apply Hold].
Qed.

Lemma positive_delete_profile s pk :
  positive_keys s → positive_keys (UserProfile_delete s pk).
Proof.
  intros (Hu & Ht & Ha). unfold UserProfile_delete. repeat apply conj; cbn.
  - by apply positive_delete.
  - intros k [task Hk]. rewrite lookup_fmap in Hk.
    destruct (filter _ (tasks s) !! k) as [old|] eqn:E; [|done].
    apply map_lookup_filter_Some in E as [E _]. apply Ht. by eexists.
  - intros k [attendance Hk]. apply map_lookup_filter_Some in Hk as [Hk _].
    apply Ha. by eexists.
Qed.

Lemma perform_positive s request call :
  positive_keys s → positive_keys (perform s request call).2.
Proof.
  intros Hs. pose proof Hs as (Hu & Ht & Ha). destruct call; cbn [perform].
  - by rewrite (proj1 (UserProfileView_get_reads _ _ _)).
  - by rewrite (proj1 (UserProfileView_get_reads _ _ _)).
  - unfold UserProfileView_post, UserProfileSerializer_create, create_user.
    repeat case_match; try done. simplify_eq. cbn [snd].
    split; [|done]. cbn [user_profiles with_user_profiles].
    apply positive_insert; [done|apply next_pk_positive].
  - unfold UserProfileView_put, UserProfileView_get_object.
    destruct (user_profiles s !! pk) eqn:Hpk; [|done].
    repeat case_match; try done. cbn [snd]. split; [|done].
    cbn [user_profiles with_user_profiles]. apply positive_insert; [done|].
    apply Hu. by eexists.
  - unfold UserProfileView_delete, UserProfileView_get_object.
    repeat case_match; try done. cbn [snd]. by apply positive_delete_profile.
  - by rewrite (proj1 (TaskView_get_reads _ _ _)).
  - by rewrite (proj1 (TaskView_get_reads _ _ _)).
  - unfold TaskView_post, TaskSerializer_save_new. repeat case_match; try done.
    cbn [snd]. split; [done|split; [|done]]. cbn [tasks with_tasks].
    apply positive_insert; [done|apply next_pk_positive].
  - unfold TaskView_put, TaskView_get_object.
    destruct (tasks s !! pk) eqn:Hpk; [|done].
    repeat case_match; try done. cbn [snd]. split; [done|split; [|done]].
    cbn [tasks with_tasks]. apply positive_insert; [done|]. apply Ht. by eexists.
  - unfold TaskView_delete, TaskView_get_object. repeat case_match; try done.
    cbn [snd]. split; [done|split; [|done]]. cbn [tasks with_tasks].
    by apply positive_delete.
  - by rewrite (proj1 (AttendanceView_get_reads _ _ _)).
  - by rewrite (proj1 (AttendanceView_get_reads _ _ _)).
  - unfold AttendanceView_post, AttendanceSerializer_save_new.
    repeat case_match; try done. cbn [snd]. split; [done|split; [done|]].
    cbn [attendances with_attendances].
    apply positive_insert; [done|apply next_pk_positive].
  - unfold AttendanceView_put, AttendanceView_get_object.
    destruct (attendances s !! pk) eqn:Hpk; [|done].
    repeat case_match; try done. cbn [snd]. split; [done|split; [done|]].
    cbn [attendances with_attendances]. apply positive_insert; [done|].
    apply Ha. by eexists.
  - unfold AttendanceView_delete, AttendanceView_get_object. repeat case_match; try done.
    cbn [snd]. split; [done|split; [done|]]. cbn [attendances with_attendances].
    by apply positive_delete.
  - unfold MarkAttendanceView_post, AttendanceSerializer_save_new.
    repeat case_match; try done. cbn [snd]. split; [done|split; [done|]].
    cbn [attendances with_attendances].
    apply positive_insert; [done|apply next_pk_positive].
  - pose proof (MarkTaskCompleteView_patch_frame s request pk) as (_ & _ & Hsu & Hsa & Hdom & _).
    repeat apply conj.
    + by rewrite Hsu.
    + intros k Hk. apply Ht. by rewrite <-elem_of_dom, <-Hdom, elem_of_dom.
    + by rewrite Hsa.
  - unfold AssignTaskView_post, TaskSerializer_save_new. repeat case_match; try done.
    cbn [snd]. split; [done|split; [|done]]. cbn [tasks with_tasks].
    apply positive_insert; [done|apply next_pk_positive].
Qed.

End Keys.

Section Unique.
Context {env : Environment}.

Lemma run_validators_app vs ws o :
  run_validators (vs ++ ws) o = None →
  run_validators vs o = None ∧ run_validators ws o = None.
Proof.
  induction vs as [|v vs IH]; cbn [app run_validators]; [done|].
  destruct (v o); [done|apply IH].
Qed.

(** What a required text field with a uniqueness validator lets through. *)
Lemma unique_text_validated s partial f taken data o :
  (∃ n, kind f = CharField n false ∨ kind f = EmailField n) →
  allow_null f = false →
  validators f = [unique_validator taken] →
  run_validation s partial f data = Validated o →
  ∃ x, o = OStr x ∧ taken x = false.
Proof.
  intros (n & Hkind) Hnull Hvs. unfold run_validation. rewrite Hnull, Hvs.
  assert (allows_blank (kind f) = false) as -> by (by destruct Hkind as [->| ->]).
  destruct (is_blank (kind f) data); [done|].
  destruct data as [v|]; [|by repeat case_match].
  assert (∀ y, match run_validators (kind_validators (kind f)
                                       ++ [unique_validator taken]) (OStr y) with
               | Some detail => ValidationError detail
               | None => Validated (OStr y)
               end = Validated o → ∃ x, o = OStr x ∧ taken x = false) as Hrun.
  { intros y. destruct (run_validators _ _) eqn:E; [done|]. intros [= <-].
    apply run_validators_app in E as [_ E]. cbn in E.
    exists y. split; [done|]. by destruct (taken y). }
  revert Hrun. destruct Hkind as [-> | ->]; intros Hrun;
    destruct v as [|b|z|x|l]; cbn [to_internal_value]; try done; apply Hrun.
Qed.

Lemma username_not_taken s instance x k u :
  username_taken s instance x = false →
  user_profiles s !! k = Some u → username u = x → Some k = instance.
Proof.
  unfold username_taken. intros Hn Hk Hu. apply bool_decide_eq_false_1 in Hn.
  destruct (decide (Some k = instance)) as [|Hne]; [done|].
  destruct Hn. by exists k, u.
Qed.

Lemma email_not_taken s instance x k u :
  email_taken s instance x = false →
  user_profiles s !! k = Some u → email u = x → Some k = instance.
Proof.
  unfold email_taken. intros Hn Hk Hu. apply bool_decide_eq_false_1 in Hn.
  destruct (decide (Some k = instance)) as [|Hne]; [done|].
  destruct Hn. by exists k, u.
Qed.

Lemma unique_insert s pk profile' :
  unique_profiles s →
  (∀ k u, user_profiles s !! k = Some u → username u = username profile' → k = pk) →
  (∀ k u, user_profiles s !! k = Some u → email u = email profile' → k = pk) →
  unique_profiles (with_user_profiles s (<[pk := profile']> (user_profiles s))).
Proof.
  intros Hs Hname Hmail k1 k2 u1 u2. cbn [user_profiles with_user_profiles].
  rewrite !lookup_insert. repeat case_decide; subst; try done.
  - intros [= <-] Hk2 [Hu|Hu]; symmetry; [by eapply Hname|by eapply Hmail].
  - intros Hk1 [= <-] [Hu|Hu]; [by eapply Hname|by eapply Hmail].
  - apply Hs.
Qed.

Lemma UserProfileSerializer_NoDup s instance :
  NoDup (field_name <$> writable_fields (UserProfileSerializer_fields s instance)).
Proof. apply (bool_decide_unpack _). vm_compute. exact I. Qed.

Lemma username_field_in s instance :
  username_field s instance
  ∈ writable_fields (UserProfileSerializer_fields s instance).
Proof.
  unfold writable_fields, UserProfileSerializer_fields, username_field, email_field.
  cbn [List.filter read_only readonly plain negb]. repeat constructor.
Qed.

Lemma email_field_in s instance :
  email_field s instance
  ∈ writable_fields (UserProfileSerializer_fields s instance).
Proof.
  unfold writable_fields, UserProfileSerializer_fields, username_field, email_field.
  cbn [List.filter read_only readonly plain negb]. repeat constructor.
Qed.

(** The username and the email a validated payload carries are held by no
    other profile. *)
Lemma validated_username s instance data x :
  validated_data s false (UserProfileSerializer_fields s instance) data !! "username"
    = Some (OStr x) →
  username_taken s instance x = false.
Proof.
  unfold validated_data.
  pose proof (run_fields_lookup s false _ data ∅ ∅ _
                (UserProfileSerializer_NoDup s instance) (username_field_in s instance))
    as Hl.
  cbn [field_name username_field email_field] in Hl. rewrite Hl. clear Hl.
  destruct (run_validation _ _ _ _) as [o| |d] eqn:E; try done. intros [= ->].
  eapply unique_text_validated in E as (y & [= <-] & Hy); [done|by eexists; left|done..].
Qed.

Lemma validated_email s instance data x :
  validated_data s false (UserProfileSerializer_fields s instance) data !! "email"
    = Some (OStr x) →
  email_taken s instance x = false.
Proof.
  unfold validated_data.
  pose proof (run_fields_lookup s false _ data ∅ ∅ _
                (UserProfileSerializer_NoDup s instance) (email_field_in s instance))
    as Hl.
  cbn [field_name username_field email_field] in Hl. rewrite Hl. clear Hl.
  destruct (run_validation _ _ _ _) as [o| |d] eqn:E; try done. intros [= ->].
  eapply unique_text_validated in E as (y & [= <-] & Hy); [done|by eexists; right|done..].
Qed.

Lemma perform_unique s request call :
  unique_profiles s → unique_profiles (perform s request call).2.
Proof.
  intros Hs.
  assert (∀ s', user_profiles s' = user_profiles s → unique_profiles s') as Hsame.
  { intros s' Heq k1 k2 u1 u2. rewrite Heq. apply Hs. }
  destruct call; cbn [perform].
  - by rewrite (proj1 (UserProfileView_get_reads _ _ _)).
  - by rewrite (proj1 (UserProfileView_get_reads _ _ _)).
  - unfold UserProfileView_post, UserProfileSerializer_create, create_user.
    repeat case_match; try done. simplify_eq. cbn [snd].
    apply unique_insert; [done|..]; cbn [username email]; intros k u Hk Hu.
    + assert (Some k = None) by (by eapply username_not_taken). done.
    + assert (Some k = None) by (by eapply email_not_taken). done.
  - unfold UserProfileView_put, UserProfileView_get_object.
    destruct (user_profiles s !! pk) as [profile|] eqn:Hpk; [|done].
    repeat case_match; try done. cbn [snd].
    apply unique_insert; [done|..]; unfold UserProfile_setattrs;
      cbn [username email]; unfold attr_str; intros k u Hk Hu.
    + destruct (validated_data _ _ _ _ !! "username") as [[]|] eqn:E;
        try (by apply (Hs k pk u profile Hk Hpk); left).
      apply validated_username in E.
      assert (Some k = Some pk) by (by eapply username_not_taken). by simplify_eq.
    + destruct (validated_data _ _ _ _ !! "email") as [[]|] eqn:E;
        try (by apply (Hs k pk u profile Hk Hpk); right).
      apply validated_email in E.
      assert (Some k = Some pk) by (by eapply email_not_taken). by simplify_eq.
  - unfold UserProfileView_delete, UserProfileView_get_object.
    repeat case_match; try done. cbn [snd]. intros k1 k2 u1 u2.
    unfold UserProfile_delete; cbn [user_profiles]. rewrite !lookup_delete.
    repeat case_decide; try done. apply Hs.
  - by rewrite (proj1 (TaskView_get_reads _ _ _)).
  - by rewrite (proj1 (TaskView_get_reads _ _ _)).
  - apply Hsame. unfold TaskView_post, TaskSerializer_save_new. by repeat case_match.
  - apply Hsame. unfold TaskView_put. by repeat case_match.
  - apply Hsame. unfold TaskView_delete. by repeat case_match.
  - by rewrite (proj1 (AttendanceView_get_reads _ _ _)).
  - by rewrite (proj1 (AttendanceView_get_reads _ _ _)).
  - apply Hsame. unfold AttendanceView_post, AttendanceSerializer_save_new.
    by repeat case_match.
  - apply Hsame. unfold AttendanceView_put. by repeat case_match.
  - apply Hsame. unfold AttendanceView_delete. by repeat case_match.
  - apply Hsame. unfold MarkAttendanceView_post, AttendanceSerializer_save_new.
    by repeat case_match.
  - apply Hsame. unfold MarkTaskCompleteView_patch. by repeat case_match.
  - apply Hsame. unfold AssignTaskView_post, TaskSerializer_save_new.
    by repeat case_match.
Qed.

End Unique.

Section Accounts.
Context {env : Environment}.

(** A text entry that passes comes out trimmed. *)
Lemma text_entry_validated s partial f x :
  is_text (kind f) = true →
  (∀ d, run_validation s partial f (Some (VStr x)) ≠ ValidationError d) →
  run_validation s partial f (Some (VStr x)) = Validated (OStr (strip x)).
Proof.
  intros Hkind. unfold run_validation.
  assert (is_blank (kind f) (Some (VStr x)) = bool_decide (strip x = "")) as ->
    by (by destruct (kind f)).
  assert (to_internal_value s (kind f) (VStr x) = inl (OStr (strip x))) as ->
    by (by destruct (kind f)).
  case_bool_decide as Hblank.
  - rewrite Hblank. destruct (allows_blank (kind f)); [done|].
    intros Hok. by destruct (Hok "This field may not be blank.").
  - destruct (run_validators _ _) as [d|]; [|done]. intros Hok. by destruct (Hok d).
Qed.

(** A required text field of a full payload is either refused or filled. *)
Lemma required_text_validated s f data :
  is_text (kind f) = true → required f = true → allow_null f = false →
  (∀ d, run_validation s false f data ≠ ValidationError d) →
  ∃ x, run_validation s false f data = Validated (OStr x).
Proof.
  intros Hkind Hreq Hnull. unfold run_validation. rewrite Hreq, Hnull.
  destruct (is_blank (kind f) data).
  { destruct (allows_blank (kind f)); [by eexists|].
    intros Hok. by destruct (Hok "This field may not be blank."). }
  destruct data as [v|]; [|intros Hok; by destruct (Hok "This field is required.")].
  destruct v as [|b|z|x|l];
    try (intros Hok; by destruct (Hok "This field may not be null."));
    destruct (kind f); try discriminate Hkind; cbn [to_internal_value];
    try (intros Hok; by destruct (Hok "Not a valid string."));
    (destruct (run_validators _ _) as [d|]; [intros Hok; by destruct (Hok d)|by eexists]).
Qed.

Lemma password_field_in s instance :
  password_field ∈ writable_fields (UserProfileSerializer_fields s instance).
Proof.
  unfold writable_fields, UserProfileSerializer_fields, password_field.
  cbn [List.filter read_only readonly plain negb]. repeat constructor.
Qed.

Lemma role_field_in s instance :
  plain "role" (ChoiceField Types.choices) false false
  ∈ writable_fields (UserProfileSerializer_fields s instance).
Proof.
  unfold writable_fields, UserProfileSerializer_fields.
  cbn [List.filter read_only readonly plain negb]. repeat constructor.
Qed.

Lemma is_superuser_field_in s instance :
  plain "is_superuser" BooleanField false false
  ∈ writable_fields (UserProfileSerializer_fields s instance).
Proof.
  unfold writable_fields, UserProfileSerializer_fields.
  cbn [List.filter read_only readonly plain negb]. repeat constructor.
Qed.

(** The entry of [validated_data] under a field of the profile serializer. *)
Lemma profile_validated_lookup s instance data f :
  f ∈ writable_fields (UserProfileSerializer_fields s instance) →
  validated_data s false (UserProfileSerializer_fields s instance) data !! field_name f
  = match run_validation s false f (data !! field_name f) with
    | Validated o => Some o
    | _ => None
    end.
Proof.
  intros Hin. unfold validated_data.
  by rewrite (run_fields_lookup s false _ data ∅ ∅ f (UserProfileSerializer_NoDup s instance)).
Qed.

(** In a valid full payload the three required texts are there. *)
Lemma valid_profile_texts s instance data :
  is_valid s false (UserProfileSerializer_fields s instance) data = true →
  ∃ un em pw,
    validated_data s false (UserProfileSerializer_fields s instance) data !! "username"
      = Some (OStr un)
    ∧ validated_data s false (UserProfileSerializer_fields s instance) data !! "email"
      = Some (OStr em)
    ∧ validated_data s false (UserProfileSerializer_fields s instance) data !! "password"
      = Some (OStr pw).
Proof.
  intros Hvalid.
  destruct (required_text_validated s (username_field s instance) _ eq_refl
              eq_refl eq_refl
              (valid_field _ _ _ _ _ Hvalid (username_field_in s instance))) as [un Hun].
  destruct (required_text_validated s (email_field s instance) _ eq_refl
              eq_refl eq_refl
              (valid_field _ _ _ _ _ Hvalid (email_field_in s instance))) as [em Hem].
  destruct (required_text_validated s password_field _ eq_refl
              eq_refl eq_refl
              (valid_field _ _ _ _ _ Hvalid (password_field_in s instance))) as [pw Hpw].
  exists un, em, pw.
  pose proof (profile_validated_lookup s instance data _ (username_field_in s instance)) as H1.
  pose proof (profile_validated_lookup s instance data _ (email_field_in s instance)) as H2.
  pose proof (profile_validated_lookup s instance data _ (password_field_in s instance)) as H3.
  cbn [field_name password_field username_field email_field] in *.
  rewrite H1, H2, H3, Hun, Hem, Hpw. done.
Qed.

(** X10: a payload for a new profile that passes the serializer but has no
    [role] key (the field is not required) makes the create end with
    [KeyError], and nothing is written. *)
Theorem create_profile_without_role_raises s request :
  role (request_user request) = Types.SUPERVISOR →
  is_valid s false (UserProfileSerializer_fields s None) (request_data request) = true →
  request_data request !! "role" = None →
  UserProfileView_post s request = (Raises (KeyError "role"), s).
Proof.
  intros Hrole Hvalid Hnone. unfold UserProfileView_post.
  rewrite bool_decide_eq_false_2 by (intros Hne; by apply Hne).
  rewrite Hvalid. unfold UserProfileSerializer_create.
  destruct (valid_profile_texts s None _ Hvalid) as (un & em & pw & -> & -> & ->).
  pose proof (profile_validated_lookup s None (request_data request) _
                (role_field_in s None)) as Hl.
  cbn [field_name plain] in Hl. rewrite Hl, Hnone. done.
Qed.

(** X11: whatever the payload, a profile that the create adds is an active
    account that is neither superuser nor staff, belongs to no group, holds
    no permission, has never logged in, and stores a hashed password; it is
    added only for a Supervisor, with answer 201, under a key that was free.
    Every other profile in the store afterwards was there before. *)
Theorem created_profiles_are_plain_accounts s request k u :
  user_profiles (UserProfileView_post s request).2 !! k = Some u →
  user_profiles s !! k = Some u
  ∨ (user_profiles s !! k = None
     ∧ status_of (UserProfileView_post s request) = Some HTTP_201_CREATED
     ∧ role (request_user request) = Types.SUPERVISOR
     ∧ is_superuser u = false
     ∧ is_staff u = false
     ∧ is_active u = true
     ∧ groups u = []
     ∧ user_permissions u = []
     ∧ last_login u = None
     ∧ ∃ raw, password u = make_password raw).
Proof.
  unfold UserProfileView_post, UserProfileSerializer_create, create_user.
  case_bool_decide as Hrole; [by left|].
  repeat case_match; try (by left). simplify_eq. cbn [fst snd].
  cbn [user_profiles with_user_profiles]. rewrite lookup_insert.
  case_decide as Hk; [|by left]. subst k. intros [= <-]. right.
  split; [apply next_pk_fresh|]. split; [done|].
  split; [by destruct (decide (role (request_user request) = Types.SUPERVISOR))|].
  repeat (split; [done|]). by eexists.
Qed.

(** X12: when a Supervisor updates a profile with a valid payload, the
    answer is 200 and the stored profile takes the payload's password as it
    was sent (trimmed, not hashed) and the payload's [is_superuser]. *)
Theorem update_profile_writes_the_payload s request pk profile :
  role (request_user request) = Types.SUPERVISOR →
  user_profiles s !! pk = Some profile →
  is_valid s false (UserProfileSerializer_fields s (Some pk)) (request_data request) = true →
  ∃ profile',
    user_profiles (UserProfileView_put s request pk).2 !! pk = Some profile'
    ∧ status_of (UserProfileView_put s request pk) = Some HTTP_200_OK
    ∧ (∀ text, request_data request !! "password" = Some (VStr text) →
         password profile' = strip text)
    ∧ (∀ b, request_data request !! "is_superuser" = Some (VBool b) →
         is_superuser profile' = b).
Proof.
  intros Hrole Hpk Hvalid. unfold UserProfileView_put, UserProfileView_get_object, status_of.
  rewrite Hpk, bool_decide_eq_false_2 by (intros Hne; by apply Hne).
  rewrite Hvalid. eexists. cbn [fst snd user_profiles with_user_profiles].
  split; [apply lookup_insert_eq|]. split; [done|]. split.
  - intros text Htext. unfold UserProfile_setattrs; cbn [password]. unfold attr_str.
    pose proof (profile_validated_lookup s (Some pk) (request_data request) _
                  (password_field_in s (Some pk))) as Hl.
    pose proof (valid_field _ _ _ _ _ Hvalid (password_field_in s (Some pk))) as Hok.
    cbn [field_name password_field] in Hl, Hok. rewrite Hl. rewrite Htext in *.
    by rewrite (text_entry_validated s false password_field text eq_refl Hok).
  - intros b Hb. unfold UserProfile_setattrs; cbn [is_superuser]. unfold attr_bool.
    pose proof (profile_validated_lookup s (Some pk) (request_data request) _
                  (is_superuser_field_in s (Some pk))) as Hl.
    cbn [field_name plain] in Hl. rewrite Hl, Hb. done.
Qed.

End Accounts.

Section Scenarios.
Context {env : Environment}.

(** A number under a foreign-key field of a valid payload is the key of a
    stored profile, and is what the row gets. *)
Lemma valid_fk_entry s partial fields data name req null pk :
  NoDup (field_name <$> writable_fields fields) →
  plain name PrimaryKeyRelatedField req null ∈ writable_fields fields →
  is_valid s partial fields data = true →
  data !! name = Some (VInt pk) →
  validated_data s partial fields data !! name = Some (OInstance pk)
  ∧ is_Some (user_profiles s !! pk).
Proof.
  intros Hnd Hin Hvalid Hentry.
  pose proof (valid_field _ _ _ _ _ Hvalid Hin) as Hok.
  pose proof (run_fields_lookup s partial _ data ∅ ∅ _ Hnd Hin) as Hl.
  cbn [field_name plain] in Hok, Hl. rewrite Hentry in *.
  destruct (fk_entry_validated _ _ _ _ _ _ Hok) as [Hpk Hrv].
  unfold validated_data. by rewrite Hl, Hrv.
Qed.

(** A payload that names a profile that is not stored is not valid. *)
Lemma unknown_fk_invalid s partial fields data name req null pk :
  plain name PrimaryKeyRelatedField req null ∈ writable_fields fields →
  user_profiles s !! pk = None →
  data !! name = Some (VInt pk) →
  is_valid s partial fields data = false.
Proof.
  intros Hin Hpk Hentry. destruct (is_valid s partial fields data) eqn:Hvalid; [|done].
  pose proof (valid_field _ _ _ _ _ Hvalid Hin) as Hok.
  cbn [field_name plain] in Hok. rewrite Hentry in Hok.
  destruct (fk_entry_validated _ _ _ _ _ _ Hok) as [[u Hu] _]. congruence.
Qed.

Lemma MarkTaskCompleteView_patch_other s request pk task :
  role (request_user request) = Types.INTERN →
  tasks s !! pk = Some task →
  assigned_to task ≠ Some (request_user_id request) →
  MarkTaskCompleteView_patch s request pk =
    (Returns (mkResponse (Error "Task not found or not assigned to you.")
                HTTP_404_NOT_FOUND), s).
Proof.
  intros Hrole Hpk Hto. unfold MarkTaskCompleteView_patch, Task_objects_get.
  rewrite bool_decide_eq_false_2 by (intros Hne; by apply Hne).
  by rewrite Hpk, bool_decide_eq_false_2.
Qed.

(** X14: a Supervisor assigns a task to an Intern with a valid payload: the
    answer is 201, and the new task carries the Intern as [assigned_to] and
    the Supervisor as [assigned_by].  Another Intern who then asks to
    complete it gets 404 and changes nothing; the assignee gets 200, after
    which the stored task is the created one with the completion flag
    set. *)
Theorem assign_then_complete s supervisor intern other :
  role (request_user supervisor) = Types.SUPERVISOR →
  authenticated s supervisor →
  request_data supervisor !! "assigned_to" = Some (VInt (request_user_id intern)) →
  is_valid s false TaskSerializer_fields
    (delete "assigned_by" (request_data supervisor)) = true →
  role (request_user intern) = Types.INTERN →
  role (request_user other) = Types.INTERN →
  request_user_id other ≠ request_user_id intern →
  ∃ pk created s1 s2,
    AssignTaskView_post s supervisor
      = (Returns (mkResponse
                    (Data (to_representation TaskSerializer_fields (Task_dict pk created)))
                    HTTP_201_CREATED), s1)
    ∧ assigned_to created = Some (request_user_id intern)
    ∧ assigned_by created = Some (request_user_id supervisor)
    ∧ MarkTaskCompleteView_patch s1 other pk =
        (Returns (mkResponse (Error "Task not found or not assigned to you.")
                    HTTP_404_NOT_FOUND), s1)
    ∧ MarkTaskCompleteView_patch s1 intern pk =
        (Returns (mkResponse (Message "Task marked as complete.") HTTP_200_OK), s2)
    ∧ tasks s2 !! pk = Some (set_is_completed created true).
Proof.
  intros Hrole Hauth Hto Hvalid Hintern Hother Hne.
  assert (is_Some (user_profiles s !! request_user_id supervisor)) as Hin.
  { unfold authenticated in Hauth. by rewrite Hauth. }
  set (data := <["assigned_by" := VInt (request_user_id supervisor)]>
                 (request_data supervisor)).
  assert (is_valid s false TaskSerializer_fields data = true) as Hvalid'.
  { unfold data. by rewrite assign_payload_valid. }
  set (created := Task_create (validated_data s false TaskSerializer_fields data)).
  assert (assigned_to created = Some (request_user_id intern)) as Hcto.
  { unfold created, Task_create, Task_setattrs; cbn [assigned_to]. unfold attr_fk_null.
    destruct (valid_fk_entry s false TaskSerializer_fields data "assigned_to" false true
                (request_user_id intern) TaskSerializer_NoDup Task_assigned_to_in Hvalid')
      as [-> _]; [|done].
    unfold data. by rewrite lookup_insert_ne. }
  assert (assigned_by created = Some (request_user_id supervisor)) as Hcby.
  { unfold created, Task_create, Task_setattrs; cbn [assigned_by]. unfold attr_fk_null.
    unfold data. by rewrite assign_payload_assigned_by. }
  set (s1 := with_tasks s (<[next_pk (tasks s) := created]> (tasks s))).
  assert (tasks s1 !! next_pk (tasks s) = Some created) as Hpk
    by apply lookup_insert_eq.
  exists (next_pk (tasks s)), created, s1,
    (with_tasks s1 (<[next_pk (tasks s) := set_is_completed created true]> (tasks s1))).
  split.
  { unfold AssignTaskView_post.
    rewrite bool_decide_eq_false_2 by (intros Hn; by apply Hn).
    fold data. by rewrite Hvalid'. }
  split; [done|]. split; [done|]. split.
  { apply (MarkTaskCompleteView_patch_other s1 other _ created); [done..|].
    rewrite Hcto. congruence. }
  split; [by apply MarkTaskCompleteView_patch_own|].
  apply lookup_insert_eq.
Qed.

Lemma MarkAttendanceView_post_accepted s request chosen :
  role (request_user request) = Types.INTERN →
  is_Some (user_profiles s !! request_user_id request) →
  marked_status (request_data request !! "status") = Some chosen →
  MarkAttendanceView_post s request =
    (Returns (mkResponse
                (Data (to_representation AttendanceSerializer_fields
                         (Attendance_dict (next_pk (attendances s))
                            {| user := request_user_id request; status := chosen;
                               check_in_time := timezone_now;
                               check_out_time := None |})))
                HTTP_201_CREATED),
     with_attendances s
       (<[next_pk (attendances s) :=
            {| user := request_user_id request; status := chosen;
               check_in_time := timezone_now; check_out_time := None |}]>
          (attendances s))).
Proof.
  intros Hrole Hin Hchosen. unfold MarkAttendanceView_post.
  rewrite bool_decide_eq_false_2 by (intros Hne; by apply Hne).
  unfold is_valid, serializer_errors, AttendanceSerializer_save_new, validated_data.
  rewrite mark_payload_run, marked_status_default, Hchosen by done. reflexivity.
Qed.

(** X15: an Intern who marks attendance twice in a row, with a status the
    serializer accepts, gets 201 both times and two records under two
    different new keys, both for the caller with the chosen status: nothing
    limits a user to one record. *)
Theorem mark_attendance_twice s request chosen :
  role (request_user request) = Types.INTERN →
  authenticated s request →
  marked_status (request_data request !! "status") = Some chosen →
  ∃ pk1 pk2 s1 s2 d1 d2,
    MarkAttendanceView_post s request
      = (Returns (mkResponse (Data d1) HTTP_201_CREATED), s1)
    ∧ MarkAttendanceView_post s1 request
      = (Returns (mkResponse (Data d2) HTTP_201_CREATED), s2)
    ∧ pk1 ≠ pk2
    ∧ attendances s !! pk1 = None
    ∧ attendances s !! pk2 = None
    ∧ attendances s2 !! pk1
      = Some {| user := request_user_id request; status := chosen;
                check_in_time := timezone_now; check_out_time := None |}
    ∧ attendances s2 !! pk2
      = Some {| user := request_user_id request; status := chosen;
                check_in_time := timezone_now; check_out_time := None |}.
Proof.
  intros Hrole Hauth Hchosen.
  assert (is_Some (user_profiles s !! request_user_id request)) as Hin.
  { unfold authenticated in Hauth. by rewrite Hauth. }
  set (a := {| user := request_user_id request; status := chosen;
               check_in_time := timezone_now; check_out_time := None |}).
  set (pk1 := next_pk (attendances s)).
  set (s1 := with_attendances s (<[pk1 := a]> (attendances s))).
  set (pk2 := next_pk (attendances s1)).
  assert (pk1 < pk2) as Hlt.
  { apply next_pk_above. exists a. apply lookup_insert_eq. }
  eexists pk1, pk2, s1, _, _, _.
  split; [by apply MarkAttendanceView_post_accepted|].
  split; [by apply (MarkAttendanceView_post_accepted s1)|].
  split; [lia|]. split; [apply next_pk_fresh|]. split.
  { pose proof (next_pk_fresh (attendances s1)) as Hf. fold pk2 in Hf.
    unfold s1 in Hf; cbn [attendances with_attendances] in Hf.
    rewrite lookup_insert_ne in Hf by lia. exact Hf. }
  cbn [attendances with_attendances]. fold pk2 a.
  split; [|apply lookup_insert_eq].
  rewrite lookup_insert_ne by lia. apply lookup_insert_eq.
Qed.

(** X16: after a Supervisor has deleted a profile, a payload that names its
    key under [assigned_to] is refused with 400 by the create, the assign
    action and the update of tasks, and one that names it under [user] is
    refused with 400 by the create and the update of attendance records;
    nothing is written. *)
Theorem deleted_profile_cannot_be_referenced s supervisor pk request :
  role (request_user supervisor) = Types.SUPERVISOR →
  is_Some (user_profiles s !! pk) →
  role (request_user request) = Types.SUPERVISOR →
  ∃ s',
    UserProfileView_delete s supervisor pk =
      (Returns (mkResponse (Message "UserProfile deleted.") HTTP_200_OK), s')
    ∧ (request_data request !! "assigned_to" = Some (VInt pk) →
       (status_of (TaskView_post s' request) = Some HTTP_400_BAD_REQUEST
        ∧ (TaskView_post s' request).2 = s')
       ∧ (status_of (AssignTaskView_post s' request) = Some HTTP_400_BAD_REQUEST
          ∧ (AssignTaskView_post s' request).2 = s')
       ∧ ∀ k, is_Some (tasks s' !! k) →
              status_of (TaskView_put s' request k) = Some HTTP_400_BAD_REQUEST
              ∧ (TaskView_put s' request k).2 = s')
    ∧ (request_data request !! "user" = Some (VInt pk) →
       (status_of (AttendanceView_post s' request) = Some HTTP_400_BAD_REQUEST
        ∧ (AttendanceView_post s' request).2 = s')
       ∧ ∀ k, is_Some (attendances s' !! k) →
              status_of (AttendanceView_put s' request k) = Some HTTP_400_BAD_REQUEST
              ∧ (AttendanceView_put s' request k).2 = s').
Proof.
  intros Hrole [profile Hpk] Hrole'. exists (UserProfile_delete s pk).
  assert (user_profiles (UserProfile_delete s pk) !! pk = None) as Hgone
    by apply lookup_delete_eq.
  unfold UserProfileView_delete, UserProfileView_get_object.
  rewrite Hpk, bool_decide_eq_false_2 by (intros Hne; by apply Hne).
  split; [done|]. split.
  - intros Hto.
    pose proof (unknown_fk_invalid (UserProfile_delete s pk) false TaskSerializer_fields
                  (request_data request) "assigned_to" false true pk
                  Task_assigned_to_in Hgone Hto) as Hinvalid.
    pose proof (unknown_fk_invalid (UserProfile_delete s pk) false TaskSerializer_fields
                  (<["assigned_by" := VInt (request_user_id request)]>
                     (request_data request)) "assigned_to" false true pk
                  Task_assigned_to_in Hgone) as Hinvalid'.
    rewrite lookup_insert_ne in Hinvalid' by done. specialize (Hinvalid' Hto).
    unfold TaskView_post, AssignTaskView_post, TaskView_put, TaskView_get_object, status_of.
    rewrite Hinvalid, Hinvalid'.
    rewrite !bool_decide_eq_false_2 by (intros Hne; by apply Hne).
    repeat apply conj; try done. intros k [task ->].
    rewrite ?bool_decide_eq_false_2 by (intros Hne; by apply Hne).
    done.
  - intros Hu.
    pose proof (unknown_fk_invalid (UserProfile_delete s pk) false
                  AttendanceSerializer_fields (request_data request) "user" true false pk
                  Attendance_user_in Hgone Hu) as Hinvalid.
    unfold AttendanceView_post, AttendanceView_put, AttendanceView_get_object, status_of.
    rewrite Hinvalid.
    rewrite !bool_decide_eq_false_2 by (intros Hne; by apply Hne).
    repeat apply conj; try done. intros k [attendance ->].
    rewrite ?bool_decide_eq_false_2 by (intros Hne; by apply Hne).
    done.
Qed.

End Scenarios.

Section Updates.
Context {env : Environment}.

Lemma TaskView_put_frame s request pk :
  dom (tasks (TaskView_put s request pk).2) = dom (tasks s)
  ∧ (∀ k, k ≠ pk → tasks (TaskView_put s request pk).2 !! k = tasks s !! k)
  ∧ user_profiles (TaskView_put s request pk).2 = user_profiles s
  ∧ attendances (TaskView_put s request pk).2 = attendances s
  ∧ (∀ task task', tasks s !! pk = Some task →
       tasks (TaskView_put s request pk).2 !! pk = Some task' →
       created_at task' = created_at task).
Proof.
  unfold TaskView_put, TaskView_get_object.
  destruct (tasks s !! pk) as [old|] eqn:Hpk; [|by repeat apply conj].
  destruct (_ && _);
    [cbn [snd]; repeat apply conj; try done; intros ? ? [= <-]; congruence|].
  destruct (is_valid _ _ _ _);
    [|cbn [snd]; repeat apply conj; try done; intros ? ? [= <-]; congruence].
  cbn [snd tasks with_tasks user_profiles attendances]. repeat apply conj; try done.
  - apply dom_insert_lookup_L. by eexists.
  - intros k Hk. by rewrite lookup_insert_ne.
  - intros task task' [= <-]. rewrite lookup_insert_eq. by intros [= <-].
Qed.

Lemma AttendanceView_put_frame s request pk :
  dom (attendances (AttendanceView_put s request pk).2) = dom (attendances s)
  ∧ (∀ k, k ≠ pk →
       attendances (AttendanceView_put s request pk).2 !! k = attendances s !! k)
  ∧ user_profiles (AttendanceView_put s request pk).2 = user_profiles s
  ∧ tasks (AttendanceView_put s request pk).2 = tasks s
  ∧ (∀ attendance attendance', attendances s !! pk = Some attendance →
       attendances (AttendanceView_put s request pk).2 !! pk = Some attendance' →
       check_in_time attendance' = check_in_time attendance).
Proof.
  unfold AttendanceView_put, AttendanceView_get_object.
  destruct (attendances s !! pk) as [old|] eqn:Hpk; [|by repeat apply conj].
  destruct (_ && _);
    [cbn [snd]; repeat apply conj; try done; intros ? ? [= <-]; congruence|].
  destruct (is_valid _ _ _ _);
    [|cbn [snd]; repeat apply conj; try done; intros ? ? [= <-]; congruence].
  cbn [snd tasks with_attendances user_profiles attendances]. repeat apply conj; try done.
  - apply dom_insert_lookup_L. by eexists.
  - intros k Hk. by rewrite lookup_insert_ne.
  - intros attendance attendance' [= <-]. rewrite lookup_insert_eq. by intros [= <-].
Qed.

(** X17: the validated data of a task (an attendance) payload has no entry
    outside the writable fields, so [id], [created_at], [check_in_time] and
    unknown keys of a payload are dropped.  An update never adds or removes
    a row, never changes a row under another key or another table, and never
    changes [created_at] (a task) or [check_in_time] (an attendance
    record). *)
Theorem update_touches_one_row s request pk :
  (∀ partial data name,
     name ∉ ["title"; "description"; "due_date"; "is_completed"; "assigned_to";
             "assigned_by"; "birth_date"] →
     validated_data s partial TaskSerializer_fields data !! name = None)
  ∧ (∀ partial data name,
       name ∉ ["user"; "status"; "check_out_time"] →
       validated_data s partial AttendanceSerializer_fields data !! name = None)
  ∧ (dom (tasks (TaskView_put s request pk).2) = dom (tasks s)
     ∧ (∀ k, k ≠ pk → tasks (TaskView_put s request pk).2 !! k = tasks s !! k)
     ∧ user_profiles (TaskView_put s request pk).2 = user_profiles s
     ∧ attendances (TaskView_put s request pk).2 = attendances s
     ∧ (∀ task task', tasks s !! pk = Some task →
          tasks (TaskView_put s request pk).2 !! pk = Some task' →
          created_at task' = created_at task))
  ∧ (dom (attendances (AttendanceView_put s request pk).2) = dom (attendances s)
     ∧ (∀ k, k ≠ pk →
          attendances (AttendanceView_put s request pk).2 !! k = attendances s !! k)
     ∧ user_profiles (AttendanceView_put s request pk).2 = user_profiles s
     ∧ tasks (AttendanceView_put s request pk).2 = tasks s
     ∧ (∀ attendance attendance', attendances s !! pk = Some attendance →
          attendances (AttendanceView_put s request pk).2 !! pk = Some attendance' →
          check_in_time attendance' = check_in_time attendance)).
Proof.
  split; [|split; [|split; [apply TaskView_put_frame|apply AttendanceView_put_frame]]].
  - intros partial data name Hname. unfold validated_data.
    by rewrite run_fields_lookup_other.
  - intros partial data name Hname. unfold validated_data.
    by rewrite run_fields_lookup_other.
Qed.

End Updates.

Section Greetings.
Context {env : Environment}.

Lemma send_all_delivered messages outbox :
  (send_all messages outbox).2 = (outbox ++ delivered messages)%list
  ∧ ((send_all messages outbox).1 = None ↔ delivered messages = messages)
  ∧ ((send_all messages outbox).1 = None ∨ (send_all messages outbox).1 = Some SMTPException).
Proof.
  revert outbox. induction messages as [|m rest IH]; intros outbox; cbn [send_all delivered].
  { cbn [fst snd]. rewrite app_nil_r. repeat apply conj; auto. }
  destruct (smtp_delivers m) eqn:Hm.
  - destruct (IH (outbox ++ [m])%list) as (Hout & Hnone & Hexn).
    split; [by rewrite Hout, <-app_assoc|]. split; [|exact Hexn].
    rewrite Hnone. split; [by intros ->|by intros [= ->]].
  - cbn [fst snd]. rewrite app_nil_r. split; [done|]. split; [done|by right].
Qed.

Lemma delivered_prefix messages :
  ∃ rest, messages = (delivered messages ++ rest)%list
          ∧ Forall (λ m, smtp_delivers m = true) (delivered messages)
          ∧ (delivered messages = messages
             ∨ ∃ m rest', rest = m :: rest' ∧ smtp_delivers m = false).
Proof.
  induction messages as [|m messages (rest & Heq & Hall & Hend)]; cbn [delivered].
  { exists []. by auto. }
  destruct (smtp_delivers m) eqn:Hm.
  - exists rest. split; [cbn; by rewrite <-Heq|]. split; [by constructor|].
    destruct Hend as [->|Hend]; [by left|by right].
  - exists (m :: messages). split; [done|]. split; [constructor|]. right. by eauto.
Qed.

Lemma active_profiles_filter (m : gmap Z UserProfile) :
  objects_filter UserProfile_meta UserProfile_dict m [("is_active", OBool true)]
  = inl (List.filter (λ row : Z * UserProfile, is_active row.2) (objects_all m)).
Proof.
  unfold objects_filter.
  change (resolve_lookups UserProfile_meta [("is_active", OBool true)])
    with (inl [(ExactOn "is_active", OBool true)] : list (Resolved * pyobj) + Exn).
  f_equal. apply List.filter_ext. intros [k u]. cbn [fst snd forallb].
  rewrite andb_true_r. unfold row_matches.
  change (getattr (UserProfile_dict k u) "is_active") with (Some (OBool (is_active u))).
  by destruct (is_active u).
Qed.

Lemma elem_of_active_profiles s k u :
  (k, u) ∈ active_profiles s ↔ user_profiles s !! k = Some u ∧ is_active u = true.
Proof.
  unfold active_profiles.
  by rewrite list_elem_of_In, List.filter_In, <-list_elem_of_In, elem_of_objects_all.
Qed.

(** X19: the morning job walks the active profiles in the order of their
    keys and hands the transport one greeting for each, up to the first one
    the transport refuses: what is sent is a prefix of that list, all of it
    delivered; the job ends without exception exactly when the whole list
    was sent, and otherwise with the transport's exception at the first
    refused message, the profiles with later keys getting nothing.  Every
    greeting goes to the email of one active profile, from the configured
    sender. *)
Theorem good_morning_to_the_active_until_a_failure s :
  (send_good_morning_emails s).2 = delivered (good_morning_messages s)
  ∧ ((send_good_morning_emails s).1 = None
     ↔ (send_good_morning_emails s).2 = good_morning_messages s)
  ∧ ((send_good_morning_emails s).1 = None
     ∨ (send_good_morning_emails s).1 = Some SMTPException)
  ∧ (∃ rest,
       good_morning_messages s = ((send_good_morning_emails s).2 ++ rest)%list
       ∧ Forall (λ m, smtp_delivers m = true) (send_good_morning_emails s).2
       ∧ ((send_good_morning_emails s).1 = None
          ∨ ∃ m rest', rest = m :: rest' ∧ smtp_delivers m = false))
  ∧ (∀ m, m ∈ good_morning_messages s →
       ∃ k u, user_profiles s !! k = Some u ∧ is_active u = true
              ∧ recipient_list m = [email u] ∧ from_email m = EMAIL_HOST_USER)
  ∧ good_morning_messages s
    = (λ row : Z * UserProfile, good_morning_message row.2) <$> active_profiles s
  ∧ StronglySorted (λ r1 r2 : Z * UserProfile, r1.1 < r2.1) (active_profiles s)
  ∧ (∀ k u, (k, u) ∈ active_profiles s
            ↔ user_profiles s !! k = Some u ∧ is_active u = true).
Proof.
  unfold send_good_morning_emails. rewrite active_profiles_filter.
  fold (active_profiles s). fold (good_morning_messages s).
  destruct (send_all_delivered (good_morning_messages s) []) as (Hout & Hnone & Hexn).
  cbn [app] in Hout. rewrite Hout. split; [done|]. split; [done|]. split; [done|].
  split; [|split; [|split; [done|split]]].
  - destruct (delivered_prefix (good_morning_messages s)) as (rest & Heq & Hall & Hend).
    exists rest. split; [done|]. split; [done|].
    destruct Hend as [Hd|Hend]; [left; by apply Hnone|by right].
  - intros m Hm. unfold good_morning_messages in Hm.
    apply list_elem_of_fmap in Hm as ([k u] & -> & Hin).
    apply elem_of_active_profiles in Hin as [Hk Hact]. by exists k, u.
  - apply filter_sorted, objects_all_sorted.
  - apply elem_of_active_profiles.
Qed.

End Greetings.

Section AuthProperties.
Context {env : Environment} {backend : AuthBackend}.

Lemma sign_in_result s a caller data pk :
  authenticate s (data !! "username") (data !! "password") = Some pk →
  AuthView_post s a caller data "sign-in" =
    (JsonResponse
       (SignedIn "Sign-in successful."
          (default (generate_key (tokens a)) (tokens a !! pk)))
       HTTP_200_OK,
     (with_user_profiles s (alter (set_last_login timezone_now) pk (user_profiles s)),
      {| tokens := <[pk := default (generate_key (tokens a)) (tokens a !! pk)]> (tokens a);
         session_user := Some pk |})).
Proof.
  intros Hauth. unfold AuthView_post.
  change (String.eqb "sign-in" "sign-in") with true. cbv iota. rewrite Hauth.
  unfold login, Token_get_or_create. cbn [tokens session_user].
  destruct (tokens a !! pk) as [key|] eqn:Hkey; cbn [default]; [|done].
  by rewrite insert_id.
Qed.

(** X20: two sign-ins in a row that authenticate as the same user answer
    with the same token, which is the user's entry in the token table; the
    second leaves the token table as the first left it. *)
Theorem sign_in_twice_gives_the_same_token s a caller caller' data data' pk :
  authenticate s (data !! "username") (data !! "password") = Some pk →
  authenticate (AuthView_post s a caller data "sign-in").2.1
    (data' !! "username") (data' !! "password") = Some pk →
  ∃ key,
    auth_token (AuthView_post s a caller data "sign-in").1 = Some key
    ∧ auth_token
        (AuthView_post (AuthView_post s a caller data "sign-in").2.1
           (AuthView_post s a caller data "sign-in").2.2 caller' data' "sign-in").1
      = Some key
    ∧ tokens (AuthView_post (AuthView_post s a caller data "sign-in").2.1
                (AuthView_post s a caller data "sign-in").2.2 caller' data' "sign-in").2.2
      = tokens (AuthView_post s a caller data "sign-in").2.2
    ∧ tokens (AuthView_post s a caller data "sign-in").2.2 !! pk = Some key.
Proof.
  intros Hauth. rewrite (sign_in_result s a caller data pk Hauth). cbn [fst snd].
  intros Hauth'. rewrite (sign_in_result _ _ caller' data' pk Hauth').
  cbn [fst snd tokens auth_token]. rewrite lookup_insert_eq. cbn [default].
  eexists. split; [done|]. split; [done|]. split; [by rewrite insert_insert_eq|done].
Qed.

(** X21: the auth view never removes or replaces a token (sign-out leaves
    the token in place), never touches tasks or attendance records, and
    never adds or removes a profile.  An answer without a token leaves the
    store and the token table as they were.  The answer is 200, or 401 with
    nothing changed, or 400 with nothing changed for an action that is
    neither sign-in nor sign-out. *)
Theorem auth_view_never_revokes s a caller data action :
  (∀ pk key, tokens a !! pk = Some key →
     tokens (AuthView_post s a caller data action).2.2 !! pk = Some key)
  ∧ tasks (AuthView_post s a caller data action).2.1 = tasks s
  ∧ attendances (AuthView_post s a caller data action).2.1 = attendances s
  ∧ dom (user_profiles (AuthView_post s a caller data action).2.1) = dom (user_profiles s)
  ∧ (auth_token (AuthView_post s a caller data action).1 = None →
     (AuthView_post s a caller data action).2.1 = s
     ∧ tokens (AuthView_post s a caller data action).2.2 = tokens a)
  ∧ (auth_status (AuthView_post s a caller data action).1 = HTTP_200_OK
     ∨ (auth_status (AuthView_post s a caller data action).1 = HTTP_401_UNAUTHORIZED
        ∧ (AuthView_post s a caller data action).2 = (s, a))
     ∨ (auth_status (AuthView_post s a caller data action).1 = HTTP_400_BAD_REQUEST
        ∧ action ≠ "sign-in" ∧ action ≠ "sign-out"
        ∧ (AuthView_post s a caller data action).2 = (s, a))).
Proof.
  unfold AuthView_post.
  destruct (String.eqb action "sign-in") eqn:Hin.
  - destruct (authenticate s _ _) as [pk|].
    + unfold login, Token_get_or_create. cbn [tokens].
      destruct (tokens a !! pk) as [key|] eqn:Hkey;
        cbn [fst snd tokens tasks attendances user_profiles with_user_profiles
             auth_token auth_status].
      * repeat apply conj; try done; [apply dom_alter_L|by left].
      * repeat apply conj; try done; [|apply dom_alter_L|by left].
        intros k key Hk. rewrite lookup_insert_ne; [done|congruence].
    + cbn [fst snd auth_token auth_status]. repeat apply conj; try done.
      right; left. done.
  - destruct (String.eqb action "sign-out") eqn:Hout.
    + destruct caller; cbn [fst snd auth_token auth_status logout tokens];
        repeat apply conj; try done; [by left|right; left; done].
    + apply String.eqb_neq in Hin, Hout. cbn [fst snd auth_token auth_status].
      repeat apply conj; try done. right; right. done.
Qed.

End AuthProperties.

Section More.
Context {env : Environment}.

(** X8: when every row is stored under a positive key, it still is after
    any sequence of calls, and then every stored profile, task and
    attendance record can be read under its key: the answer is 200 with the
    row's representation (the key 0, which a read takes for no key, is never
    in use). *)
Theorem calls_keep_rows_retrievable s calls :
  positive_keys s →
  positive_keys (perform_all s calls)
  ∧ (∀ k profile reader,
       user_profiles (perform_all s calls) !! k = Some profile →
       UserProfileView_get (perform_all s calls) reader (Some k) =
         (Returns (mkResponse
                     (Data (to_representation
                              (UserProfileSerializer_fields (perform_all s calls) None)
                              (UserProfile_dict k profile)))
                     HTTP_200_OK), perform_all s calls))
  ∧ (∀ k task reader,
       tasks (perform_all s calls) !! k = Some task →
       TaskView_get (perform_all s calls) reader (Some k) =
         (Returns (mkResponse
                     (Data (to_representation TaskSerializer_fields (Task_dict k task)))
                     HTTP_200_OK), perform_all s calls))
  ∧ (∀ k attendance reader,
       attendances (perform_all s calls) !! k = Some attendance →
       AttendanceView_get (perform_all s calls) reader (Some k) =
         (Returns (mkResponse
                     (Data (to_representation AttendanceSerializer_fields
                              (Attendance_dict k attendance)))
                     HTTP_200_OK), perform_all s calls)).
Proof.
  intros Hs.
  assert (positive_keys (perform_all s calls)) as (Hu & Ht & Ha).
  { revert s Hs. induction calls as [|[request call] calls IH]; intros s Hs; [done|].
    cbn [perform_all]. by apply IH, perform_positive. }
  split; [done|]. repeat apply conj.
  - intros k profile reader Hk. unfold UserProfileView_get, UserProfileView_get_object.
    rewrite bool_decide_eq_true_2, Hk; [done|].
    assert (0 < k) by (apply Hu; by eexists). lia.
  - intros k task reader Hk. unfold TaskView_get, TaskView_get_object.
    rewrite bool_decide_eq_true_2, Hk; [done|].
    assert (0 < k) by (apply Ht; by eexists). lia.
  - intros k attendance reader Hk. unfold AttendanceView_get, AttendanceView_get_object.
    rewrite bool_decide_eq_true_2, Hk; [done|].
    assert (0 < k) by (apply Ha; by eexists). lia.
Qed.

(** X9: when no two profiles share a username or an email, none do after
    any sequence of calls, by any callers with any payloads. *)
Theorem calls_keep_profiles_unique s calls :
  unique_profiles s → unique_profiles (perform_all s calls).
Proof.
  revert s. induction calls as [|[request call] calls IH]; intros s Hs; [done|].
  cbn [perform_all]. by apply IH, perform_unique.
Qed.

(** A key the payload does not have is not in the validated data. *)
Lemma absent_not_validated s partial fields (data : gmap string value) name :
  data !! name = None →
  validated_data s partial fields data !! name = None.
Proof.
  intros Habsent. unfold validated_data.
  cut (∀ fs ret errors, ret !! name = None →
         (run_fields s partial fs data ret errors).1 !! name = None);
    [intros Hcut; by apply Hcut|].
  induction fs as [|f fs IH]; intros ret errors Hret; [done|]. cbn [run_fields].
  destruct (decide (field_name f = name)) as [Hf|Hf].
  - rewrite Hf, Habsent. unfold run_validation.
    assert (is_blank (kind f) None = false) as -> by (by destruct (kind f)).
    repeat case_match; by apply IH.
  - destruct (run_validation _ _ _ _); apply IH; try done.
    by rewrite lookup_insert_ne.
Qed.

(** X18: an update overwrites only the columns the payload names: for every
    column of a task (of an attendance record) whose key is absent from the
    payload, the row after the update has the value it had before. *)
Theorem update_keeps_absent_columns s request pk :
  (∀ task task',
     tasks s !! pk = Some task →
     tasks (TaskView_put s request pk).2 !! pk = Some task' →
     (request_data request !! "title" = None → title task' = title task)
     ∧ (request_data request !! "description" = None →
        description task' = description task)
     ∧ (request_data request !! "due_date" = None → due_date task' = due_date task)
     ∧ (request_data request !! "is_completed" = None →
        is_completed task' = is_completed task)
     ∧ (request_data request !! "assigned_to" = None →
        assigned_to task' = assigned_to task)
     ∧ (request_data request !! "assigned_by" = None →
        assigned_by task' = assigned_by task)
     ∧ (request_data request !! "birth_date" = None →
        birth_date task' = birth_date task))
  ∧ (∀ attendance attendance',
       attendances s !! pk = Some attendance →
       attendances (AttendanceView_put s request pk).2 !! pk = Some attendance' →
       (request_data request !! "user" = None → user attendance' = user attendance)
       ∧ (request_data request !! "status" = None →
          status attendance' = status attendance)
       ∧ (request_data request !! "check_out_time" = None →
          check_out_time attendance' = check_out_time attendance)).
Proof.
  split.
  - intros task task' Hpk. unfold TaskView_put, TaskView_get_object. rewrite Hpk.
    destruct (_ && _); [cbn [snd]; rewrite Hpk; by intros [= <-]|].
    destruct (is_valid _ _ _ _); [|cbn [snd]; rewrite Hpk; by intros [= <-]].
    cbn [snd tasks with_tasks]. rewrite lookup_insert_eq. intros [= <-].
    unfold Task_setattrs, attr_str, attr_bool, attr_datetime_null, attr_fk_null,
      attr_date_null.
    cbn [title description due_date is_completed assigned_to assigned_by birth_date].
    repeat apply conj; intros Habsent;
      by rewrite (absent_not_validated _ _ _ _ _ Habsent).
  - intros attendance attendance' Hpk.
    unfold AttendanceView_put, AttendanceView_get_object. rewrite Hpk.
    destruct (_ && _); [cbn [snd]; rewrite Hpk; by intros [= <-]|].
    destruct (is_valid _ _ _ _); [|cbn [snd]; rewrite Hpk; by intros [= <-]].
    cbn [snd attendances with_attendances]. rewrite lookup_insert_eq. intros [= <-].
    unfold Attendance_setattrs, attr_str, attr_fk, attr_datetime_null.
    cbn [user status check_out_time].
    repeat apply conj; intros Habsent;
      by rewrite (absent_not_validated _ _ _ _ _ Habsent).
Qed.

(** A choice entry that passes is one of the choices. *)
Lemma choice_entry_validated s partial name choices req null x :
  (∀ d, run_validation s partial (plain name (ChoiceField choices) req null)
          (Some (VStr x)) ≠ ValidationError d) →
  run_validation s partial (plain name (ChoiceField choices) req null) (Some (VStr x))
  = Validated (OStr x)
  ∧ x ∈ choices.
Proof.
  unfold run_validation; cbn. case_bool_decide as Hx; [done|].
  intros Hok. by destruct (Hok "Not a valid choice.").
Qed.

(** X13: when a Supervisor creates a profile with a valid payload that has
    username, email, password and role as texts, and the normalized username
    and email are free, the answer is 201 and the stored profile has the
    trimmed and normalized username and email, the role, the password hashed
    from the trimmed text, and the defaults elsewhere; the answer does not
    show the password, and the role is one of the two choices. *)
Theorem create_profile_stores_a_hashed_password s request un em pw r :
  role (request_user request) = Types.SUPERVISOR →
  is_valid s false (UserProfileSerializer_fields s None) (request_data request) = true →
  request_data request !! "username" = Some (VStr un) →
  request_data request !! "email" = Some (VStr em) →
  request_data request !! "password" = Some (VStr pw) →
  request_data request !! "role" = Some (VStr r) →
  username_taken s None (normalize_username (strip un)) = false →
  email_taken s None (normalize_email (strip em)) = false →
  ∃ d,
    UserProfileView_post s request =
      (Returns (mkResponse (Data d) HTTP_201_CREATED),
       with_user_profiles s
         (<[next_pk (user_profiles s) :=
              {| password := make_password (strip pw); last_login := None;
                 is_superuser := false; username := normalize_username (strip un);
                 first_name := ""; last_name := "";
                 email := normalize_email (strip em); is_staff := false;
                 is_active := true; date_joined := timezone_now; role := r;
                 groups := []; user_permissions := [] |}]> (user_profiles s)))
    ∧ d !! "password" = None
    ∧ r ∈ Types.choices.
Proof.
  intros Hrole Hvalid Hun Hem Hpw Hr Hfree Hfree'. unfold UserProfileView_post.
  rewrite bool_decide_eq_false_2 by (intros Hne; by apply Hne).
  rewrite Hvalid. unfold UserProfileSerializer_create.
  pose proof (profile_validated_lookup s None (request_data request) _
                (username_field_in s None)) as H1.
  pose proof (profile_validated_lookup s None (request_data request) _
                (email_field_in s None)) as H2.
  pose proof (profile_validated_lookup s None (request_data request) _
                (password_field_in s None)) as H3.
  pose proof (profile_validated_lookup s None (request_data request) _
                (role_field_in s None)) as H4.
  pose proof (valid_field _ _ _ _ _ Hvalid (username_field_in s None)) as K1.
  pose proof (valid_field _ _ _ _ _ Hvalid (email_field_in s None)) as K2.
  pose proof (valid_field _ _ _ _ _ Hvalid (password_field_in s None)) as K3.
  pose proof (valid_field _ _ _ _ _ Hvalid (role_field_in s None)) as K4.
  cbn [field_name username_field email_field password_field plain] in *.
  rewrite Hun in *. rewrite Hem in *. rewrite Hpw in *. rewrite Hr in *.
  rewrite (text_entry_validated s false (username_field s None) un eq_refl K1) in H1.
  rewrite (text_entry_validated s false (email_field s None) em eq_refl K2) in H2.
  rewrite (text_entry_validated s false password_field pw eq_refl K3) in H3.
  destruct (choice_entry_validated s false "role" _ false false r K4) as [Hrole' Hin].
  rewrite Hrole' in H4. rewrite H1, H2, H3, H4.
  unfold create_user; cbn [username email]. rewrite Hfree, Hfree'.
  eexists. split; [reflexivity|]. split; [|done].
  apply UserProfile_representation_no_password.
Qed.

End More.

(** * What a generic update writes *)

Section GenericUpdate.
Context {env : Environment}.

(** The entry of [validated_data] under a writable field. *)
Lemma validated_data_lookup s partial fields data f :
  NoDup (field_name <$> writable_fields fields) → f ∈ writable_fields fields →
  validated_data s partial fields data !! field_name f
  = match run_validation s partial f (data !! field_name f) with
    | Validated o => Some o
    | _ => None
    end.
Proof.
  intros Hnd Hin. unfold validated_data.
  by rewrite (run_fields_lookup s partial _ data ∅ ∅ f Hnd Hin).
Qed.

(** Every entry of [validated_data] is what one writable field let through. *)
Lemma validated_data_from_field s partial fields data name o :
  NoDup (field_name <$> writable_fields fields) →
  validated_data s partial fields data !! name = Some o →
  ∃ f, f ∈ writable_fields fields ∧ field_name f = name
       ∧ run_validation s partial f (data !! name) = Validated o.
Proof.
  intros Hnd Hname.
  destruct (decide (name ∈ field_name <$> writable_fields fields)) as [Hin|Hout].
  - apply list_elem_of_fmap in Hin as (f & -> & Hin). exists f.
    rewrite (validated_data_lookup _ _ _ _ _ Hnd Hin) in Hname.
    destruct (run_validation _ _ _ _); by simplify_eq.
  - unfold validated_data in Hname. by rewrite run_fields_lookup_other in Hname.
Qed.

(** What a field lets through is null, where the field allows it, or a
    value of the field's own type. *)
Lemma validated_fits s partial f data o :
  run_validation s partial f data = Validated o →
  (o = ONone ∧ allow_null f = true)
  ∨ match kind f with
    | IntegerField => ∃ n, o = OInt n
    | CharField _ _ | EmailField _ | ChoiceField _ => ∃ x, o = OStr x
    | BooleanField => ∃ b, o = OBool b
    | DateTimeField => ∃ t, o = ODateTime t
    | DateField => ∃ d, o = ODate d
    | PrimaryKeyRelatedField => ∃ pk, o = OInstance pk
    | ManyRelatedField _ => ∃ l, o = OPks l
    end.
Proof.
  unfold run_validation. destruct (is_blank (kind f) data) eqn:Hblank.
  { destruct (allows_blank (kind f)); [|done]. intros [= <-]. right.
    destruct (kind f); try discriminate Hblank; by eexists. }
  destruct data as [v|]; [|by repeat case_match].
  assert (match to_internal_value s (kind f) v with
          | inl o' =>
              match run_validators (kind_validators (kind f) ++ validators f) o' with
              | Some detail => ValidationError detail
              | None => Validated o'
              end
          | inr detail => ValidationError detail
          end = Validated o →
          match kind f with
          | IntegerField => ∃ n, o = OInt n
          | CharField _ _ | EmailField _ | ChoiceField _ => ∃ x, o = OStr x
          | BooleanField => ∃ b, o = OBool b
          | DateTimeField => ∃ t, o = ODateTime t
          | DateField => ∃ d, o = ODate d
          | PrimaryKeyRelatedField => ∃ pk, o = OInstance pk
          | ManyRelatedField _ => ∃ l, o = OPks l
          end) as Htyped.
  { destruct (to_internal_value s (kind f) v) as [o'|detail] eqn:Hto; [|done].
    destruct (run_validators _ o'); [done|]. intros [= <-].
    unfold to_internal_value in Hto.
    destruct (kind f); repeat case_match; simplify_eq; by eexists. }
  destruct v; try (intros Hv; right; by apply Htyped).
  destruct (allow_null f); [|done]. intros [= <-]. by left.
Qed.


(** Reading the columns of a row back by name. *)
Lemma Task_dict_reads pk t :
  getattr (Task_dict pk t) "title" = Some (OStr (title t))
  ∧ getattr (Task_dict pk t) "description" = Some (OStr (description t))
  ∧ getattr (Task_dict pk t) "due_date" = Some (from_datetime (due_date t))
  ∧ getattr (Task_dict pk t) "is_completed" = Some (OBool (is_completed t))
  ∧ getattr (Task_dict pk t) "assigned_to" = Some (from_fk (assigned_to t))
  ∧ getattr (Task_dict pk t) "assigned_by" = Some (from_fk (assigned_by t))
  ∧ getattr (Task_dict pk t) "birth_date" = Some (from_date (birth_date t)).
Proof. repeat split. Qed.

Lemma Attendance_dict_reads pk a :
  getattr (Attendance_dict pk a) "user" = Some (OInstance (user a))
  ∧ getattr (Attendance_dict pk a) "status" = Some (OStr (status a))
  ∧ getattr (Attendance_dict pk a) "check_out_time"
    = Some (from_datetime (check_out_time a)).
Proof. repeat split. Qed.

Ltac field_cases Hin :=
  repeat (apply elem_of_cons in Hin as [->|Hin]); [..|by apply elem_of_nil in Hin].

(** [ModelSerializer.update] writes every validated entry to its column. *)
Lemma Task_setattrs_writes s partial data pk task name o :
  validated_data s partial TaskSerializer_fields data !! name = Some o →
  getattr (Task_dict pk
             (Task_setattrs task (validated_data s partial TaskSerializer_fields data)))
    name = Some o.
Proof.
  intros Hname.
  destruct (validated_data_from_field _ _ _ _ _ _ TaskSerializer_NoDup Hname)
    as (f & Hin & <- & Hrun).
  destruct (validated_fits _ _ _ _ _ Hrun) as [[-> Hnull]|Hfit];
    rewrite TaskSerializer_writable in Hin; field_cases Hin;
    try discriminate Hnull; cbn [kind plain] in *; cbn [field_name plain] in *;
    try destruct Hfit as [? ->];
    destruct (Task_dict_reads pk
                (Task_setattrs task (validated_data s partial TaskSerializer_fields data)))
      as (H1 & H2 & H3 & H4 & H5 & H6 & H7);
    rewrite ?H1, ?H2, ?H3, ?H4, ?H5, ?H6, ?H7;
    unfold Task_setattrs;
    cbn [title description due_date is_completed assigned_to assigned_by birth_date];
    unfold attr_str, attr_bool, attr_datetime_null, attr_fk_null, attr_date_null;
    by rewrite Hname.
Qed.

Lemma Attendance_setattrs_writes s partial data pk attendance name o :
  validated_data s partial AttendanceSerializer_fields data !! name = Some o →
  getattr (Attendance_dict pk
             (Attendance_setattrs attendance
                (validated_data s partial AttendanceSerializer_fields data)))
    name = Some o.
Proof.
  intros Hname.
  destruct (validated_data_from_field _ _ _ _ _ _ AttendanceSerializer_NoDup Hname)
    as (f & Hin & <- & Hrun).
  destruct (validated_fits _ _ _ _ _ Hrun) as [[-> Hnull]|Hfit];
    rewrite AttendanceSerializer_writable in Hin; field_cases Hin;
    try discriminate Hnull; cbn [kind plain] in *; cbn [field_name plain] in *;
    try destruct Hfit as [? ->];
    destruct (Attendance_dict_reads pk
                (Attendance_setattrs attendance
                   (validated_data s partial AttendanceSerializer_fields data)))
      as (H1 & H2 & H3);
    rewrite ?H1, ?H2, ?H3;
    unfold Attendance_setattrs; cbn [user status check_out_time];
    unfold attr_str, attr_fk, attr_datetime_null;
    by rewrite Hname.
Qed.

(** ... and leaves every other attribute as it was. *)
Lemma Task_setattrs_keeps pk task (vd : gmap string pyobj) name :
  vd !! name = None →
  getattr (Task_dict pk (Task_setattrs task vd)) name = getattr (Task_dict pk task) name.
Proof.
  intros Hname. unfold Task_dict. cbn [getattr].
  repeat match goal with
         | |- context [String.eqb ?a name] =>
             destruct (String.eqb_spec a name) as [<-|_];
             [unfold Task_setattrs;
              cbn [title description created_at due_date is_completed assigned_to
                   assigned_by birth_date];
              unfold attr_str, attr_bool, attr_datetime_null, attr_fk_null,
                attr_date_null;
              by rewrite ?Hname|]
         end.
  done.
Qed.

Lemma Attendance_setattrs_keeps pk attendance (vd : gmap string pyobj) name :
  vd !! name = None →
  getattr (Attendance_dict pk (Attendance_setattrs attendance vd)) name
  = getattr (Attendance_dict pk attendance) name.
Proof.
  intros Hname. unfold Attendance_dict. cbn [getattr].
  repeat match goal with
         | |- context [String.eqb ?a name] =>
             destruct (String.eqb_spec a name) as [<-|_];
             [unfold Attendance_setattrs;
              cbn [user status check_in_time check_out_time];
              unfold attr_str, attr_fk, attr_datetime_null;
              by rewrite ?Hname|]
         end.
  done.
Qed.


(** The entry of [validated_data] under a field of a valid payload, and that
    the field did not refuse the payload's entry. *)
Lemma valid_entry s partial fields data f :
  NoDup (field_name <$> writable_fields fields) →
  is_valid s partial fields data = true →
  f ∈ writable_fields fields →
  validated_data s partial fields data !! field_name f
  = match run_validation s partial f (data !! field_name f) with
    | Validated o => Some o
    | _ => None
    end
  ∧ ∀ d, run_validation s partial f (data !! field_name f) ≠ ValidationError d.
Proof.
  intros Hnd Hvalid Hin. split.
  - by apply validated_data_lookup.
  - by apply (valid_field _ _ _ _ _ Hvalid).
Qed.

(** What a valid payload of the task serializer has under a key is what
    [validated_data] has under it, converted by the field. *)
Lemma valid_task_entries s partial data :
  is_valid s partial TaskSerializer_fields data = true →
  let vd := validated_data s partial TaskSerializer_fields data in
  (∀ x, data !! "title" = Some (VStr x) → vd !! "title" = Some (OStr (strip x)))
  ∧ (∀ x, data !! "description" = Some (VStr x) →
       vd !! "description" = Some (OStr (strip x)))
  ∧ (∀ b, data !! "is_completed" = Some (VBool b) → vd !! "is_completed" = Some (OBool b))
  ∧ (∀ u, data !! "assigned_to" = Some (VInt u) → vd !! "assigned_to" = Some (OInstance u))
  ∧ (∀ u, data !! "assigned_by" = Some (VInt u) → vd !! "assigned_by" = Some (OInstance u))
  ∧ (∀ x, data !! "due_date" = Some (VStr x) →
       vd !! "due_date" = ODateTime <$> parse_datetime x ∧ is_Some (parse_datetime x))
  ∧ (∀ x, data !! "birth_date" = Some (VStr x) →
       vd !! "birth_date" = ODate <$> parse_date x ∧ is_Some (parse_date x))
  ∧ (data !! "due_date" = Some VNone → vd !! "due_date" = Some ONone)
  ∧ (data !! "assigned_to" = Some VNone → vd !! "assigned_to" = Some ONone)
  ∧ (data !! "assigned_by" = Some VNone → vd !! "assigned_by" = Some ONone)
  ∧ (data !! "birth_date" = Some VNone → vd !! "birth_date" = Some ONone).
Proof.
  intros Hvalid vd. subst vd.
  pose proof (valid_entry s partial _ data (plain "title" (CharField 250 false) true false)
                TaskSerializer_NoDup Hvalid ltac:(repeat constructor)) as [Htitle Htitle'].
  pose proof (valid_entry s partial _ data
                (plain "description" (CharField 250 true) false false)
                TaskSerializer_NoDup Hvalid ltac:(repeat constructor)) as [Hdesc Hdesc'].
  pose proof (valid_entry s partial _ data (plain "due_date" DateTimeField false true)
                TaskSerializer_NoDup Hvalid ltac:(repeat constructor)) as [Hdue Hdue'].
  pose proof (valid_entry s partial _ data (plain "is_completed" BooleanField false false)
                TaskSerializer_NoDup Hvalid ltac:(repeat constructor)) as [Hdone _].
  pose proof (valid_entry s partial _ data
                (plain "assigned_to" PrimaryKeyRelatedField false true)
                TaskSerializer_NoDup Hvalid ltac:(repeat constructor)) as [Hto Hto'].
  pose proof (valid_entry s partial _ data
                (plain "assigned_by" PrimaryKeyRelatedField false true)
                TaskSerializer_NoDup Hvalid ltac:(repeat constructor)) as [Hby Hby'].
  pose proof (valid_entry s partial _ data (plain "birth_date" DateField false true)
                TaskSerializer_NoDup Hvalid ltac:(repeat constructor)) as [Hbirth Hbirth'].
  cbn [field_name plain] in *.
  rewrite Htitle, Hdesc, Hdue, Hdone, Hto, Hby, Hbirth.
  clear Htitle Hdesc Hdue Hdone Hto Hby Hbirth.
  repeat apply conj.
  - intros x Hx. rewrite Hx in *.
    by rewrite (text_entry_validated s partial
                  (plain "title" (CharField 250 false) true false) x eq_refl Htitle').
  - intros x Hx. rewrite Hx in *.
    by rewrite (text_entry_validated s partial
                  (plain "description" (CharField 250 true) false false) x eq_refl Hdesc').
  - intros b Hb. by rewrite Hb.
  - intros u Hu. rewrite Hu in *. by rewrite (proj2 (fk_entry_validated _ _ _ _ _ _ Hto')).
  - intros u Hu. rewrite Hu in *. by rewrite (proj2 (fk_entry_validated _ _ _ _ _ _ Hby')).
  - intros x Hx. rewrite Hx in *. unfold run_validation in *. cbn in *.
    destruct (parse_datetime x) as [t|]; [by eauto|].
    by destruct (Hdue' "Datetime has wrong format.").
  - intros x Hx. rewrite Hx in *. unfold run_validation in *. cbn in *.
    destruct (parse_date x) as [t|]; [by eauto|].
    by destruct (Hbirth' "Date has wrong format.").
  - intros Hx. by rewrite Hx.
  - intros Hx. by rewrite Hx.
  - intros Hx. by rewrite Hx.
  - intros Hx. by rewrite Hx.
Qed.

Lemma valid_attendance_entries s partial data :
  is_valid s partial AttendanceSerializer_fields data = true →
  let vd := validated_data s partial AttendanceSerializer_fields data in
  (∀ u, data !! "user" = Some (VInt u) → vd !! "user" = Some (OInstance u))
  ∧ (∀ x, data !! "status" = Some (VStr x) →
       vd !! "status" = Some (OStr x) ∧ x ∈ Attendance_status_choices)
  ∧ (∀ x, data !! "check_out_time" = Some (VStr x) →
       vd !! "check_out_time" = ODateTime <$> parse_datetime x
       ∧ is_Some (parse_datetime x))
  ∧ (data !! "check_out_time" = Some VNone → vd !! "check_out_time" = Some ONone).
Proof.
  intros Hvalid vd. subst vd.
  pose proof (valid_entry s partial _ data (plain "user" PrimaryKeyRelatedField true false)
                AttendanceSerializer_NoDup Hvalid ltac:(repeat constructor)) as [Hu Hu'].
  pose proof (valid_entry s partial _ data
                (plain "status" (ChoiceField Attendance_status_choices) false false)
                AttendanceSerializer_NoDup Hvalid ltac:(repeat constructor)) as [Hst Hst'].
  pose proof (valid_entry s partial _ data (plain "check_out_time" DateTimeField false true)
                AttendanceSerializer_NoDup Hvalid ltac:(repeat constructor)) as [Hout Hout'].
  cbn [field_name plain] in *. rewrite Hu, Hst, Hout. clear Hu Hst Hout.
  repeat apply conj.
  - intros u Hx. rewrite Hx in *. by rewrite (proj2 (fk_entry_validated _ _ _ _ _ _ Hu')).
  - intros x Hx. rewrite Hx in *.
    destruct (choice_entry_validated _ _ _ _ _ _ _ Hst') as [-> Hin]. done.
  - intros x Hx. rewrite Hx in *. unfold run_validation in *. cbn in *.
    destruct (parse_datetime x) as [t|]; [by eauto|].
    by destruct (Hout' "Datetime has wrong format.").
  - intros Hx. by rewrite Hx.
Qed.


(** C6: for a task (an attendance record) that exists and a payload that
    passes the serializer, the generic update answers 200 exactly when the
    caller's role is Supervisor or the caller is the row's [assigned_to]
    ([user]).  It then stores the row overwritten by the payload and
    answers with the stored row: every validated entry is what its column
    now holds, every other attribute is as before, and a text, a truth
    value, a key, a date or a null in the payload is what the column holds
    (the text trimmed, the date parsed).  Otherwise it answers 401 and
    leaves the store as it was. *)
Theorem generic_update_supervisor_or_owner s request pk :
  (∀ task,
     tasks s !! pk = Some task →
     is_valid s false TaskSerializer_fields (request_data request) = true →
     let allowed := role (request_user request) = Types.SUPERVISOR
                    ∨ assigned_to task = Some (request_user_id request) in
     let data := request_data request in
     let vd := validated_data s false TaskSerializer_fields data in
     (status_of (TaskView_put s request pk) = Some HTTP_200_OK ↔ allowed)
     ∧ (allowed →
        (TaskView_put s request pk).2 =
          with_tasks s
            (<[pk := Task_setattrs task
                       (validated_data s false TaskSerializer_fields
                          (request_data request))]> (tasks s)))
     ∧ (allowed →
        ∃ task',
          TaskView_put s request pk
          = (Returns (mkResponse
                        (Data (to_representation TaskSerializer_fields
                                 (Task_dict pk task')))
                        HTTP_200_OK),
             with_tasks s (<[pk := task']> (tasks s)))
          ∧ (∀ name o, vd !! name = Some o →
               getattr (Task_dict pk task') name = Some o)
          ∧ (∀ name, vd !! name = None →
               getattr (Task_dict pk task') name = getattr (Task_dict pk task) name)
          ∧ (∀ x, data !! "title" = Some (VStr x) → title task' = strip x)
          ∧ (∀ x, data !! "description" = Some (VStr x) → description task' = strip x)
          ∧ (∀ b, data !! "is_completed" = Some (VBool b) → is_completed task' = b)
          ∧ (∀ u, data !! "assigned_to" = Some (VInt u) → assigned_to task' = Some u)
          ∧ (∀ u, data !! "assigned_by" = Some (VInt u) → assigned_by task' = Some u)
          ∧ (∀ x, data !! "due_date" = Some (VStr x) →
               due_date task' = parse_datetime x ∧ is_Some (parse_datetime x))
          ∧ (∀ x, data !! "birth_date" = Some (VStr x) →
               birth_date task' = parse_date x ∧ is_Some (parse_date x))
          ∧ (data !! "due_date" = Some VNone → due_date task' = None)
          ∧ (data !! "assigned_to" = Some VNone → assigned_to task' = None)
          ∧ (data !! "assigned_by" = Some VNone → assigned_by task' = None)
          ∧ (data !! "birth_date" = Some VNone → birth_date task' = None))
     ∧ (¬ allowed →
        Forbidden (TaskView_put s request pk) ∧ (TaskView_put s request pk).2 = s))
  ∧ (∀ attendance,
       attendances s !! pk = Some attendance →
       is_valid s false AttendanceSerializer_fields (request_data request) = true →
       let allowed := role (request_user request) = Types.SUPERVISOR
                      ∨ user attendance = request_user_id request in
       let data := request_data request in
       let vd := validated_data s false AttendanceSerializer_fields data in
       (status_of (AttendanceView_put s request pk) = Some HTTP_200_OK ↔ allowed)
       ∧ (allowed →
          (AttendanceView_put s request pk).2 =
            with_attendances s
              (<[pk := Attendance_setattrs attendance
                         (validated_data s false AttendanceSerializer_fields
                            (request_data request))]> (attendances s)))
       ∧ (allowed →
          ∃ attendance',
            AttendanceView_put s request pk
            = (Returns (mkResponse
                          (Data (to_representation AttendanceSerializer_fields
                                   (Attendance_dict pk attendance')))
                          HTTP_200_OK),
               with_attendances s (<[pk := attendance']> (attendances s)))
            ∧ (∀ name o, vd !! name = Some o →
                 getattr (Attendance_dict pk attendance') name = Some o)
            ∧ (∀ name, vd !! name = None →
                 getattr (Attendance_dict pk attendance') name
                 = getattr (Attendance_dict pk attendance) name)
            ∧ (∀ u, data !! "user" = Some (VInt u) → user attendance' = u)
            ∧ (∀ x, data !! "status" = Some (VStr x) → status attendance' = x)
            ∧ (∀ x, data !! "check_out_time" = Some (VStr x) →
                 check_out_time attendance' = parse_datetime x
                 ∧ is_Some (parse_datetime x))
            ∧ (data !! "check_out_time" = Some VNone → check_out_time attendance' = None))
       ∧ (¬ allowed →
          Forbidden (AttendanceView_put s request pk)
          ∧ (AttendanceView_put s request pk).2 = s)).
Proof.
  split.
  - intros task Hpk Hvalid allowed data vd.
    assert (allowed →
            TaskView_put s request pk
            = (Returns (mkResponse
                          (Data (to_representation TaskSerializer_fields
                                   (Task_dict pk (Task_setattrs task vd))))
                          HTTP_200_OK),
               with_tasks s (<[pk := Task_setattrs task vd]> (tasks s)))) as Hput.
    { subst allowed. unfold TaskView_put, TaskView_get_object. rewrite Hpk, Hvalid.
      intros [Hrole|Howner]; repeat case_bool_decide; done. }
    split; [|split; [|split]].
    + subst allowed. unfold TaskView_put, TaskView_get_object, status_of.
      rewrite Hpk, Hvalid. repeat case_bool_decide; cbn; (split; [intros ?|intros [?|?]]; try done; tauto).
    + intros Hallowed. by rewrite (Hput Hallowed).
    + intros Hallowed. exists (Task_setattrs task vd). split; [exact (Hput Hallowed)|].
      destruct (valid_task_entries s false data Hvalid)
        as (Htitle & Hdesc & Hdone & Hto & Hby & Hdue & Hbirth & Hdue0 & Hto0 & Hby0
            & Hbirth0).
      fold vd in Htitle, Hdesc, Hdone, Hto, Hby, Hdue, Hbirth, Hdue0, Hto0, Hby0, Hbirth0.
      split; [intros name o; apply Task_setattrs_writes|].
      split; [intros name; apply Task_setattrs_keeps|].
      unfold Task_setattrs;
        cbn [title description due_date is_completed assigned_to assigned_by birth_date];
        unfold attr_str, attr_bool, attr_datetime_null, attr_fk_null, attr_date_null.
      repeat apply conj.
      * intros x Hx. by rewrite (Htitle x Hx).
      * intros x Hx. by rewrite (Hdesc x Hx).
      * intros b Hb. by rewrite (Hdone b Hb).
      * intros u Hu. by rewrite (Hto u Hu).
      * intros u Hu. by rewrite (Hby u Hu).
      * intros x Hx. destruct (Hdue x Hx) as [-> [t ->]]. by eauto.
      * intros x Hx. destruct (Hbirth x Hx) as [-> [t ->]]. by eauto.
      * intros Hx. by rewrite (Hdue0 Hx).
      * intros Hx. by rewrite (Hto0 Hx).
      * intros Hx. by rewrite (Hby0 Hx).
      * intros Hx. by rewrite (Hbirth0 Hx).
    + subst allowed. unfold TaskView_put, TaskView_get_object, Forbidden, status_of.
      rewrite Hpk. repeat case_bool_decide; cbn; tauto.
  - intros attendance Hpk Hvalid allowed data vd.
    assert (allowed →
            AttendanceView_put s request pk
            = (Returns (mkResponse
                          (Data (to_representation AttendanceSerializer_fields
                                   (Attendance_dict pk (Attendance_setattrs attendance vd))))
                          HTTP_200_OK),
               with_attendances s
                 (<[pk := Attendance_setattrs attendance vd]> (attendances s)))) as Hput.
    { subst allowed. unfold AttendanceView_put, AttendanceView_get_object.
      rewrite Hpk, Hvalid. intros [Hrole|Howner]; repeat case_bool_decide; done. }
    split; [|split; [|split]].
    + subst allowed. unfold AttendanceView_put, AttendanceView_get_object, status_of.
      rewrite Hpk, Hvalid. repeat case_bool_decide; cbn; (split; [intros ?|intros [?|?]]; try done; tauto).
    + intros Hallowed. by rewrite (Hput Hallowed).
    + intros Hallowed. exists (Attendance_setattrs attendance vd).
      split; [exact (Hput Hallowed)|].
      destruct (valid_attendance_entries s false data Hvalid)
        as (Huser & Hstatus & Hout & Hout0).
      fold vd in Huser, Hstatus, Hout, Hout0.
      split; [intros name o; apply Attendance_setattrs_writes|].
      split; [intros name; apply Attendance_setattrs_keeps|].
      unfold Attendance_setattrs; cbn [user status check_out_time];
        unfold attr_str, attr_fk, attr_datetime_null.
      repeat apply conj.
      * intros u Hu. by rewrite (Huser u Hu).
      * intros x Hx. by rewrite (proj1 (Hstatus x Hx)).
      * intros x Hx. destruct (Hout x Hx) as [-> [t ->]]. by eauto.
      * intros Hx. by rewrite (Hout0 Hx).
    + subst allowed.
      unfold AttendanceView_put, AttendanceView_get_object, Forbidden, status_of.
      rewrite Hpk. repeat case_bool_decide; cbn; tauto.
Qed.

End GenericUpdate.

(** * The properties on the example database *)

#[local] Existing Instance example_environment.

(** The two jobs on the example database, where every profile is active. *)
Lemma birthday_job_on_example_store :
  send_happy_birthday_emails example_store = (Some (FieldError "birth_date"), [])
  ∧ (send_good_morning_emails example_store).1 = None
  ∧ length (send_good_morning_emails example_store).2 = 3%nat.
Proof. repeat split. Qed.



(** Against C3 as stated: an Intern who sends a status that is not one of
    the three choices gets 400, and no attendance record is created. *)
Lemma mark_attendance_refuses_unknown_status :
  role ian = Types.INTERN
  ∧ authenticated example_store (as_user 2 ian {[ "status" := VStr "Present" ]})
  ∧ status_of (MarkAttendanceView_post example_store
                 (as_user 2 ian {[ "status" := VStr "Present" ]}))
    = Some HTTP_400_BAD_REQUEST
  ∧ (MarkAttendanceView_post example_store
       (as_user 2 ian {[ "status" := VStr "Present" ]})).2 = example_store.
Proof. repeat split. Qed.

Lemma mark_attendance_records_the_caller_witness :
  role ian = Types.INTERN
  ∧ authenticated example_store (as_user 2 ian {[ "user" := VInt 3 ]})
  ∧ (MarkAttendanceView_post example_store (as_user 2 ian {[ "user" := VInt 3 ]})).2
    = with_attendances example_store
        (<[2 := {| user := 2; status := "P"; check_in_time := epoch;
                   check_out_time := None |}]> (attendances example_store))
  ∧ MarkAttendanceView_post example_store (as_user 5 sam ∅) =
      (Returns (mkResponse (Error "Only interns can mark attendance.")
                  HTTP_401_UNAUTHORIZED), example_store).
Proof.
  pose proof (mark_attendance_records_the_caller example_store
                (as_user 2 ian {[ "user" := VInt 3 ]})) as (_ & Hintern & _).
  pose proof (mark_attendance_records_the_caller example_store (as_user 5 sam ∅))
    as (Hother & _ & _).
  assert (role ian = Types.INTERN) as Hrole by reflexivity.
  assert (authenticated example_store (as_user 2 ian {[ "user" := VInt 3 ]})) as Hauth
    by reflexivity.
  specialize (Hintern Hrole Hauth).
  change (marked_status (request_data (as_user 2 ian {[ "user" := VInt 3 ]}) !! "status"))
    with (Some "P") in Hintern.
  destruct Hintern as [_ Hpost].
  split; [exact Hrole|]. split; [exact Hauth|].
  split; [rewrite Hpost; reflexivity|].
  apply Hother. discriminate.
Defined.

(** Against C4 as stated: a Supervisor who sends no title gets 400, and no
    task is created. *)
Lemma assign_task_refuses_missing_title :
  role sam = Types.SUPERVISOR
  ∧ authenticated example_store (as_user 1 sam {[ "assigned_to" := VInt 2 ]})
  ∧ status_of (AssignTaskView_post example_store
                 (as_user 1 sam {[ "assigned_to" := VInt 2 ]}))
    = Some HTTP_400_BAD_REQUEST
  ∧ (AssignTaskView_post example_store
       (as_user 1 sam {[ "assigned_to" := VInt 2 ]})).2 = example_store.
Proof. repeat split. Qed.

Lemma assign_task_records_the_caller_witness :
  role sam = Types.SUPERVISOR
  ∧ authenticated example_store (as_user 1 sam assign_payload)
  ∧ (∃ task,
       tasks (AssignTaskView_post example_store (as_user 1 sam assign_payload)).2 !! 4
       = Some task
       ∧ assigned_by task = Some 1)
  ∧ AssignTaskView_post example_store (as_user 2 ian assign_payload) =
      (Returns (mkResponse (Error "Only supervisors can assign tasks.")
                  HTTP_401_UNAUTHORIZED), example_store).
Proof.
  pose proof (assign_task_records_the_caller example_store (as_user 1 sam assign_payload))
    as (_ & Hsupervisor & _).
  pose proof (assign_task_records_the_caller example_store (as_user 2 ian assign_payload))
    as (Hother & _ & _).
  assert (role sam = Types.SUPERVISOR) as Hrole by reflexivity.
  assert (authenticated example_store (as_user 1 sam assign_payload)) as Hauth
    by reflexivity.
  specialize (Hsupervisor Hrole Hauth).
  change (is_valid example_store false TaskSerializer_fields
            (delete "assigned_by" (request_data (as_user 1 sam assign_payload))))
    with true in Hsupervisor.
  destruct Hsupervisor as (task & _ & Hby & Hpost).
  split; [exact Hrole|]. split; [exact Hauth|].
  split; [|apply Hother; discriminate].
  exists task. split; [|exact Hby].
  rewrite Hpost. apply lookup_insert_eq.
Defined.

(** Against C5 as stated: a task that a user assigned to themselves does
    not survive their deletion. *)
Lemma delete_profile_removes_self_assigned_task :
  tasks example_store !! 2 = Some review
  ∧ assigned_by review = Some 1
  ∧ tasks (UserProfileView_delete example_store (as_user 1 sam ∅) 1).2 !! 2 = None.
Proof. repeat split. Qed.

Lemma delete_profile_cascades_witness :
  role sam = Types.SUPERVISOR
  ∧ is_Some (user_profiles example_store !! 2)
  ∧ ∃ s',
      UserProfileView_delete example_store (as_user 1 sam ∅) 2 =
        (Returns (mkResponse (Message "UserProfile deleted.") HTTP_200_OK), s')
      ∧ tasks s' !! 1 = None
      ∧ attendances s' !! 1 = None
      ∧ tasks s' !! 3 = Some slides.
Proof.
  assert (role sam = Types.SUPERVISOR) as Hrole by reflexivity.
  assert (is_Some (user_profiles example_store !! 2)) as Hin by (exists ian; reflexivity).
  destruct (delete_profile_cascades example_store (as_user 1 sam ∅) 2 Hrole Hin)
    as (s' & Hdel & _ & Htasks & Hattendances & _ & Hkeep & _).
  split; [exact Hrole|]. split; [exact Hin|].
  exists s'. split; [exact Hdel|]. split; [|split].
  - apply (Htasks 1 report); reflexivity.
  - apply (Hattendances 1 monday); reflexivity.
  - apply (Hkeep 3 slides); [reflexivity|discriminate|discriminate].
Defined.

Lemma generic_update_supervisor_or_owner_witness :
  (tasks example_store !! 1 = Some report
   ∧ is_valid example_store false TaskSerializer_fields retitle = true
   ∧ status_of (TaskView_put example_store (as_user 2 ian retitle) 1) = Some HTTP_200_OK
   ∧ (∃ task',
        tasks (TaskView_put example_store (as_user 2 ian retitle) 1).2 !! 1 = Some task'
        ∧ title task' = "Report, second draft"
        ∧ title report = "Report"
        ∧ assigned_to task' = assigned_to report)
   ∧ Forbidden (TaskView_put example_store (as_user 3 jo retitle) 1)
   ∧ (TaskView_put example_store (as_user 3 jo retitle) 1).2 = example_store)
  ∧ (attendances example_store !! 1 = Some monday
     ∧ is_valid example_store false AttendanceSerializer_fields checkout = true
     ∧ status_of (AttendanceView_put example_store (as_user 1 sam checkout) 1)
       = Some HTTP_200_OK
     ∧ (∃ attendance',
          attendances (AttendanceView_put example_store (as_user 1 sam checkout) 1).2 !! 1
          = Some attendance'
          ∧ status attendance' = "L"
          ∧ status monday = "P"
          ∧ user attendance' = 2)
     ∧ Forbidden (AttendanceView_put example_store (as_user 3 jo checkout) 1)
     ∧ (AttendanceView_put example_store (as_user 3 jo checkout) 1).2 = example_store).
Proof.
  assert (tasks example_store !! 1 = Some report) as Htask by reflexivity.
  assert (is_valid example_store false TaskSerializer_fields retitle = true) as Hvalid
    by reflexivity.
  assert (attendances example_store !! 1 = Some monday) as Hattendance by reflexivity.
  assert (is_valid example_store false AttendanceSerializer_fields checkout = true)
    as Hvalid' by reflexivity.
  destruct (proj1 (generic_update_supervisor_or_owner example_store
                     (as_user 2 ian retitle) 1) report Htask Hvalid)
    as (Hian & _ & Hwritten & _).
  destruct (proj1 (generic_update_supervisor_or_owner example_store
                     (as_user 3 jo retitle) 1) report Htask Hvalid) as (_ & _ & _ & Hjo).
  destruct (proj2 (generic_update_supervisor_or_owner example_store
                     (as_user 1 sam checkout) 1) monday Hattendance Hvalid')
    as (Hsam & _ & Hwritten' & _).
  destruct (proj2 (generic_update_supervisor_or_owner example_store
                     (as_user 3 jo checkout) 1) monday Hattendance Hvalid')
    as (_ & _ & _ & Hjo').
  assert (¬ (role jo = Types.SUPERVISOR ∨ assigned_to report = Some 3)) as Hno
    by (intros [Hs|Ho]; discriminate).
  assert (¬ (role jo = Types.SUPERVISOR ∨ user monday = 3)) as Hno'
    by (intros [Hs|Ho]; discriminate).
  destruct (Hwritten (or_intror eq_refl))
    as (task' & Hput & _ & Hkept & Htitle & _).
  destruct (Hwritten' (or_introl eq_refl))
    as (attendance' & Hput' & _ & _ & Huser & Hstatus & _).
  split.
  - split; [exact Htask|]. split; [exact Hvalid|].
    split; [apply Hian; right; reflexivity|].
    split; [|exact (Hjo Hno)].
    exists task'. split; [rewrite Hput; apply lookup_insert_eq|].
    split; [exact (Htitle "Report, second draft" eq_refl)|]. split; [reflexivity|].
    assert (Some (from_fk (assigned_to task')) = Some (from_fk (assigned_to report)))
      as Hto by exact (Hkept "assigned_to" eq_refl).
    destruct (assigned_to task') as [u|]; vm_compute in Hto; [|discriminate Hto].
    injection Hto as ->. reflexivity.
  - split; [exact Hattendance|]. split; [exact Hvalid'|].
    split; [apply Hsam; left; reflexivity|].
    split; [|exact (Hjo' Hno')].
    exists attendance'. split; [rewrite Hput'; apply lookup_insert_eq|].
    split; [exact (Hstatus "L" eq_refl)|]. split; [reflexivity|].
    exact (Huser 2 eq_refl).
Defined.

Lemma non_supervisor_create_delete_forbidden_witness :
  role ian ≠ Types.SUPERVISOR
  ∧ Forbidden (TaskView_post example_store (as_user 2 ian retitle))
  ∧ (TaskView_post example_store (as_user 2 ian retitle)).2 = example_store
  ∧ Forbidden (UserProfileView_delete example_store (as_user 2 ian ∅) 3)
  ∧ (AttendanceView_delete example_store (as_user 2 ian ∅) 1).2 = example_store.
Proof.
  assert (role ian ≠ Types.SUPERVISOR) as Hrole by discriminate.
  destruct (non_supervisor_create_delete_forbidden example_store
              (as_user 2 ian retitle) Hrole) as (_ & [Hpost Hsame] & _).
  destruct (non_supervisor_create_delete_forbidden example_store
              (as_user 2 ian ∅) Hrole) as (_ & _ & _ & Hu & _ & Ha).
  split; [exact Hrole|]. split; [exact Hpost|]. split; [exact Hsame|].
  split.
  - apply (Hu 3). exists jo. reflexivity.
  - apply (Ha 1). exists monday. reflexivity.
Defined.

Lemma complete_own_task_sets_only_the_flag_witness :
  role ian = Types.INTERN
  ∧ tasks example_store !! 1 = Some report
  ∧ assigned_to report = Some 2
  ∧ ∃ task',
      tasks (MarkTaskCompleteView_patch example_store (as_user 2 ian ∅) 1).2 !! 1
      = Some task'
      ∧ is_completed task' = true
      ∧ title task' = "Report"
      ∧ assigned_by task' = Some 1.
Proof.
  assert (role ian = Types.INTERN) as Hrole by reflexivity.
  assert (tasks example_store !! 1 = Some report) as Htask by reflexivity.
  assert (assigned_to report = Some 2) as Hto by reflexivity.
  destruct (complete_own_task_sets_only_the_flag example_store (as_user 2 ian ∅) 1
              report Hrole Htask Hto)
    as (task' & s' & Hpatch & Hs' & Hflag & Htitle & _ & _ & _ & _ & Hby & _).
  split; [exact Hrole|]. split; [exact Htask|]. split; [exact Hto|].
  exists task'. rewrite Hpatch, Hs'. split; [apply lookup_insert_eq|].
  split; [exact Hflag|]. split; [by rewrite Htitle|by rewrite Hby].
Defined.

(** The steps of an update, one request for each way it can end. *)
Example update_steps_on_example_store :
  status_of (TaskView_put example_store (as_user 3 jo retitle) 9) = Some HTTP_404_NOT_FOUND
  ∧ status_of (TaskView_put example_store (as_user 3 jo ∅) 1) = Some HTTP_401_UNAUTHORIZED
  ∧ status_of (TaskView_put example_store (as_user 2 ian ∅) 1) = Some HTTP_400_BAD_REQUEST
  ∧ status_of (TaskView_put example_store (as_user 2 ian retitle) 1) = Some HTTP_200_OK
  ∧ title <$> tasks (TaskView_put example_store (as_user 2 ian retitle) 1).2 !! 1
    = Some "Report, second draft".
Proof. repeat split. Qed.

(** What an Intern reads of the Supervisor's profile. *)
Example profile_read_on_example_store :
  shows_key (UserProfileView_get example_store (as_user 2 ian ∅) (Some 1)) "username"
  ∧ shows_key (UserProfileView_get example_store (as_user 2 ian ∅) None) "email"
  ∧ ¬ shows_key (UserProfileView_get example_store (as_user 2 ian ∅) (Some 1)) "password".
Proof.
  split; [by eexists|]. split; [apply Exists_cons_hd; by eexists|].
  intros [v Hv]. vm_compute in Hv. discriminate Hv.
Qed.

(** ** The rest of the application on the example database *)

#[local] Existing Instance example_backend.

Lemma example_store_integrity : referential_integrity example_store.
Proof.
  split.
  - intros k task u Hk Hu. unfold example_store in Hk; cbn [tasks] in Hk.
    repeat (rewrite lookup_insert in Hk; case_decide;
            [injection Hk as <-; destruct Hu as [Hu|Hu]; injection Hu as <-;
             by eexists|]).
    by rewrite lookup_empty in Hk.
  - intros k attendance Hk. unfold example_store in Hk; cbn [attendances] in Hk.
    repeat (rewrite lookup_insert in Hk; case_decide; [injection Hk as <-; by eexists|]).
    by rewrite lookup_empty in Hk.
Qed.

Lemma example_store_positive : positive_keys example_store.
Proof.
  unfold positive_keys, example_store; cbn [user_profiles tasks attendances].
  repeat apply conj; intros k [row Hk];
    repeat (rewrite lookup_insert in Hk; case_decide; [lia|]);
    by rewrite lookup_empty in Hk.
Qed.

Lemma example_store_unique : unique_profiles example_store.
Proof.
  intros k1 k2 u1 u2 H1 H2. unfold example_store in H1, H2; cbn [user_profiles] in H1, H2.
  repeat (rewrite lookup_insert in H1; case_decide; [injection H1 as <-|]);
    try (by rewrite lookup_empty in H1);
    repeat (rewrite lookup_insert in H2; case_decide; [injection H2 as <-|]);
    try (by rewrite lookup_empty in H2);
    subst; try done; intros [Hu|Hu]; discriminate Hu.
Qed.

Lemma reads_leave_the_store_witness :
  NotFound (TaskView_get example_store (as_user 2 ian ∅) (Some 9))
  ∧ (TaskView_get example_store (as_user 2 ian ∅) (Some 9)).2 = example_store
  ∧ listed (UserProfileView_get example_store (as_user 2 ian ∅) None) = Some 3%nat
  ∧ listed (AttendanceView_get example_store (as_user 2 ian ∅) (Some 0)) = Some 1%nat.
Proof.
  destruct (reads_leave_the_store example_store (as_user 2 ian ∅) (Some 9))
    as ((_ & _ & Hprofiles & _) & (Hsame & Hmissing & _) & (_ & _ & Hlist & Hzero)).
  split; [apply Hmissing; exists 9; repeat split; discriminate|].
  split; [exact Hsame|]. split; [exact Hprofiles|].
  rewrite Hzero. exact Hlist.
Defined.

Lemma task_create_then_retrieve_witness :
  role sam = Types.SUPERVISOR
  ∧ is_valid example_store false TaskSerializer_fields task_for_jo = true
  ∧ ∃ pk d s',
      TaskView_post example_store (as_user 1 sam task_for_jo)
        = (Returns (mkResponse (Data d) HTTP_201_CREATED), s')
      ∧ d !! "id" = Some (VInt pk)
      ∧ TaskView_get s' (as_user 3 jo ∅) (Some pk)
        = (Returns (mkResponse (Data d) HTTP_200_OK), s').
Proof.
  assert (role sam = Types.SUPERVISOR) as Hrole by reflexivity.
  assert (is_valid example_store false TaskSerializer_fields task_for_jo = true)
    as Hvalid by reflexivity.
  destruct (task_create_then_retrieve example_store (as_user 1 sam task_for_jo)
              Hrole Hvalid) as (pk & d & s' & Hpost & Hid & _ & _ & _ & _ & _ & Hget).
  split; [exact Hrole|]. split; [exact Hvalid|].
  exists pk, d, s'. split; [exact Hpost|]. split; [exact Hid|apply Hget].
Defined.

Lemma attendance_create_then_retrieve_witness :
  role sam = Types.SUPERVISOR
  ∧ is_valid example_store false AttendanceSerializer_fields checkout = true
  ∧ ∃ pk d s',
      AttendanceView_post example_store (as_user 1 sam checkout)
        = (Returns (mkResponse (Data d) HTTP_201_CREATED), s')
      ∧ attendances example_store !! pk = None
      ∧ AttendanceView_get s' (as_user 3 jo ∅) (Some pk)
        = (Returns (mkResponse (Data d) HTTP_200_OK), s').
Proof.
  assert (role sam = Types.SUPERVISOR) as Hrole by reflexivity.
  assert (is_valid example_store false AttendanceSerializer_fields checkout = true)
    as Hvalid by reflexivity.
  destruct (attendance_create_then_retrieve example_store (as_user 1 sam checkout)
              Hrole Hvalid) as (pk & d & s' & Hpost & _ & _ & Hfree & _ & _ & _ & Hget).
  split; [exact Hrole|]. split; [exact Hvalid|].
  exists pk, d, s'. split; [exact Hpost|]. split; [exact Hfree|apply Hget].
Defined.

Lemma supervisor_delete_removes_the_row_witness :
  role sam = Types.SUPERVISOR
  ∧ is_Some (tasks example_store !! 1)
  ∧ is_Some (attendances example_store !! 1)
  ∧ (∃ s', TaskView_delete example_store (as_user 1 sam ∅) 1
           = (Returns (mkResponse (Message "Task deleted.") HTTP_200_OK), s')
           ∧ NotFound (TaskView_delete s' (as_user 1 sam ∅) 1))
  ∧ (∃ s', AttendanceView_delete example_store (as_user 1 sam ∅) 1
           = (Returns (mkResponse (Message "Attendance record deleted.") HTTP_200_OK),
              s')
           ∧ NotFound (AttendanceView_put s' (as_user 2 ian checkout) 1)).
Proof.
  assert (role sam = Types.SUPERVISOR) as Hrole by reflexivity.
  assert (is_Some (tasks example_store !! 1)) as Htask by (exists report; reflexivity).
  assert (is_Some (attendances example_store !! 1)) as Hattendance
    by (exists monday; reflexivity).
  destruct (supervisor_delete_removes_the_row example_store (as_user 1 sam ∅) 1 Hrole)
    as [Ht Ha].
  destruct (Ht Htask) as (s1 & Hdel & _ & _ & _ & Hagain & _).
  destruct (Ha Hattendance) as (s2 & Hdel' & _ & _ & _ & _ & Hput).
  split; [exact Hrole|]. split; [exact Htask|]. split; [exact Hattendance|]. split.
  - exists s1. split; [exact Hdel|apply Hagain].
  - exists s2. split; [exact Hdel'|apply Hput].
Defined.

Lemma assign_is_create_with_forced_assigner_witness :
  role sam = Types.SUPERVISOR
  ∧ AssignTaskView_post example_store (as_user 1 sam assign_payload)
    = TaskView_post example_store
        (with_data (as_user 1 sam assign_payload)
           (<["assigned_by" := VInt 1]> assign_payload))
  ∧ status_of (AssignTaskView_post example_store (as_user 2 ian assign_payload))
    = status_of (TaskView_post example_store
                   (with_data (as_user 2 ian assign_payload)
                      (<["assigned_by" := VInt 2]> assign_payload))).
Proof.
  assert (role sam = Types.SUPERVISOR) as Hrole by reflexivity.
  destruct (assign_is_create_with_forced_assigner example_store
              (as_user 1 sam assign_payload)) as (_ & _ & Hsame).
  destruct (assign_is_create_with_forced_assigner example_store
              (as_user 2 ian assign_payload)) as (Hstatus & _ & _).
  split; [exact Hrole|]. split; [exact (Hsame Hrole)|exact Hstatus].
Defined.

Lemma complete_task_answers_witness :
  role ian = Types.INTERN
  ∧ tasks example_store !! 1 = Some report
  ∧ assigned_to report = Some 2
  ∧ status_of (MarkTaskCompleteView_patch example_store (as_user 2 ian ∅) 1)
    = Some HTTP_200_OK
  ∧ tasks (MarkTaskCompleteView_patch example_store (as_user 2 ian ∅) 1).2 !! 3
    = Some slides.
Proof.
  destruct (complete_task_answers example_store (as_user 2 ian ∅) 1)
    as (_ & Hok & _ & _ & _ & Hothers).
  split; [reflexivity|]. split; [reflexivity|]. split; [reflexivity|]. split.
  - apply Hok. split; [reflexivity|]. exists report. split; reflexivity.
  - rewrite Hothers by discriminate. reflexivity.
Defined.

Lemma calls_keep_referential_integrity_witness :
  referential_integrity example_store
  ∧ referential_integrity (perform_all example_store example_calls).
Proof.
  split; [exact example_store_integrity|].
  apply (calls_keep_referential_integrity example_store example_calls
           example_store_integrity).
Defined.

Lemma calls_keep_rows_retrievable_witness :
  positive_keys example_store
  ∧ positive_keys (perform_all example_store example_calls)
  ∧ status_of (TaskView_get (perform_all example_store example_calls)
                 (as_user 3 jo ∅) (Some 3)) = Some HTTP_200_OK.
Proof.
  destruct (calls_keep_rows_retrievable example_store example_calls
              example_store_positive) as (Hpos & _ & Htasks & _).
  split; [exact example_store_positive|]. split; [exact Hpos|].
  rewrite (Htasks 3 slides (as_user 3 jo ∅)); reflexivity.
Defined.

Lemma calls_keep_profiles_unique_witness :
  unique_profiles example_store
  ∧ unique_profiles (perform_all example_store example_calls).
Proof.
  split; [exact example_store_unique|].
  apply (calls_keep_profiles_unique example_store example_calls example_store_unique).
Defined.

Lemma create_profile_without_role_raises_witness :
  role sam = Types.SUPERVISOR
  ∧ is_valid example_store false (UserProfileSerializer_fields example_store None)
      new_profile_without_role = true
  ∧ new_profile_without_role !! "role" = None
  ∧ UserProfileView_post example_store (as_user 1 sam new_profile_without_role)
    = (Raises (KeyError "role"), example_store).
Proof.
  assert (role sam = Types.SUPERVISOR) as Hrole by reflexivity.
  assert (is_valid example_store false (UserProfileSerializer_fields example_store None)
            new_profile_without_role = true) as Hvalid by reflexivity.
  assert (new_profile_without_role !! "role" = None) as Hnone by reflexivity.
  split; [exact Hrole|]. split; [exact Hvalid|]. split; [exact Hnone|].
  exact (create_profile_without_role_raises example_store
           (as_user 1 sam new_profile_without_role) Hrole Hvalid Hnone).
Defined.

Lemma created_profiles_are_plain_accounts_witness :
  user_profiles (UserProfileView_post example_store (as_user 1 sam new_profile)).2 !! 4
    = Some amy
  ∧ user_profiles example_store !! 4 = None
  ∧ is_superuser amy = false
  ∧ ∃ raw, password amy = make_password raw.
Proof.
  assert (user_profiles (UserProfileView_post example_store
                           (as_user 1 sam new_profile)).2 !! 4 = Some amy) as Hnew
    by reflexivity.
  split; [exact Hnew|].
  destruct (created_profiles_are_plain_accounts example_store (as_user 1 sam new_profile)
              4 amy Hnew) as [Hold|(Hfree & _ & _ & Hsuper & _ & _ & _ & _ & _ & Hhash)].
  - discriminate Hold.
  - split; [exact Hfree|]. split; [exact Hsuper|exact Hhash].
Defined.

Lemma update_profile_writes_the_payload_witness :
  role sam = Types.SUPERVISOR
  ∧ user_profiles example_store !! 3 = Some jo
  ∧ is_valid example_store false (UserProfileSerializer_fields example_store (Some 3))
      promote_jo = true
  ∧ ∃ profile',
      user_profiles (UserProfileView_put example_store (as_user 1 sam promote_jo) 3).2
        !! 3 = Some profile'
      ∧ password profile' = "plain"
      ∧ is_superuser profile' = true.
Proof.
  assert (role sam = Types.SUPERVISOR) as Hrole by reflexivity.
  assert (user_profiles example_store !! 3 = Some jo) as Hjo by reflexivity.
  assert (is_valid example_store false
            (UserProfileSerializer_fields example_store (Some 3)) promote_jo = true)
    as Hvalid by reflexivity.
  destruct (update_profile_writes_the_payload example_store (as_user 1 sam promote_jo) 3
              jo Hrole Hjo Hvalid) as (profile' & Hput & _ & Hpassword & Hsuper).
  split; [exact Hrole|]. split; [exact Hjo|]. split; [exact Hvalid|].
  exists profile'. split; [exact Hput|]. split.
  - rewrite (Hpassword " plain "); reflexivity.
  - apply Hsuper. reflexivity.
Defined.

Lemma create_profile_stores_a_hashed_password_witness :
  role sam = Types.SUPERVISOR
  ∧ is_valid example_store false (UserProfileSerializer_fields example_store None)
      new_profile = true
  ∧ username_taken example_store None (normalize_username (strip " amy ")) = false
  ∧ email_taken example_store None (normalize_email (strip "amy@example.com")) = false
  ∧ ∃ d,
      UserProfileView_post example_store (as_user 1 sam new_profile)
        = (Returns (mkResponse (Data d) HTTP_201_CREATED),
           with_user_profiles example_store (<[4 := amy]> (user_profiles example_store)))
      ∧ d !! "password" = None.
Proof.
  assert (role sam = Types.SUPERVISOR) as Hrole by reflexivity.
  assert (is_valid example_store false (UserProfileSerializer_fields example_store None)
            new_profile = true) as Hvalid by reflexivity.
  assert (username_taken example_store None (normalize_username (strip " amy ")) = false)
    as Hn by reflexivity.
  assert (email_taken example_store None (normalize_email (strip "amy@example.com"))
          = false) as He by reflexivity.
  destruct (create_profile_stores_a_hashed_password example_store
              (as_user 1 sam new_profile) " amy " "amy@example.com" " pw " "Intern"
              Hrole Hvalid eq_refl eq_refl eq_refl eq_refl Hn He)
    as (d & Hpost & Hd & _).
  split; [exact Hrole|]. split; [exact Hvalid|]. split; [exact Hn|]. split; [exact He|].
  exists d. split; [exact Hpost|exact Hd].
Defined.

Lemma assign_then_complete_witness :
  role sam = Types.SUPERVISOR
  ∧ authenticated example_store (as_user 1 sam assign_payload)
  ∧ assign_payload !! "assigned_to" = Some (VInt 2)
  ∧ is_valid example_store false TaskSerializer_fields
      (delete "assigned_by" assign_payload) = true
  ∧ role ian = Types.INTERN
  ∧ role jo = Types.INTERN
  ∧ ∃ pk created s1 s2,
      AssignTaskView_post example_store (as_user 1 sam assign_payload)
        = (Returns (mkResponse
                      (Data (to_representation TaskSerializer_fields
                               (Task_dict pk created)))
                      HTTP_201_CREATED), s1)
      ∧ NotFound (MarkTaskCompleteView_patch s1 (as_user 3 jo ∅) pk)
      ∧ MarkTaskCompleteView_patch s1 (as_user 2 ian ∅) pk
        = (Returns (mkResponse (Message "Task marked as complete.") HTTP_200_OK), s2)
      ∧ tasks s2 !! pk = Some (set_is_completed created true).
Proof.
  assert (role sam = Types.SUPERVISOR) as Hrole by reflexivity.
  assert (authenticated example_store (as_user 1 sam assign_payload)) as Hauth
    by reflexivity.
  assert (assign_payload !! "assigned_to" = Some (VInt 2)) as Hto by reflexivity.
  assert (is_valid example_store false TaskSerializer_fields
            (delete "assigned_by" assign_payload) = true) as Hvalid by reflexivity.
  assert (role ian = Types.INTERN) as Hian by reflexivity.
  assert (role jo = Types.INTERN) as Hjo by reflexivity.
  assert (request_user_id (as_user 3 jo ∅) ≠ request_user_id (as_user 2 ian ∅)) as Hne
    by discriminate.
  destruct (assign_then_complete example_store (as_user 1 sam assign_payload)
              (as_user 2 ian ∅) (as_user 3 jo ∅) Hrole Hauth Hto Hvalid Hian Hjo Hne)
    as (pk & created & s1 & s2 & Hassign & _ & _ & Hother & Hown & Hdone).
  split; [exact Hrole|]. split; [exact Hauth|]. split; [exact Hto|].
  split; [exact Hvalid|]. split; [exact Hian|]. split; [exact Hjo|].
  exists pk, created, s1, s2. split; [exact Hassign|].
  split; [by rewrite Hother|]. split; [exact Hown|exact Hdone].
Defined.

Lemma mark_attendance_twice_witness :
  role ian = Types.INTERN
  ∧ authenticated example_store (as_user 2 ian late)
  ∧ marked_status (late !! "status") = Some "L"
  ∧ ∃ pk1 pk2 s1 s2,
      (MarkAttendanceView_post example_store
         (as_user 2 ian late)).2 = s1
      ∧ (MarkAttendanceView_post s1 (as_user 2 ian late)).2 = s2
      ∧ pk1 ≠ pk2
      ∧ status <$> attendances s2 !! pk1 = Some "L"
      ∧ user <$> attendances s2 !! pk2 = Some 2.
Proof.
  assert (role ian = Types.INTERN) as Hrole by reflexivity.
  assert (authenticated example_store (as_user 2 ian late))
    as Hauth by reflexivity.
  assert (marked_status (request_data (as_user 2 ian late)
                           !! "status") = Some "L") as Hstatus by reflexivity.
  destruct (mark_attendance_twice example_store (as_user 2 ian late)
              "L" Hrole Hauth Hstatus)
    as (pk1 & pk2 & s1 & s2 & d1 & d2 & Hfirst & Hsecond & Hne & _ & _ & H1 & H2).
  split; [exact Hrole|]. split; [exact Hauth|]. split; [exact Hstatus|].
  exists pk1, pk2, s1, s2. split; [by rewrite Hfirst|]. split; [by rewrite Hsecond|].
  split; [exact Hne|]. split; [by rewrite H1|by rewrite H2].
Defined.

Lemma deleted_profile_cannot_be_referenced_witness :
  role sam = Types.SUPERVISOR
  ∧ is_Some (user_profiles example_store !! 3)
  ∧ task_for_jo !! "assigned_to" = Some (VInt 3)
  ∧ attendance_for_jo !! "user" = Some (VInt 3)
  ∧ status_of (AssignTaskView_post example_store (as_user 1 sam task_for_jo))
    = Some HTTP_201_CREATED
  ∧ ∃ s',
      (UserProfileView_delete example_store (as_user 1 sam ∅) 3).2 = s'
      ∧ status_of (AssignTaskView_post s' (as_user 1 sam task_for_jo))
        = Some HTTP_400_BAD_REQUEST
      ∧ (AttendanceView_post s' (as_user 1 sam attendance_for_jo)).2 = s'.
Proof.
  assert (role sam = Types.SUPERVISOR) as Hrole by reflexivity.
  assert (is_Some (user_profiles example_store !! 3)) as Hjo by (exists jo; reflexivity).
  assert (task_for_jo !! "assigned_to" = Some (VInt 3)) as Hto by reflexivity.
  assert (attendance_for_jo !! "user" = Some (VInt 3)) as Hu by reflexivity.
  destruct (deleted_profile_cannot_be_referenced example_store (as_user 1 sam ∅) 3
              (as_user 1 sam task_for_jo) Hrole Hjo Hrole) as (s1 & Hdel & Htask & _).
  destruct (deleted_profile_cannot_be_referenced example_store (as_user 1 sam ∅) 3
              (as_user 1 sam attendance_for_jo) Hrole Hjo Hrole)
    as (s2 & Hdel' & _ & Hattendance).
  assert (s2 = s1) as -> by congruence.
  destruct (Htask Hto) as (_ & [Hassign _] & _).
  destruct (Hattendance Hu) as ([_ Hsame] & _).
  split; [exact Hrole|]. split; [exact Hjo|]. split; [exact Hto|]. split; [exact Hu|].
  split; [reflexivity|].
  exists s1. split; [by rewrite Hdel|]. split; [exact Hassign|exact Hsame].
Defined.

Lemma update_touches_one_row_witness :
  ("created_at" ∉ ["title"; "description"; "due_date"; "is_completed"; "assigned_to";
                   "assigned_by"; "birth_date"])
  ∧ validated_data example_store false TaskSerializer_fields
      (<["created_at" := VStr "1999-01-01"]> retitle) !! "created_at" = None
  ∧ tasks example_store !! 1 = Some report
  ∧ ∃ task',
      tasks (TaskView_put example_store
               (as_user 2 ian (<["created_at" := VStr "1999-01-01"]> retitle)) 1).2 !! 1
      = Some task'
      ∧ title task' = "Report, second draft"
      ∧ created_at task' = epoch.
Proof.
  assert ("created_at" ∉ ["title"; "description"; "due_date"; "is_completed";
                          "assigned_to"; "assigned_by"; "birth_date"]) as Hnot.
  { intros Hin. repeat (apply elem_of_cons in Hin as [Hin|Hin]; [discriminate Hin|]).
    by apply elem_of_nil in Hin. }
  destruct (update_touches_one_row example_store
              (as_user 2 ian (<["created_at" := VStr "1999-01-01"]> retitle)) 1)
    as (Hdropped & _ & (_ & _ & _ & _ & Hcreated) & _).
  split; [exact Hnot|]. split; [apply Hdropped, Hnot|]. split; [reflexivity|].
  eexists. split; [reflexivity|]. split; [reflexivity|].
  apply (Hcreated report); reflexivity.
Defined.

Lemma update_keeps_absent_columns_witness :
  tasks example_store !! 1 = Some report
  ∧ retitle !! "assigned_to" = None
  ∧ ∃ task',
      tasks (TaskView_put example_store (as_user 2 ian retitle) 1).2 !! 1 = Some task'
      ∧ title task' = "Report, second draft"
      ∧ assigned_to task' = Some 2.
Proof.
  assert (tasks example_store !! 1 = Some report) as Hreport by reflexivity.
  assert (retitle !! "assigned_to" = None) as Habsent by reflexivity.
  destruct (update_keeps_absent_columns example_store (as_user 2 ian retitle) 1)
    as [Htasks _].
  split; [exact Hreport|]. split; [exact Habsent|].
  eexists. split; [reflexivity|]. split; [reflexivity|].
  destruct (Htasks report _ Hreport eq_refl) as (_ & _ & _ & _ & Hto & _).
  exact (Hto Habsent).
Defined.

Lemma good_morning_to_the_active_until_a_failure_witness :
  ((send_good_morning_emails example_store).1 = None
   ∧ recipient_list <$> (send_good_morning_emails example_store).2
     = [["sam@example.com"]; ["ian@example.com"]; ["jo@example.com"]])
  ∧ ((@send_good_morning_emails refusing_environment example_store).1
     = Some SMTPException
     ∧ recipient_list <$> (@send_good_morning_emails refusing_environment example_store).2
       = [["sam@example.com"]]).
Proof.
  destruct (good_morning_to_the_active_until_a_failure example_store)
    as (Hsent & Hnone & _).
  destruct (@good_morning_to_the_active_until_a_failure refusing_environment
              example_store) as (Hsent' & Hnone' & [Hend|Hend] & _).
  - apply Hnone' in Hend. rewrite Hsent' in Hend. vm_compute in Hend. discriminate Hend.
  - split.
    + split; [apply Hnone; rewrite Hsent; reflexivity|rewrite Hsent; reflexivity].
    + split; [exact Hend|rewrite Hsent'; reflexivity].
Defined.

Lemma sign_in_twice_gives_the_same_token_witness :
  authenticate example_store (ian_credentials !! "username")
    (ian_credentials !! "password") = Some 2
  ∧ ∃ key,
      auth_token (AuthView_post example_store no_tokens None ian_credentials
                    "sign-in").1 = Some key
      ∧ auth_token
          (AuthView_post
             (AuthView_post example_store no_tokens None ian_credentials "sign-in").2.1
             (AuthView_post example_store no_tokens None ian_credentials "sign-in").2.2
             (Some 2) ian_credentials "sign-in").1 = Some key.
Proof.
  assert (authenticate example_store (ian_credentials !! "username")
            (ian_credentials !! "password") = Some 2) as Hfirst by reflexivity.
  assert (authenticate
            (AuthView_post example_store no_tokens None ian_credentials "sign-in").2.1
            (ian_credentials !! "username") (ian_credentials !! "password") = Some 2)
    as Hsecond by reflexivity.
  destruct (sign_in_twice_gives_the_same_token example_store no_tokens None (Some 2)
              ian_credentials ian_credentials 2 Hfirst Hsecond)
    as (key & H1 & H2 & _).
  split; [exact Hfirst|]. exists key. split; [exact H1|exact H2].
Defined.

Lemma auth_view_never_revokes_witness :
  tokens one_token !! 2 = Some "key-0"
  ∧ tokens (AuthView_post example_store one_token (Some 2) ∅ "sign-out").2.2 !! 2
    = Some "key-0"
  ∧ (AuthView_post example_store one_token (Some 2) ∅ "sign-up").2.1 = example_store.
Proof.
  assert (tokens one_token !! 2 = Some "key-0") as Hkey by reflexivity.
  destruct (auth_view_never_revokes example_store one_token (Some 2) ∅ "sign-out")
    as (Hkept & _).
  destruct (auth_view_never_revokes example_store one_token (Some 2) ∅ "sign-up")
    as (_ & _ & _ & _ & Hquiet & _).
  split; [exact Hkey|]. split; [exact (Hkept 2 "key-0" Hkey)|].
  exact (proj1 (Hquiet eq_refl)).
Defined.
